(** * Solstice datacenter model: a shallow embedding and its properties

    The development follows the layout of the Python sources:

    - [utils/cooling_manager.py]   -> module [CoolingManager]
    - [utils/location_manager.py]  -> module [LocationManager]
    - [utils/carbon_intensity.py]  -> module [CarbonIntensityTracker]
    - [solstice_framework.py]      -> module [Solstice]
    - [examples/llm_query_interface.py] -> module [LLMQueryInterface]

    Python floats are kept behind the interface [PyFloat]; its instance
    [binary64] is IEEE-754 double precision (what CPython computes with)
    and its instance [exact] is the field of rationals.  Every engine
    definition is written once, against the interface, so that a property
    proved for all instances holds for the floats the program really uses.

    Code the engine calls but which lives outside the modelled files
    (the [datacenter] thermal model, [dc_config], numpy, pandas, datetime
    and the file system) is collected in the interface [World]. *)

From Stdlib Require Import ZArith QArith Qcanon Floats String List Lia Bool.
From stdpp Require Import base option list gmap strings.

Local Open Scope string_scope.
Local Open Scope Z_scope.

(* ===================================================================== *)
(** ** Python values: numbers and exceptions                              *)
(* ===================================================================== *)

(** The arithmetic the sources use on [float] values. *)
Class PyFloat (F : Type) : Type := {
  fadd : F -> F -> F;
  fsub : F -> F -> F;
  fmul : F -> F -> F;
  fdiv : F -> F -> F;          (* quotient for a non-zero divisor *)
  flt : F -> F -> bool;        (* x < y *)
  feq : F -> F -> bool;        (* x == y *)
  of_int : Z -> F;             (* int operand promoted to float *)
  lit : Q -> F                 (* value of a decimal literal *)
}.

Declare Scope py_scope.
Delimit Scope py_scope with py.
Infix "+" := fadd : py_scope.
Infix "-" := fsub : py_scope.
Infix "*" := fmul : py_scope.
Infix "/" := fdiv : py_scope.
Notation "x <? y" := (flt x y) : py_scope.
Notation "x >? y" := (flt y x) : py_scope.
Notation "x =? y" := (feq x y) : py_scope.

(** int -> binary64, exact below 2^53 and correctly rounded below 2^63. *)
Definition float_of_Z (z : Z) : float :=
  match z with
  | Z0 => PrimFloat.zero
  | Zpos _ => PrimFloat.of_uint63 (Uint63.of_Z z)
  | Zneg p => PrimFloat.opp (PrimFloat.of_uint63 (Uint63.of_Z (Zpos p)))
  end.

(** A decimal literal denotes the double nearest to it: the correctly
    rounded quotient of its numerator and denominator. *)
Definition float_of_Q (q : Q) : float :=
  PrimFloat.div (float_of_Z (Qnum q)) (float_of_Z (Zpos (Qden q))).

#[global] Instance binary64 : PyFloat float := {|
  fadd := PrimFloat.add;
  fsub := PrimFloat.sub;
  fmul := PrimFloat.mul;
  fdiv := PrimFloat.div;
  flt := PrimFloat.ltb;
  feq := PrimFloat.eqb;
  of_int := float_of_Z;
  lit := float_of_Q
|}.

#[global] Instance exact : PyFloat Qc | 10 := {|
  fadd := Qcplus;
  fsub := Qcminus;
  fmul := Qcmult;
  fdiv := Qcdiv;
  flt := fun x y => bool_decide (x < y)%Qc;
  feq := fun x y => bool_decide (x = y);
  of_int := fun z => Q2Qc (inject_Z z);
  lit := Q2Qc
|}.

(** The exceptions the modelled code raises, with their messages. *)
Inductive exn : Type :=
| ValueError (msg : string)
| FileNotFoundError (msg : string)
| IndexError (msg : string)
| ZeroDivisionError (msg : string)
| OverflowError (msg : string).

Inductive result (A : Type) : Type :=
| Return (a : A)
| Raise (e : exn).
Arguments Return {A} a.
Arguments Raise {A} e.

Definition bind {A B : Type} (r : result A) (k : A -> result B) : result B :=
  match r with
  | Return a => k a
  | Raise e => Raise e
  end.

Notation "x <- r ;; k" := (bind r (fun x => k))
  (at level 100, r at next level, right associativity).

Section Builtins.
Context {F : Type} {PF : PyFloat F}.

(** [min(a, b)] and [max(a, b)]: the first argument unless the second
    compares strictly better (so a NaN second argument is ignored). *)
Definition py_min (a b : F) : F := if (b <? a)%py then b else a.
Definition py_max (a b : F) : F := if (b >? a)%py then b else a.

(** [sum(xs)]: a left fold from the int [0]. *)
Definition py_sum (xs : list F) : F := fold_left fadd xs (of_int 0).

(** Truth value of a float, as tested by [any]. *)
Definition truthy (x : F) : bool := negb (x =? of_int 0)%py.
Definition py_any (xs : list F) : bool := existsb truthy xs.
End Builtins.

(* ===================================================================== *)
(** ** The configuration dictionary                                       *)
(* ===================================================================== *)

(** One entry of [RACK_CPU_CONFIG]. *)
Record CPUConfig (F : Type) : Type := {
  full_load_pwr : F;
  idle_pwr : F
}.
Arguments full_load_pwr {F} _.
Arguments idle_pwr {F} _.

(** The dictionary built by [_initialize_config]; its keys are fixed, so
    it is a record.  A caller-supplied dictionary is assumed to carry the
    same keys. *)
Record Config (F : Type) : Type := {
  NUM_RACKS : Z;
  NUM_ROWS : Z;
  NUM_RACKS_PER_ROW : Z;
  MAX_W_PER_RACK : F;
  RACK_SUPPLY_APPROACH_TEMP_LIST : list F;
  RACK_RETURN_APPROACH_TEMP_LIST : list F;
  CPUS_PER_RACK : Z;
  RACK_CPU_CONFIG : list (list (CPUConfig F))
}.
Arguments NUM_RACKS {F} _.
Arguments NUM_ROWS {F} _.
Arguments NUM_RACKS_PER_ROW {F} _.
Arguments MAX_W_PER_RACK {F} _.
Arguments RACK_SUPPLY_APPROACH_TEMP_LIST {F} _.
Arguments RACK_RETURN_APPROACH_TEMP_LIST {F} _.
Arguments CPUS_PER_RACK {F} _.
Arguments RACK_CPU_CONFIG {F} _.

(* ===================================================================== *)
(** ** Data and code from outside the modelled files                      *)
(* ===================================================================== *)

(** A [datetime] is the number of whole hours since 0001-01-01 00:00
    (the engine only ever holds midnight-aligned dates plus whole hours).
    [datetime.max] is 9999-12-31 23:59:59.999999. *)
Abbreviation datetime := Z (only parsing).
Definition datetime_max_hour : Z := 3652059 * 24 - 1.
Definition hour_of (t : datetime) : Z := t `mod` 24.
Definition date_of (t : datetime) : Z := t `div` 24.

(** [a + timedelta(days=d)], with the range checks of both operations. *)
Definition add_days (a : datetime) (d : Z) : result datetime :=
  if (Z.abs d >? 999999999) then
    Raise (OverflowError "days out of range for timedelta")
  else
    let r := a + 24 * d in
    if (r <? 0) || (datetime_max_hour <? r) then
      Raise (OverflowError "date value out of range")
    else Return r.

(** A row of the weather frame built by [_load_weather_data]. *)
Module EPW.
Record row (F : Type) : Type := {
  timestamp : datetime;
  temperature : F;
  humidity : F;
  pressure : F;
  wet_bulb : F
}.
Arguments timestamp {F} _.
Arguments temperature {F} _.
Arguments humidity {F} _.
Arguments pressure {F} _.
Arguments wet_bulb {F} _.
End EPW.

(** A row of the carbon-intensity frame built by [_load_carbon_data]. *)
Module CICsv.
Record row (F : Type) : Type := {
  timestamp : datetime;
  carbon_intensity : F
}.
Arguments timestamp {F} _.
Arguments carbon_intensity {F} _.
End CICsv.

(** The attributes of a [datacenter.DataCenter_ITModel] object that the
    engine reads or assigns. *)
Module ITModel.
Record t (F : Type) : Type := {
  total_DC_full_load : F;
  hot_water_temp : F;
  cold_water_temp : F;
  wet_bulb_temp : F
}.
Arguments total_DC_full_load {F} _.
Arguments hot_water_temp {F} _.
Arguments cold_water_temp {F} _.
Arguments wet_bulb_temp {F} _.
End ITModel.

(** Everything the modelled files import.  The [datacenter] functions
    are taken to return normally and to depend only on their arguments:
    [compute_datacenter_IT_load_outlet_temp] on the construction
    arguments of the IT model (the configuration), and
    [calculate_cooling_tower_water_usage] additionally on the attributes
    of the object. *)
Class World (F : Type) : Type := {
  (* datetime *)
  strptime : string -> option datetime;       (* format %Y-%m-%d *)
  month_of : datetime -> Z;
  day_of : datetime -> Z;
  (* numpy *)
  np_sin : F -> F;
  np_pi : F;
  (* os.path, csv, psychrolib, pandas.read_csv *)
  path_exists : string -> bool;
  read_epw : string -> list (EPW.row F);
  read_ci_csv : string -> list (CICsv.row F);
  (* pandas reductions and str.lower *)
  series_sum : list F -> F;
  series_mean : list F -> F;
  series_max : list F -> F;
  series_min : list F -> F;
  series_median : list F -> F;
  str_lower : string -> string;
  (* dc_config *)
  default_config : Config F;
  (* datacenter *)
  DataCenter_ITModel : Config F -> ITModel.t F;
  compute_datacenter_IT_load_outlet_temp :
    Config F -> list F -> F -> list F * list F * list F;
  calculate_avg_CRAC_return_temp : list F -> list F -> F;
  calculate_HVAC_power : F -> F -> F -> F -> F * F * F * F * F * F;
  calculate_cooling_tower_water_usage : Config F -> ITModel.t F -> F
}.

(* ===================================================================== *)
(** ** utils/cooling_manager.py                                           *)
(* ===================================================================== *)

Module CoolingManager.

Record CoolingInfo (F : Type) : Type := {
  name : string;
  efficiency_factor : F;
  pue_range : F * F;
  water_usage : F;
  description : string
}.
Arguments name {F} _.
Arguments efficiency_factor {F} _.
Arguments pue_range {F} _.
Arguments water_usage {F} _.
Arguments description {F} _.

(** A [CoolingManager] object.  The four tuning attributes are set by
    [_initialize_cooling_params] for some cooling types only; an unset
    attribute is [None] (the code reads them through [getattr] with a
    default). *)
Record t (F : Type) : Type := {
  cooling_type : string;
  cooling_info : CoolingInfo F;
  config : Config F;
  coef_of_performance : option F;
  fan_power_factor : option F;
  water_usage_factor : option F;
  evaporation_rate : option F
}.
Arguments cooling_type {F} _.
Arguments cooling_info {F} _.
Arguments config {F} _.
Arguments coef_of_performance {F} _.
Arguments fan_power_factor {F} _.
Arguments water_usage_factor {F} _.
Arguments evaporation_rate {F} _.

(** The values of the dictionary returned by [get_cooling_parameters]:
    strings, floats and the pair [pue_range]. *)
Inductive ParamVal (F : Type) : Type :=
| PStr (s : string)
| PNum (x : F)
| PRange (low high : F).
Arguments PStr {F} s.
Arguments PNum {F} x.
Arguments PRange {F} low high.

Section Defs.
Context {F : Type} {PF : PyFloat F}.

Definition air_info : CoolingInfo F := {|
  name := "Air-Cooled";
  efficiency_factor := lit 1.0;
  pue_range := (lit 1.4, lit 1.8);
  water_usage := lit 0.0;
  description := "Traditional air cooling with CRAC units and chillers"
|}.

Definition water_info : CoolingInfo F := {|
  name := "Water-Cooled";
  efficiency_factor := lit 0.7;
  pue_range := (lit 1.2, lit 1.5);
  water_usage := lit 1.0;
  description := "Water cooling with cooling towers"
|}.

Definition immersion_info : CoolingInfo F := {|
  name := "Immersion Cooling";
  efficiency_factor := lit 0.5;
  pue_range := (lit 1.05, lit 1.2);
  water_usage := lit 0.3;
  description := "Servers immersed in dielectric fluid"
|}.

Definition hybrid_info : CoolingInfo F := {|
  name := "Hybrid Cooling";
  efficiency_factor := lit 0.8;
  pue_range := (lit 1.3, lit 1.6);
  water_usage := lit 0.5;
  description := "Combination of air and water cooling approaches"
|}.

Definition COOLING_TYPES : gmap string (CoolingInfo F) :=
  {[ "air" := air_info;
     "water" := water_info;
     "immersion" := immersion_info;
     "hybrid" := hybrid_info ]}.

(** [_initialize_cooling_params], as the attributes it sets:
    (coef_of_performance, fan_power_factor, water_usage_factor,
    evaporation_rate). *)
Definition _initialize_cooling_params (cooling_type : string)
  : option F * option F * option F * option F :=
  if String.eqb cooling_type "air" then
    (Some (lit 3.0), Some (lit 1.0), None, None)
  else if String.eqb cooling_type "water" then
    (Some (lit 5.0), Some (lit 0.7), Some (lit 1.0), Some (lit 0.05))
  else if String.eqb cooling_type "immersion" then
    (Some (lit 7.0), Some (lit 0.3), Some (lit 0.3), None)
  else if String.eqb cooling_type "hybrid" then
    (Some (lit 4.5), Some (lit 0.8), Some (lit 0.5), None)
  else (None, None, None, None).

(** [__init__]: an unrecognised type is replaced by ["air"]; after
    that the table lookup cannot miss. *)
Definition __init__ (cooling_type : string) (config : Config F) : t F :=
  let cooling_type :=
    if bool_decide (is_Some (COOLING_TYPES !! cooling_type))
    then cooling_type else "air" in
  let '(cop, fpf, wuf, er) := _initialize_cooling_params cooling_type in
  {| cooling_type := cooling_type;
     cooling_info := default air_info (COOLING_TYPES !! cooling_type);
     config := config;
     coef_of_performance := cop;
     fan_power_factor := fpf;
     water_usage_factor := wuf;
     evaporation_rate := er |}.

Definition calculate_pue (self : t F) (it_power cooling_power other_power : F) : F :=
  let total_power := (it_power + cooling_power + other_power)%py in
  if (it_power >? of_int 0)%py then (total_power / it_power)%py
  else lit 1.0.

Definition estimate_water_usage (self : t F) (heat_rejected ambient_temp humidity : F) : F :=
  if negb (String.eqb (cooling_type self) "water")
     && negb (String.eqb (cooling_type self) "hybrid")
  then lit 0.0
  else
    let base_water_usage := (heat_rejected * lit 1.8 / of_int 1000)%py in
    let temp_factor :=
      (lit 1.0 + py_max (of_int 0) ((ambient_temp - of_int 20) / of_int 100))%py in
    let humidity_factor :=
      (lit 1.0 - py_min (lit 0.3) (humidity / of_int 100))%py in
    let adjusted_usage := (base_water_usage * temp_factor * humidity_factor)%py in
    (adjusted_usage * default (lit 1.0) (water_usage_factor self))%py.

Definition adjust_chiller_power (self : t F) (chiller_power ambient_temp : F) : F :=
  let temp_factor :=
    (lit 1.0 + py_max (of_int 0) ((ambient_temp - of_int 15) / of_int 50))%py in
  let efficiency_factor := efficiency_factor (cooling_info self) in
  (chiller_power * temp_factor * efficiency_factor)%py.

(** [get_cooling_parameters]; the last two entries read the attribute
    with [getattr] and a default. *)
Definition get_cooling_parameters (self : t F) : gmap string (ParamVal F) :=
  {[ "type" := PStr (cooling_type self);
     "name" := PStr (name (cooling_info self));
     "efficiency_factor" := PNum (efficiency_factor (cooling_info self));
     "pue_range" := PRange (pue_range (cooling_info self)).1
                           (pue_range (cooling_info self)).2;
     "water_usage" := PNum (water_usage (cooling_info self));
     "description" := PStr (description (cooling_info self));
     "coef_of_performance" := PNum (default (lit 3.0) (coef_of_performance self));
     "fan_power_factor" := PNum (default (lit 1.0) (fan_power_factor self)) ]}.
End Defs.

End CoolingManager.

(* ===================================================================== *)
(** ** utils/location_manager.py                                          *)
(* ===================================================================== *)

(** The truth value of the result of [dict.get]: [None] and the empty
    string are false. *)
Definition falsy (v : option string) : bool :=
  match v with
  | None => true
  | Some s => String.eqb s ""
  end.

Module LocationManager.

Record t (F : Type) : Type := {
  location_code : string;
  location_name : string;
  weather_data : list (EPW.row F)
}.
Arguments location_code {F} _.
Arguments location_name {F} _.
Arguments weather_data {F} _.

Definition LOCATION_NAMES : gmap string string :=
  {[ "TX" := "Texas";
     "NY" := "New York";
     "CA" := "California";
     "AZ" := "Arizona";
     "IL" := "Illinois";
     "GA" := "Georgia";
     "WA" := "Washington";
     "VA" := "Virginia" ]}.

Definition WEATHER_FILES : gmap string string :=
  {[ "TX" := "USA_TX_Dallas-Fort.Worth.epw";
     "NY" := "USA_NY_New.York-LaGuardia.epw";
     "CA" := "USA_CA_San.Jose-Mineta.epw";
     "AZ" := "USA_AZ_Phoenix-Sky.Harbor.epw";
     "IL" := "USA_IL_Chicago.OHare.epw";
     "GA" := "USA_GA_Atlanta-Hartsfield-Jackson.epw";
     "WA" := "USA_WA_Seattle-Tacoma.epw";
     "VA" := "USA_VA_Leesburg.Exec.epw" ]}.

Section Defs.
Context {F : Type} {PF : PyFloat F} {W : World F}.

(** Paths are kept relative to the package root. *)
Definition _load_weather_data (location_code : string) : result (list (EPW.row F)) :=
  let weather_file := WEATHER_FILES !! location_code in
  if falsy weather_file then
    Raise (ValueError ("No weather data available for location code: " ++ location_code))
  else
    let weather_path := "data/Weather/" ++ default "" weather_file in
    if negb (path_exists weather_path) then
      Raise (FileNotFoundError ("Weather file not found: " ++ weather_path))
    else Return (read_epw weather_path).

Definition __init__ (location_code : string) : result (t F) :=
  let location_name :=
    default ("Unknown (" ++ location_code ++ ")") (LOCATION_NAMES !! location_code) in
  weather_data <- _load_weather_data location_code ;;
  Return {| location_code := location_code;
            location_name := location_name;
            weather_data := weather_data |}.

(** Rows whose month, day and hour are those of [timestamp]. *)
Definition matching_data (self : t F) (timestamp : datetime) : list (EPW.row F) :=
  List.filter
    (fun row => (month_of (EPW.timestamp row) =? month_of timestamp)
                && (day_of (EPW.timestamp row) =? day_of timestamp)
                && (hour_of (EPW.timestamp row) =? hour_of timestamp))
    (weather_data self).

Definition month_data (self : t F) (timestamp : datetime) : list (EPW.row F) :=
  List.filter (fun row => month_of (EPW.timestamp row) =? month_of timestamp)
    (weather_data self).

(** The three lookups share one shape: mean over the hour's rows, else
    mean over the month's rows, else a constant. *)
Definition lookup (column : EPW.row F -> F) (fallback : F)
    (self : t F) (timestamp : datetime) : F :=
  let matching_data := matching_data self timestamp in
  if (0 <? length matching_data)%nat then series_mean (map column matching_data)
  else
    let month_data := month_data self timestamp in
    if (0 <? length month_data)%nat then series_mean (map column month_data)
    else fallback.

Definition get_temperature : t F -> datetime -> F :=
  lookup EPW.temperature (lit 20.0).

Definition get_wet_bulb_temperature : t F -> datetime -> F :=
  lookup EPW.wet_bulb (lit 15.0).

Definition get_humidity : t F -> datetime -> F :=
  lookup EPW.humidity (lit 50.0).

(** [get_location_info]: a dictionary of three strings. *)
Definition get_location_info (self : t F) : gmap string string :=
  {[ "code" := location_code self;
     "name" := location_name self;
     "weather_file" := default "None" (WEATHER_FILES !! location_code self) ]}.

End Defs.
End LocationManager.

(* ===================================================================== *)
(** ** utils/carbon_intensity.py                                          *)
(* ===================================================================== *)

(** [float('inf')], for the number types that have it. *)
Class PyInf (F : Type) : Type := { inf : F }.

#[global] Instance binary64_inf : PyInf float := {| inf := PrimFloat.infinity |}.

(** [t.replace(hour=h)] for an hour [h] within 0..23: same date, that
    hour. *)
Definition replace_hour (t : datetime) (hour : Z) : datetime :=
  24 * date_of t + hour.

(** [l[start:stop]]: a negative index counts from the end, and both
    indices are clipped to the list. *)
Definition slice_index (len i : Z) : Z :=
  if i <? 0 then Z.max 0 (i + len) else Z.min i len.

Definition py_slice {A : Type} (l : list A) (start stop : Z) : list A :=
  let len := Z.of_nat (length l) in
  let start := slice_index len start in
  let stop := slice_index len stop in
  take (Z.to_nat (stop - start)) (drop (Z.to_nat start) l).

Module CarbonIntensityTracker.

Record t (F : Type) : Type := {
  location_code : string;
  grid_region : string;
  ci_file : string;            (* the file [_load_carbon_data] settled on *)
  carbon_data : list (CICsv.row F);
  min_ci : F;
  max_ci : F;
  mean_ci : F;
  median_ci : F
}.
Arguments location_code {F} _.
Arguments grid_region {F} _.
Arguments ci_file {F} _.
Arguments carbon_data {F} _.
Arguments min_ci {F} _.
Arguments max_ci {F} _.
Arguments mean_ci {F} _.
Arguments median_ci {F} _.

Definition CI_FILES : gmap string string :=
  {[ "TX" := "TX_NG_&_avgCI.csv";
     "NY" := "NY_NG_&_avgCI.csv";
     "CA" := "CA_NG_&_avgCI.csv";
     "AZ" := "AZ_NG_&_avgCI.csv";
     "IL" := "IL_NG_&_avgCI.csv";
     "GA" := "GA_NG_&_avgCI.csv";
     "WA" := "WA_NG_&_avgCI.csv";
     "VA" := "VA_NG_&_avgCI.csv" ]}.

Definition GRID_REGIONS : gmap string string :=
  {[ "TX" := "ERCO";
     "NY" := "NYIS";
     "CA" := "CISO";
     "AZ" := "AZPS";
     "IL" := "MISO";
     "GA" := "SOCO";
     "WA" := "BPAT";
     "VA" := "PJM" ]}.

(** The first half of [_load_carbon_data]: which file is read. *)
Definition select_ci_file (grid_region location_code : string) : string :=
  let ci_file :=
    if bool_decide (is_Some (CI_FILES !! grid_region)) then CI_FILES !! grid_region
    else if bool_decide (is_Some (CI_FILES !! location_code)) then CI_FILES !! location_code
    else None in
  if falsy ci_file then "TX_NG_&_avgCI.csv" else default "" ci_file.

Section Defs.
Context {F : Type} {PF : PyFloat F} {W : World F}.

Definition _load_carbon_data (grid_region location_code : string)
  : result (string * list (CICsv.row F)) :=
  let ci_file := select_ci_file grid_region location_code in
  let ci_path := "data/CarbonIntensity/" ++ ci_file in
  if negb (path_exists ci_path) then
    Raise (FileNotFoundError ("Carbon intensity file not found: " ++ ci_path))
  else Return (ci_file, read_ci_csv ci_path).

Definition __init__ (location_code : string) : result (t F) :=
  let grid_region := default location_code (GRID_REGIONS !! location_code) in
  loaded <- _load_carbon_data grid_region location_code ;;
  let '(ci_file, carbon_data) := loaded in
  let column := map CICsv.carbon_intensity carbon_data in
  Return {| location_code := location_code;
            grid_region := grid_region;
            ci_file := ci_file;
            carbon_data := carbon_data;
            min_ci := series_min column;
            max_ci := series_max column;
            mean_ci := series_mean column;
            median_ci := series_median column |}.

(** [hourly_avg]: the mean per hour of day; an hour without rows is not
    in its index. *)
Definition hourly_avg (self : t F) (hour : Z) : option F :=
  let rows := List.filter (fun row => hour_of (CICsv.timestamp row) =? hour)
                          (carbon_data self) in
  if (0 <? length rows)%nat then Some (series_mean (map CICsv.carbon_intensity rows))
  else None.

Definition get_carbon_intensity (self : t F) (timestamp : datetime) : F :=
  let matching_data :=
    List.filter
      (fun row => (date_of (CICsv.timestamp row) =? date_of timestamp)
                  && (hour_of (CICsv.timestamp row) =? hour_of timestamp))
      (carbon_data self) in
  if (0 <? length matching_data)%nat then
    series_mean (map CICsv.carbon_intensity matching_data)
  else
    let hour := hour_of timestamp in
    default (mean_ci self) (hourly_avg self hour).

(** *** [get_best_time_window] *)

(** The first loop, [for _ in range(window_hours)], with [n] iterations
    left: the hours of day of the window, in order. *)
Fixpoint collect_hours (n : nat) (current_time : datetime) (hours : list Z) : list Z :=
  match n with
  | O => hours
  | S n =>
      collect_hours n
        (replace_hour current_time ((hour_of current_time + 1) `mod` 24))
        (hours ++ [hour_of current_time])
  end.

(** [avg_ci] of the window that starts at index [i]; an empty slice
    makes the division the integer division [0 / 0]. *)
Definition window_average (self : t F) (hours : list Z) (i duration_hours : Z)
  : result F :=
  let window_hours := py_slice hours i (i + duration_hours) in
  let window_ci :=
    map (fun h => default (mean_ci self) (hourly_avg self h)) window_hours in
  if (length window_ci =? 0)%nat then Raise (ZeroDivisionError "division by zero")
  else Return (py_sum window_ci / of_int (Z.of_nat (length window_ci)))%py.

(** The second loop, over the indices still to visit. *)
Fixpoint best_window (self : t F) (hours : list Z) (duration_hours : Z)
    (indices : list Z) (best_ci : F) (best_start : option Z)
  : result (F * option Z) :=
  match indices with
  | [] => Return (best_ci, best_start)
  | i :: indices =>
      avg_ci <- window_average self hours i duration_hours ;;
      if (avg_ci <? best_ci)%py then
        best_window self hours duration_hours indices avg_ci (Some i)
      else best_window self hours duration_hours indices best_ci best_start
  end.

Definition get_best_time_window `{!PyInf F} (self : t F) (start_time : datetime)
    (window_hours duration_hours : Z) : result (datetime * F) :=
  let hours := collect_hours (Z.to_nat window_hours) start_time [] in
  best <- best_window self hours duration_hours
            (seqZ 0 (window_hours - duration_hours + 1)) inf None ;;
  match best.2 with
  | Some best_start =>
      Return (replace_hour start_time ((hour_of start_time + best_start) `mod` 24),
              best.1)
  | None => Return (start_time, mean_ci self)
  end.

(** What the second loop holds between iterations: no window yet, or
    the start index of one of the windows and that window's average. *)
Definition best_so_far (self : t F) (hours : list Z) (duration_hours upto : Z)
    (best : F * option Z) : Prop :=
  match best.2 with
  | None => True
  | Some best_start =>
      0 <= best_start < upto
      /\ window_average self hours best_start duration_hours = Return best.1
  end.

End Defs.
End CarbonIntensityTracker.

(* ===================================================================== *)
(** ** solstice_framework.py                                              *)
(* ===================================================================== *)

(** [needle in hay] on strings. *)
Fixpoint substring_in (needle hay : string) : bool :=
  String.prefix needle hay
  || match hay with
     | EmptyString => false
     | String _ rest => substring_in needle rest
     end.

(** The values stored in the dictionary returned by [query]. *)
Inductive PyVal (F : Type) : Type :=
| VFloat (x : F)
| VInt (n : Z)
| VStr (s : string)
| VDict (items : list (string * F)).
Arguments VFloat {F} x.
Arguments VInt {F} n.
Arguments VStr {F} s.
Arguments VDict {F} items.

Module Solstice.

(** The dictionary [simulation_results]. *)
Record SimulationResults (F : Type) : Type := {
  timestamps : list datetime;
  datacenter_energy : list F;
  cooling_energy : list F;
  total_energy : list F;
  carbon_intensity : list F;
  carbon_emissions : list F;
  water_usage : list F;
  ambient_temperature : list F;
  workload : list F
}.
Arguments timestamps {F} _.
Arguments datacenter_energy {F} _.
Arguments cooling_energy {F} _.
Arguments total_energy {F} _.
Arguments carbon_intensity {F} _.
Arguments carbon_emissions {F} _.
Arguments water_usage {F} _.
Arguments ambient_temperature {F} _.
Arguments workload {F} _.

(** The argument of [load_research_paper_model]: a dictionary whose two
    optional entries are dictionaries. *)
Record ModelData (F : Type) : Type := {
  server_specs : option (gmap string F);
  cooling_parameters : option (gmap string string)
}.
Arguments server_specs {F} _.
Arguments cooling_parameters {F} _.

(** A [SolsticeDatacenterModel] object. *)
Record t (F : Type) : Type := {
  config : Config F;
  location : string;
  cooling_type : string;
  datacenter_capacity_mw : F;
  cooling_efficiency_factor : F;
  pue_overhead : F;
  start_date : datetime;
  end_date : datetime;
  location_manager : LocationManager.t F;
  cooling_manager : CoolingManager.t F;
  carbon_tracker : CarbonIntensityTracker.t F;
  dc_model : ITModel.t F;
  scaling_factor : F;
  simulation_results : SimulationResults F
}.
Arguments config {F} _.
Arguments location {F} _.
Arguments cooling_type {F} _.
Arguments datacenter_capacity_mw {F} _.
Arguments cooling_efficiency_factor {F} _.
Arguments pue_overhead {F} _.
Arguments start_date {F} _.
Arguments end_date {F} _.
Arguments location_manager {F} _.
Arguments cooling_manager {F} _.
Arguments carbon_tracker {F} _.
Arguments dc_model {F} _.
Arguments scaling_factor {F} _.
Arguments simulation_results {F} _.

Section Defs.
Context {F : Type} {PF : PyFloat F} {W : World F}.

(** *** Assignments to attributes of [self] *)

Definition set_simulation_results (r : SimulationResults F) (self : t F) : t F :=
  {| config := config self; location := location self;
     cooling_type := cooling_type self;
     datacenter_capacity_mw := datacenter_capacity_mw self;
     cooling_efficiency_factor := cooling_efficiency_factor self;
     pue_overhead := pue_overhead self;
     start_date := start_date self; end_date := end_date self;
     location_manager := location_manager self;
     cooling_manager := cooling_manager self;
     carbon_tracker := carbon_tracker self;
     dc_model := dc_model self; scaling_factor := scaling_factor self;
     simulation_results := r |}.

Definition set_dc_model (d : ITModel.t F) (self : t F) : t F :=
  {| config := config self; location := location self;
     cooling_type := cooling_type self;
     datacenter_capacity_mw := datacenter_capacity_mw self;
     cooling_efficiency_factor := cooling_efficiency_factor self;
     pue_overhead := pue_overhead self;
     start_date := start_date self; end_date := end_date self;
     location_manager := location_manager self;
     cooling_manager := cooling_manager self;
     carbon_tracker := carbon_tracker self;
     dc_model := d; scaling_factor := scaling_factor self;
     simulation_results := simulation_results self |}.

(** [self.simulation_results[key].append(x)], one function per key. *)
Definition append_ambient_temperature (x : F) (r : SimulationResults F) :=
  {| timestamps := timestamps r; datacenter_energy := datacenter_energy r;
     cooling_energy := cooling_energy r; total_energy := total_energy r;
     carbon_intensity := carbon_intensity r; carbon_emissions := carbon_emissions r;
     water_usage := water_usage r;
     ambient_temperature := ambient_temperature r ++ [x];
     workload := workload r |}.

Definition append_carbon_intensity (x : F) (r : SimulationResults F) :=
  {| timestamps := timestamps r; datacenter_energy := datacenter_energy r;
     cooling_energy := cooling_energy r; total_energy := total_energy r;
     carbon_intensity := carbon_intensity r ++ [x];
     carbon_emissions := carbon_emissions r;
     water_usage := water_usage r;
     ambient_temperature := ambient_temperature r;
     workload := workload r |}.

Definition append_datacenter_energy (x : F) (r : SimulationResults F) :=
  {| timestamps := timestamps r;
     datacenter_energy := datacenter_energy r ++ [x];
     cooling_energy := cooling_energy r; total_energy := total_energy r;
     carbon_intensity := carbon_intensity r; carbon_emissions := carbon_emissions r;
     water_usage := water_usage r;
     ambient_temperature := ambient_temperature r;
     workload := workload r |}.

Definition append_cooling_energy (x : F) (r : SimulationResults F) :=
  {| timestamps := timestamps r; datacenter_energy := datacenter_energy r;
     cooling_energy := cooling_energy r ++ [x];
     total_energy := total_energy r;
     carbon_intensity := carbon_intensity r; carbon_emissions := carbon_emissions r;
     water_usage := water_usage r;
     ambient_temperature := ambient_temperature r;
     workload := workload r |}.

Definition append_water_usage (x : F) (r : SimulationResults F) :=
  {| timestamps := timestamps r; datacenter_energy := datacenter_energy r;
     cooling_energy := cooling_energy r; total_energy := total_energy r;
     carbon_intensity := carbon_intensity r; carbon_emissions := carbon_emissions r;
     water_usage := water_usage r ++ [x];
     ambient_temperature := ambient_temperature r;
     workload := workload r |}.

Definition append_total_energy (x : F) (r : SimulationResults F) :=
  {| timestamps := timestamps r; datacenter_energy := datacenter_energy r;
     cooling_energy := cooling_energy r;
     total_energy := total_energy r ++ [x];
     carbon_intensity := carbon_intensity r; carbon_emissions := carbon_emissions r;
     water_usage := water_usage r;
     ambient_temperature := ambient_temperature r;
     workload := workload r |}.

Definition append_carbon_emissions (x : F) (r : SimulationResults F) :=
  {| timestamps := timestamps r; datacenter_energy := datacenter_energy r;
     cooling_energy := cooling_energy r; total_energy := total_energy r;
     carbon_intensity := carbon_intensity r;
     carbon_emissions := carbon_emissions r ++ [x];
     water_usage := water_usage r;
     ambient_temperature := ambient_temperature r;
     workload := workload r |}.

Definition on_results (f : SimulationResults F -> SimulationResults F) (self : t F) : t F :=
  set_simulation_results (f (simulation_results self)) self.

Definition empty_results (timestamps : list datetime) (workload : list F)
  : SimulationResults F :=
  {| timestamps := timestamps; datacenter_energy := [];
     cooling_energy := []; total_energy := [];
     carbon_intensity := []; carbon_emissions := [];
     water_usage := []; ambient_temperature := [];
     workload := workload |}.

(** *** Construction *)

Definition _initialize_config (config : option (Config F)) : Config F :=
  match config with
  | None => default_config
  | Some config => config
  end.

(** [_initialize_datacenter]: the IT model and the scaling factor.  The
    division raises when the model's full load is zero. *)
Definition _initialize_datacenter (config : Config F) (datacenter_capacity_mw : F)
  : result (ITModel.t F * F) :=
  let dc_model := DataCenter_ITModel config in
  if (ITModel.total_DC_full_load dc_model =? of_int 0)%py then
    Raise (ZeroDivisionError "float division by zero")
  else
    Return (dc_model,
            (datacenter_capacity_mw * lit 1e6 / ITModel.total_DC_full_load dc_model)%py).

(** [__init__], without the [config_file] path (reading a file yields a
    dictionary, which is the [config] argument here). *)
Definition __init__
    (config : option (Config F)) (location cooling_type : string)
    (datacenter_capacity_mw : F) (simulation_start_date : string)
    (simulation_days : Z) (cooling_efficiency_factor pue_overhead : F)
  : result (t F) :=
  let config := _initialize_config config in
  start_date <-
    match strptime simulation_start_date with
    | Some d => Return d
    | None => Raise (ValueError "time data does not match format '%Y-%m-%d'")
    end ;;
  end_date <- add_days start_date simulation_days ;;
  location_manager <- LocationManager.__init__ location ;;
  let cooling_manager := CoolingManager.__init__ cooling_type config in
  carbon_tracker <- CarbonIntensityTracker.__init__ location ;;
  dc <- _initialize_datacenter config datacenter_capacity_mw ;;
  Return {| config := config; location := location;
            cooling_type := cooling_type;
            datacenter_capacity_mw := datacenter_capacity_mw;
            cooling_efficiency_factor := cooling_efficiency_factor;
            pue_overhead := pue_overhead;
            start_date := start_date; end_date := end_date;
            location_manager := location_manager;
            cooling_manager := cooling_manager;
            carbon_tracker := carbon_tracker;
            dc_model := dc.1; scaling_factor := dc.2;
            simulation_results := empty_results [] [] |}.

(** *** The simulation loop *)

(** [while current_date < self.end_date: ...], unrolled [fuel] times. *)
Fixpoint generate_timestamps (fuel : nat) (current_date end_date : datetime)
    (timestamps : list datetime) : list datetime :=
  match fuel with
  | O => timestamps
  | S fuel =>
      if current_date <? end_date then
        generate_timestamps fuel (current_date + 1) end_date
                            (timestamps ++ [current_date])
      else timestamps
  end.

(** The default daily pattern. *)
Definition day_pattern : list F :=
  map (fun hour : Z =>
         if (8 <=? hour) && (hour <? 20) then
           (lit 0.7 + lit 0.2 * np_sin (np_pi * of_int (hour - 8) / of_int 12))%py
         else
           (lit 0.4 + lit 0.1 * np_sin (np_pi * of_int (hour - 20) / of_int 12))%py)
      (seqZ 0 24).

Definition default_workload (simulation_hours : nat) : list F :=
  map (fun i : nat => default (of_int 0) (day_pattern !! (i `mod` 24)%nat))
      (seq 0 simulation_hours).

(** One iteration of [for i, timestamp in enumerate(timestamps)].  The
    second component is the exception that ended the iteration, if any;
    the first is [self] as the iteration left it. *)
Definition timestep (workload_pattern : list F) (i : nat) (timestamp : datetime)
    (self : t F) : t F * option exn :=
  let ambient_temp := LocationManager.get_temperature (location_manager self) timestamp in
  let self := on_results (append_ambient_temperature ambient_temp) self in
  let carbon_intensity :=
    CarbonIntensityTracker.get_carbon_intensity (carbon_tracker self) timestamp in
  let self := on_results (append_carbon_intensity carbon_intensity) self in
  match workload_pattern !! i with
  | None => (self, Some (IndexError "list index out of range"))
  | Some current_workload =>
    let rack_loads :=
      replicate (Z.to_nat (NUM_RACKS (config self))) (current_workload * of_int 100)%py in
    let crac_setpoint :=
      py_min (lit 22.0)
             (py_max (lit 16.0) (lit 18.0 + (ambient_temp - lit 20.0) * lit 0.2)%py) in
    let '(rack_cpu_power, rack_itfan_power, rack_outlet_temps) :=
      compute_datacenter_IT_load_outlet_temp (config self) rack_loads crac_setpoint in
    let it_power :=
      ((py_sum rack_cpu_power + py_sum rack_itfan_power) * scaling_factor self)%py in
    let self := on_results (append_datacenter_energy it_power) self in
    let avg_crac_return_temp :=
      calculate_avg_CRAC_return_temp
        (RACK_RETURN_APPROACH_TEMP_LIST (config self)) rack_outlet_temps in
    let data_center_full_load :=
      (ITModel.total_DC_full_load (dc_model self) * scaling_factor self)%py in
    let '(crac_fan_power, ct_fan_power, crac_cooling_load,
          chiller_power, cw_pump_power, ct_pump_power) :=
      calculate_HVAC_power crac_setpoint avg_crac_return_temp ambient_temp
                           data_center_full_load in
    let '(self, cooling_power, water_usage) :=
      if String.eqb (cooling_type self) "air" then
        (self,
         ((crac_fan_power + chiller_power)
          * cooling_efficiency_factor self * scaling_factor self)%py,
         lit 0.0)
      else
        let cooling_power :=
          ((crac_fan_power + ct_fan_power + chiller_power
            + cw_pump_power + ct_pump_power)
           * cooling_efficiency_factor self * scaling_factor self)%py in
        let self :=
          set_dc_model
            {| ITModel.total_DC_full_load := ITModel.total_DC_full_load (dc_model self);
               ITModel.hot_water_temp := avg_crac_return_temp;
               ITModel.cold_water_temp := crac_setpoint;
               ITModel.wet_bulb_temp :=
                 LocationManager.get_wet_bulb_temperature (location_manager self) timestamp |}
            self in
        (self, cooling_power,
         (calculate_cooling_tower_water_usage (config self) (dc_model self)
          * scaling_factor self)%py) in
    let self := on_results (append_cooling_energy cooling_power) self in
    let self := on_results (append_water_usage water_usage) self in
    let total_energy := ((it_power + cooling_power) * pue_overhead self)%py in
    let self := on_results (append_total_energy total_energy) self in
    let carbon_emissions := (total_energy * carbon_intensity / of_int 1000000)%py in
    let self := on_results (append_carbon_emissions carbon_emissions) self in
    (self, None)
  end.

(** The [for] loop: iterations run in order until one raises. *)
Fixpoint simulate (workload_pattern : list F) (i : nat) (timestamps : list datetime)
    (self : t F) : t F * option exn :=
  match timestamps with
  | [] => (self, None)
  | timestamp :: rest =>
      match timestep workload_pattern i timestamp self with
      | (self, Some e) => (self, Some e)
      | (self, None) => simulate workload_pattern (S i) rest self
      end
  end.

(** [run_simulation].  On a normal return the value returned is
    [self.simulation_results]; here the result is [self] afterwards and
    [None], or [self] as the exception left it and [Some] exception. *)
Definition run_simulation (workload_pattern : option (list F)) (self : t F)
  : t F * option exn :=
  let timestamps :=
    generate_timestamps (Z.to_nat (end_date self - start_date self))
                        (start_date self) (end_date self) [] in
  let workload_pattern :=
    match workload_pattern with
    | None => default_workload (length timestamps)
    | Some workload_pattern => workload_pattern
    end in
  let self := set_simulation_results (empty_results timestamps workload_pattern) self in
  simulate workload_pattern 0 timestamps self.

(** *** Results and queries *)

(** [pd.DataFrame(results)] needs columns of one length. *)
Definition get_results_dataframe (self : t F) : result (SimulationResults F) :=
  let results := simulation_results self in
  let n := length (timestamps results) in
  if forallb (fun column : list F => (length column =? n)%nat)
       [datacenter_energy results; cooling_energy results; total_energy results;
        carbon_intensity results; carbon_emissions results; water_usage results;
        ambient_temperature results; workload results]
  then Return results
  else Raise (ValueError "All arrays must be of the same length").

Definition when {A : Type} (b : bool) (f : A -> A) (a : A) : A :=
  if b then f a else a.

Definition query (query_text : string) (self : t F)
  : result (gmap string (PyVal F)) :=
  let query_text := str_lower query_text in
  let has kw := substring_in kw query_text in
  if negb (py_any (datacenter_energy (simulation_results self))) then
    Return {[ "error" := VStr "No simulation data available. Please run a simulation first." ]}
  else
    df <- get_results_dataframe self ;;
    let energy := has "energy" || has "power" in
    let carbon := has "carbon" || has "emissions" in
    let water := has "water" in
    Return (
      if has "average" || has "mean" then
        when water
          (fun r => <["total_water_usage" := VFloat (series_sum (water_usage df))]>
                    (<["average_water_usage" := VFloat (series_mean (water_usage df))]> r))
        (when carbon
          (fun r => <["total_carbon_emissions" := VFloat (series_sum (carbon_emissions df))]>
                    (<["average_carbon_emissions" := VFloat (series_mean (carbon_emissions df))]>
                    (<["average_carbon_intensity" := VFloat (series_mean (carbon_intensity df))]> r)))
        (when energy
          (fun r => <["average_total_energy" := VFloat (series_mean (total_energy df))]>
                    (<["average_cooling_energy" := VFloat (series_mean (cooling_energy df))]>
                    (<["average_datacenter_energy" := VFloat (series_mean (datacenter_energy df))]> r)))
          ∅))
      else if has "peak" || has "maximum" || has "max" then
        when water
          (fun r => <["peak_water_usage" := VFloat (series_max (water_usage df))]> r)
        (when carbon
          (fun r => <["peak_carbon_emissions" := VFloat (series_max (carbon_emissions df))]>
                    (<["peak_carbon_intensity" := VFloat (series_max (carbon_intensity df))]> r))
        (when energy
          (fun r => <["peak_total_energy" := VFloat (series_max (total_energy df))]>
                    (<["peak_cooling_energy" := VFloat (series_max (cooling_energy df))]>
                    (<["peak_datacenter_energy" := VFloat (series_max (datacenter_energy df))]> r)))
          ∅))
      else if has "total" || has "sum" then
        when water
          (fun r => <["total_water_usage" := VFloat (series_sum (water_usage df))]> r)
        (when carbon
          (fun r => <["total_carbon_emissions" := VFloat (series_sum (carbon_emissions df))]> r)
        (when energy
          (fun r => <["total_energy" := VFloat (series_sum (total_energy df))]>
                    (<["total_cooling_energy" := VFloat (series_sum (cooling_energy df))]>
                    (<["total_datacenter_energy" := VFloat (series_sum (datacenter_energy df))]> r)))
          ∅))
      else if has "compare" then
        {[ "message" := VStr "Detailed comparisons will be implemented in future versions." ]}
      else
        let results : gmap string (PyVal F) :=
          {[ "total_energy_kwh" := VFloat (series_sum (total_energy df) / of_int 1000)%py;
             "average_power_kw" := VFloat (series_mean (total_energy df) / of_int 1000)%py;
             "peak_power_kw" := VFloat (series_max (total_energy df) / of_int 1000)%py;
             "total_carbon_emissions_tons" := VFloat (series_sum (carbon_emissions df));
             "energy_breakdown" :=
               VDict [("datacenter_percent",
                       (series_sum (datacenter_energy df)
                        / series_sum (total_energy df) * of_int 100)%py);
                      ("cooling_percent",
                       (series_sum (cooling_energy df)
                        / series_sum (total_energy df) * of_int 100)%py)];
             "simulation_duration_hours" := VInt (Z.of_nat (length (timestamps df)));
             "location" := VStr (location self);
             "cooling_type" := VStr (cooling_type self);
             "datacenter_capacity_mw" := VFloat (datacenter_capacity_mw self) ]} in
        when (String.eqb (cooling_type self) "water")
          (fun r => <["total_water_usage_liters" := VFloat (series_sum (water_usage df))]> r)
          results).

(** *** Loading a model specification *)

(** [self.config['RACK_CPU_CONFIG'] = new_rack_cpu_config]. *)
Definition set_RACK_CPU_CONFIG (new_rack_cpu_config : list (list (CPUConfig F)))
    (config : Config F) : Config F :=
  {| NUM_RACKS := NUM_RACKS config;
     NUM_ROWS := NUM_ROWS config;
     NUM_RACKS_PER_ROW := NUM_RACKS_PER_ROW config;
     MAX_W_PER_RACK := MAX_W_PER_RACK config;
     RACK_SUPPLY_APPROACH_TEMP_LIST := RACK_SUPPLY_APPROACH_TEMP_LIST config;
     RACK_RETURN_APPROACH_TEMP_LIST := RACK_RETURN_APPROACH_TEMP_LIST config;
     CPUS_PER_RACK := CPUS_PER_RACK config;
     RACK_CPU_CONFIG := new_rack_cpu_config |}.

(** The configuration after the [server_specs] part. *)
Definition load_server_specs (model_data : ModelData F) (config : Config F) : Config F :=
  match server_specs model_data with
  | Some specs =>
      match specs !! "cpu_idle_power", specs !! "cpu_full_load_power" with
      | Some idle_pwr, Some full_load_pwr =>
          set_RACK_CPU_CONFIG
            (replicate (Z.to_nat (NUM_RACKS config))
               (replicate (Z.to_nat (CPUS_PER_RACK config))
                  {| full_load_pwr := full_load_pwr; idle_pwr := idle_pwr |}))
            config
      | _, _ => config
      end
  | None => config
  end.

(** [load_research_paper_model].  The configuration is one dictionary
    object, held by the model and by its cooling manager, so the
    assignment to one of its keys shows in both.  As for
    [run_simulation], the result is [self] afterwards and the exception
    raised, if any: [_initialize_datacenter] assigns the new IT model
    before its division can raise. *)
Definition load_research_paper_model (model_data : ModelData F) (self : t F)
  : t F * option exn :=
  let config := load_server_specs model_data (config self) in
  let cooling_manager :=
    {| CoolingManager.cooling_type := CoolingManager.cooling_type (cooling_manager self);
       CoolingManager.cooling_info := CoolingManager.cooling_info (cooling_manager self);
       CoolingManager.config := config;
       CoolingManager.coef_of_performance :=
         CoolingManager.coef_of_performance (cooling_manager self);
       CoolingManager.fan_power_factor :=
         CoolingManager.fan_power_factor (cooling_manager self);
       CoolingManager.water_usage_factor :=
         CoolingManager.water_usage_factor (cooling_manager self);
       CoolingManager.evaporation_rate :=
         CoolingManager.evaporation_rate (cooling_manager self) |} in
  let new_type :=
    match cooling_parameters model_data with
    | Some cooling_params => cooling_params !! "type"
    | None => None
    end in
  let cooling_type := default (cooling_type self) new_type in
  let cooling_manager :=
    match new_type with
    | Some cooling_type => CoolingManager.__init__ cooling_type config
    | None => cooling_manager
    end in
  let updated dc_model scaling_factor :=
    {| config := config; location := location self;
       cooling_type := cooling_type;
       datacenter_capacity_mw := datacenter_capacity_mw self;
       cooling_efficiency_factor := cooling_efficiency_factor self;
       pue_overhead := pue_overhead self;
       start_date := start_date self; end_date := end_date self;
       location_manager := location_manager self;
       cooling_manager := cooling_manager;
       carbon_tracker := carbon_tracker self;
       dc_model := dc_model; scaling_factor := scaling_factor;
       simulation_results := simulation_results self |} in
  match _initialize_datacenter config (datacenter_capacity_mw self) with
  | Return dc => (updated dc.1 dc.2, None)
  | Raise e => (updated (DataCenter_ITModel config) (scaling_factor self), Some e)
  end.

(** *** The loop body as a function of the iteration's inputs

    [locals self timestamp current_workload] collects the values the
    loop body binds in an iteration that finds its workload entry;
    [after_step] is the object that iteration leaves behind and
    [after_index_error] the one left by an iteration that does not find
    its entry.  They restate [timestep] (lemmas [timestep_ok] and
    [timestep_index_error] below) in a form that is convenient to reason
    about. *)

Record Locals : Type := {
  ambient_temp : F;
  carbon_intensity_now : F;
  rack_loads : list F;
  crac_setpoint : F;
  it_power : F;
  avg_crac_return_temp : F;
  data_center_full_load : F;
  hvac : F * F * F * F * F * F;
  wet_bulb_now : F;
  cooling_power : F;
  water_usage_now : F;
  total_energy_now : F;
  carbon_emissions_now : F
}.

Definition dc_model_in_water_branch (self : t F) (return_temp setpoint wet_bulb : F)
  : ITModel.t F :=
  {| ITModel.total_DC_full_load := ITModel.total_DC_full_load (dc_model self);
     ITModel.hot_water_temp := return_temp;
     ITModel.cold_water_temp := setpoint;
     ITModel.wet_bulb_temp := wet_bulb |}.

Definition locals (self : t F) (timestamp : datetime) (current_workload : F) : Locals :=
  let ambient_temp := LocationManager.get_temperature (location_manager self) timestamp in
  let carbon_intensity :=
    CarbonIntensityTracker.get_carbon_intensity (carbon_tracker self) timestamp in
  let rack_loads :=
    replicate (Z.to_nat (NUM_RACKS (config self))) (current_workload * of_int 100)%py in
  let crac_setpoint :=
    py_min (lit 22.0)
           (py_max (lit 16.0) (lit 18.0 + (ambient_temp - lit 20.0) * lit 0.2)%py) in
  let it := compute_datacenter_IT_load_outlet_temp (config self) rack_loads crac_setpoint in
  let it_power := ((py_sum it.1.1 + py_sum it.1.2) * scaling_factor self)%py in
  let avg_crac_return_temp :=
    calculate_avg_CRAC_return_temp (RACK_RETURN_APPROACH_TEMP_LIST (config self)) it.2 in
  let data_center_full_load :=
    (ITModel.total_DC_full_load (dc_model self) * scaling_factor self)%py in
  let hvac :=
    calculate_HVAC_power crac_setpoint avg_crac_return_temp ambient_temp
                         data_center_full_load in
  let crac_fan_power := hvac.1.1.1.1.1 in
  let ct_fan_power := hvac.1.1.1.1.2 in
  let chiller_power := hvac.1.1.2 in
  let cw_pump_power := hvac.1.2 in
  let ct_pump_power := hvac.2 in
  let wet_bulb :=
    LocationManager.get_wet_bulb_temperature (location_manager self) timestamp in
  let cooling_power :=
    if String.eqb (cooling_type self) "air" then
      ((crac_fan_power + chiller_power)
       * cooling_efficiency_factor self * scaling_factor self)%py
    else
      ((crac_fan_power + ct_fan_power + chiller_power + cw_pump_power + ct_pump_power)
       * cooling_efficiency_factor self * scaling_factor self)%py in
  let water_usage :=
    if String.eqb (cooling_type self) "air" then lit 0.0
    else
      (calculate_cooling_tower_water_usage (config self)
         (dc_model_in_water_branch self avg_crac_return_temp crac_setpoint wet_bulb)
       * scaling_factor self)%py in
  let total_energy := ((it_power + cooling_power) * pue_overhead self)%py in
  {| ambient_temp := ambient_temp;
     carbon_intensity_now := carbon_intensity;
     rack_loads := rack_loads;
     crac_setpoint := crac_setpoint;
     it_power := it_power;
     avg_crac_return_temp := avg_crac_return_temp;
     data_center_full_load := data_center_full_load;
     hvac := hvac;
     wet_bulb_now := wet_bulb;
     cooling_power := cooling_power;
     water_usage_now := water_usage;
     total_energy_now := total_energy;
     carbon_emissions_now := (total_energy * carbon_intensity / of_int 1000000)%py |}.

(** The results with one more row. *)
Definition add_row (v : Locals) (r : SimulationResults F) : SimulationResults F :=
  {| timestamps := timestamps r;
     datacenter_energy := datacenter_energy r ++ [it_power v];
     cooling_energy := cooling_energy r ++ [cooling_power v];
     total_energy := total_energy r ++ [total_energy_now v];
     carbon_intensity := carbon_intensity r ++ [carbon_intensity_now v];
     carbon_emissions := carbon_emissions r ++ [carbon_emissions_now v];
     water_usage := water_usage r ++ [water_usage_now v];
     ambient_temperature := ambient_temperature r ++ [ambient_temp v];
     workload := workload r |}.

Definition after_step (self : t F) (timestamp : datetime) (current_workload : F) : t F :=
  let v := locals self timestamp current_workload in
  {| config := config self; location := location self;
     cooling_type := cooling_type self;
     datacenter_capacity_mw := datacenter_capacity_mw self;
     cooling_efficiency_factor := cooling_efficiency_factor self;
     pue_overhead := pue_overhead self;
     start_date := start_date self; end_date := end_date self;
     location_manager := location_manager self;
     cooling_manager := cooling_manager self;
     carbon_tracker := carbon_tracker self;
     dc_model :=
       if String.eqb (cooling_type self) "air" then dc_model self
       else dc_model_in_water_branch self (avg_crac_return_temp v) (crac_setpoint v)
                                     (wet_bulb_now v);
     scaling_factor := scaling_factor self;
     simulation_results := add_row v (simulation_results self) |}.

Definition after_index_error (self : t F) (timestamp : datetime) : t F :=
  on_results
    (append_carbon_intensity
       (CarbonIntensityTracker.get_carbon_intensity (carbon_tracker self) timestamp))
    (on_results
       (append_ambient_temperature
          (LocationManager.get_temperature (location_manager self) timestamp))
       self).

(** The iterations that complete, in order. *)
Definition run_steps (self : t F) (steps : list (datetime * F)) : t F :=
  foldl (fun self step => after_step self step.1 step.2) self steps.

(** The results with one more row per completed iteration. *)
Definition add_rows (vs : list Locals) (r : SimulationResults F) : SimulationResults F :=
  {| timestamps := timestamps r;
     datacenter_energy := datacenter_energy r ++ map it_power vs;
     cooling_energy := cooling_energy r ++ map cooling_power vs;
     total_energy := total_energy r ++ map total_energy_now vs;
     carbon_intensity := carbon_intensity r ++ map carbon_intensity_now vs;
     carbon_emissions := carbon_emissions r ++ map carbon_emissions_now vs;
     water_usage := water_usage r ++ map water_usage_now vs;
     ambient_temperature := ambient_temperature r ++ map ambient_temp vs;
     workload := workload r |}.

(** The simulated hours of a model. *)
Definition simulation_hours (self : t F) : nat :=
  Z.to_nat (end_date self - start_date self).

(** The CRAC setpoint policy in the words of the specification. *)
Definition clamp (lo hi x : F) : F := py_min hi (py_max lo x).

Definition setpoint_policy (ambient_temp : F) : F :=
  clamp (lit 16.0) (lit 22.0) (lit 18.0 + lit 0.2 * (ambient_temp - lit 20.0))%py.

(** The expressions of the loop body that go through the thermal
    model, as functions of the setpoint the thermal model is given:
    the summed rack powers and the IT power recorded for them, the HVAC
    powers, and the cooling power recorded for HVAC powers. *)
Definition it_load_at (self : t F) (current_workload setpoint : F) : F :=
  let rack_loads :=
    replicate (Z.to_nat (NUM_RACKS (config self))) (current_workload * of_int 100)%py in
  let it := compute_datacenter_IT_load_outlet_temp (config self) rack_loads setpoint in
  (py_sum it.1.1 + py_sum it.1.2)%py.

Definition it_power_at (self : t F) (current_workload setpoint : F) : F :=
  (it_load_at self current_workload setpoint * scaling_factor self)%py.

Definition hvac_at (self : t F) (ambient_temp current_workload setpoint : F)
  : F * F * F * F * F * F :=
  let rack_loads :=
    replicate (Z.to_nat (NUM_RACKS (config self))) (current_workload * of_int 100)%py in
  let it := compute_datacenter_IT_load_outlet_temp (config self) rack_loads setpoint in
  calculate_HVAC_power setpoint
    (calculate_avg_CRAC_return_temp (RACK_RETURN_APPROACH_TEMP_LIST (config self)) it.2)
    ambient_temp
    (ITModel.total_DC_full_load (dc_model self) * scaling_factor self)%py.

(** The HVAC powers that count as cooling power: CRAC fan and chiller
    for air, and with them the cooling-tower fan and the two pumps
    otherwise. *)
Definition hvac_drawn (self : t F) (hvac : F * F * F * F * F * F) : F :=
  if String.eqb (cooling_type self) "air" then
    (hvac.1.1.1.1.1 + hvac.1.1.2)%py
  else
    (hvac.1.1.1.1.1 + hvac.1.1.1.1.2 + hvac.1.1.2 + hvac.1.2 + hvac.2)%py.

Definition cooling_power_of (self : t F) (hvac : F * F * F * F * F * F) : F :=
  (hvac_drawn self hvac * cooling_efficiency_factor self * scaling_factor self)%py.

(** What an iteration reads of [self]: neither the results nor the
    three water attributes of the IT model; and of the cooling type only
    whether it is the string "air". *)
Definition same_parameters (a b : t F) : Prop :=
  config a = config b
  /\ String.eqb (cooling_type a) "air" = String.eqb (cooling_type b) "air"
  /\ cooling_efficiency_factor a = cooling_efficiency_factor b
  /\ pue_overhead a = pue_overhead b
  /\ location_manager a = location_manager b
  /\ carbon_tracker a = carbon_tracker b
  /\ scaling_factor a = scaling_factor b
  /\ ITModel.total_DC_full_load (dc_model a) = ITModel.total_DC_full_load (dc_model b).

(** The values bound in each of a list of completed iterations. *)
Definition rows (self : t F) (steps : list (datetime * F)) : list Locals :=
  map (fun step => locals self step.1 step.2) steps.

(** The hours of the run, as [run_simulation] lists them. *)
Definition hours_of_run (self : t F) : list datetime :=
  seqZ (start_date self) (end_date self - start_date self).

(** The workload the run uses. *)
Definition workload_of_run (workload_pattern : option (list F)) (self : t F) : list F :=
  match workload_pattern with
  | None => default_workload (simulation_hours self)
  | Some workload_pattern => workload_pattern
  end.

(** The iterations of a run that complete: one per hour that has a
    workload entry. *)
Definition completed (workload_pattern : option (list F)) (self : t F)
  : list (datetime * F) :=
  zip (hours_of_run self) (workload_of_run workload_pattern self).

(** The query texts that reach the summary branch of [query]: those
    that, lowered, contain none of its keywords. *)
Definition asks_for_summary (query_text : string) : bool :=
  let has kw := substring_in kw (str_lower query_text) in
  negb (has "average" || has "mean")
  && negb (has "peak" || has "maximum" || has "max")
  && negb (has "total" || has "sum")
  && negb (has "compare").

(** [key in results] and [results[key]] on what [query] returned. *)
Definition entry (key : string) (returned : result (gmap string (PyVal F)))
  : result (option (PyVal F)) :=
  results <- returned ;; Return (results !! key).

End Defs.
End Solstice.

(* ===================================================================== *)
(** ** examples/llm_query_interface.py                                    *)
(* ===================================================================== *)

Module LLMQueryInterface.

(** What a method of the interface can raise: the exceptions of the
    engine, and the two that dictionary access and arithmetic on the
    entries add. *)
Inductive error : Type :=
| Engine (e : exn)
| KeyError (key : string)
| TypeError (msg : string).

Inductive outcome (A : Type) : Type :=
| Returned (a : A)
| Raised (e : error).
Arguments Returned {A} a.
Arguments Raised {A} e.

(** An entry of [self.models]. *)
Record ModelEntry (F : Type) : Type := {
  model : Solstice.t F;
  params : gmap string (PyVal F);
  has_data : bool
}.
Arguments model {F} _.
Arguments params {F} _.
Arguments has_data {F} _.

Record t (F : Type) : Type := {
  models : gmap string (ModelEntry F);
  active_model : option string
}.
Arguments models {F} _.
Arguments active_model {F} _.

(** The dictionary [comparison]: per model identifier the parameters and
    the summary, the differences, and the response once it is added. *)
Record Comparison (F : Type) : Type := {
  compared : gmap string (gmap string (PyVal F) * gmap string (PyVal F));
  differences : gmap string F;
  response : option string
}.
Arguments compared {F} _.
Arguments differences {F} _.
Arguments response {F} _.

(** What [compare_models] returns: an error dictionary or the
    comparison. *)
Inductive Compared (F : Type) : Type :=
| ErrorDict (message : string)
| ComparisonDict (comparison : Comparison F).
Arguments ErrorDict {F} message.
Arguments ComparisonDict {F} comparison.

Section Defs.
Context {F : Type} {PF : PyFloat F} {W : World F}.

(** [_format_comparison] builds text from the comparison; it is kept
    abstract. *)
Variable _format_comparison :
  string -> string -> Comparison F -> option string -> outcome string.

Definition obind {A B : Type} (r : outcome A) (k : A -> outcome B) : outcome B :=
  match r with
  | Returned a => k a
  | Raised e => Raised e
  end.

Definition of_engine {A : Type} (r : result A) : outcome A :=
  match r with
  | Return a => Returned a
  | Raise e => Raised (Engine e)
  end.

(** [summary[key]]. *)
Definition getitem (summary : gmap string (PyVal F)) (key : string)
  : outcome (PyVal F) :=
  match summary !! key with
  | Some v => Returned v
  | None => Raised (KeyError key)
  end.

(** [a - b] on two entries; the entries under the keys compared are
    floats. *)
Definition minus (a b : PyVal F) : outcome F :=
  match a, b with
  | VFloat x, VFloat y => Returned (x - y)%py
  | _, _ => Raised (TypeError "unsupported operand type(s) for -")
  end.

(** [summary2[key] - summary1[key]]: the left operand is looked up
    first. *)
Definition difference (summary1 summary2 : gmap string (PyVal F)) (key : string)
  : outcome F :=
  obind (getitem summary2 key) (fun b =>
  obind (getitem summary1 key) (fun a =>
  minus b a)).

Definition compare_models (self : t F) (model_id1 model_id2 : string)
    (aspect : option string) : outcome (Compared F) :=
  match models self !! model_id1 with
  | None => Returned (ErrorDict ("Model '" ++ model_id1 ++ "' not found."))
  | Some model1_data =>
  match models self !! model_id2 with
  | None => Returned (ErrorDict ("Model '" ++ model_id2 ++ "' not found."))
  | Some model2_data =>
    if negb (has_data model1_data) || negb (has_data model2_data) then
      Returned (ErrorDict "Both models must have simulation data for comparison.")
    else
      let model1 := model model1_data in
      let model2 := model model2_data in
      obind (of_engine (Solstice.query "summary" model1)) (fun summary1 =>
      obind (of_engine (Solstice.query "summary" model2)) (fun summary2 =>
      let compared :=
        <[model_id2 := (params model2_data, summary2)]>
          {[ model_id1 := (params model1_data, summary1) ]} in
      obind (difference summary1 summary2 "average_power_kw") (fun d1 =>
      obind (difference summary1 summary2 "peak_power_kw") (fun d2 =>
      obind (difference summary1 summary2 "total_energy_kwh") (fun d3 =>
      obind (difference summary1 summary2 "total_carbon_emissions_tons") (fun d4 =>
      let differences : gmap string F :=
        {[ "average_power_kw" := d1;
           "peak_power_kw" := d2;
           "total_energy_kwh" := d3;
           "total_carbon_emissions_tons" := d4 ]} in
      obind
        (if bool_decide (is_Some (summary1 !! "total_water_usage_liters"))
            && bool_decide (is_Some (summary2 !! "total_water_usage_liters"))
         then
           obind (difference summary1 summary2 "total_water_usage_liters") (fun d5 =>
           Returned (<["total_water_usage_liters" := d5]> differences))
         else Returned differences) (fun differences =>
      let comparison :=
        {| compared := compared; differences := differences; response := None |} in
      obind (_format_comparison model_id1 model_id2 comparison aspect) (fun response =>
      Returned (ComparisonDict
                  {| compared := compared; differences := differences;
                     response := Some response |})))))))))
  end
  end.

End Defs.
End LLMQueryInterface.

(* ===================================================================== *)
(** ** A small world to run the model in                                  *)
(* ===================================================================== *)

(** Stand-ins for the imported code and data, simple enough to follow by
    hand.  They are used to evaluate the model on concrete inputs; the
    general theorems hold for every [World]. *)
Module Sample.

Definition ascii_lower (c : Ascii.ascii) : Ascii.ascii :=
  let n := Ascii.nat_of_ascii c in
  if (65 <=? n)%nat && (n <=? 90)%nat then Ascii.ascii_of_nat (n + 32) else c.

Fixpoint lower (s : string) : string :=
  match s with
  | EmptyString => EmptyString
  | String c rest => String (ascii_lower c) (lower rest)
  end.

(** 2023-06-01 00:00 and 2023-01-01 00:00, in hours since 0001-01-01. *)
Definition june_1_2023 : datetime := 17728104.
Definition january_1_2023 : datetime := 17724480.

Definition parse_date (s : string) : option datetime :=
  if String.eqb s "2023-06-01" then Some june_1_2023
  else if String.eqb s "2023-01-01" then Some january_1_2023
  else None.

Section Defs.
Context {F : Type} {PF : PyFloat F}.

Definition mean (xs : list F) : F := (py_sum xs / of_int (Z.of_nat (length xs)))%py.

Definition maximum (xs : list F) : F :=
  match xs with
  | [] => of_int 0
  | x :: rest => fold_left py_max rest x
  end.

Definition minimum (xs : list F) : F :=
  match xs with
  | [] => of_int 0
  | x :: rest => fold_left py_min rest x
  end.

Definition weather : list (EPW.row F) :=
  [ {| EPW.timestamp := june_1_2023; EPW.temperature := lit 30.0;
       EPW.humidity := lit 40.0; EPW.pressure := lit 101325.0;
       EPW.wet_bulb := lit 20.0 |};
    {| EPW.timestamp := june_1_2023 + 1; EPW.temperature := lit 12.0;
       EPW.humidity := lit 60.0; EPW.pressure := lit 101325.0;
       EPW.wet_bulb := lit 9.0 |} ].

Definition carbon : list (CICsv.row F) :=
  [ {| CICsv.timestamp := june_1_2023; CICsv.carbon_intensity := lit 400.0 |};
    {| CICsv.timestamp := june_1_2023 + 1; CICsv.carbon_intensity := lit 350.0 |} ].

Definition two_racks : Config F := {|
  NUM_RACKS := 2;
  NUM_ROWS := 1;
  NUM_RACKS_PER_ROW := 2;
  MAX_W_PER_RACK := lit 1000.0;
  RACK_SUPPLY_APPROACH_TEMP_LIST := [lit 5.0; lit 5.0];
  RACK_RETURN_APPROACH_TEMP_LIST := [lit (-3.0); lit (-3.0)];
  CPUS_PER_RACK := 1;
  RACK_CPU_CONFIG :=
    [ [ {| full_load_pwr := lit 900.0; idle_pwr := lit 100.0 |} ];
      [ {| full_load_pwr := lit 900.0; idle_pwr := lit 100.0 |} ] ]
|}.

(** Modelled from the spec: [compute_datacenter_IT_load_outlet_temp] of
    [datacenter.py], which is not among the sources; the specification
    gives its interface, rack load percentages and a setpoint to
    per-rack CPU power, fan power and outlet temperatures.  Here every
    rack draws 10 W of CPU power per percent of load and 50 W of fan
    power, and exhausts air 10 degrees above the setpoint. *)
Definition it_load (config : Config F) (loads : list F) (setpoint : F)
  : list F * list F * list F :=
  (map (fun l => (l * of_int 10)%py) loads,
   map (fun _ => lit 50.0) loads,
   map (fun _ => (setpoint + of_int 10)%py) loads).

(** Modelled from the spec: [calculate_avg_CRAC_return_temp] of
    [datacenter.py], the average return temperature from the rack
    return-approach and outlet temperatures.  Here the racks are alike
    and the first one stands for all. *)
Definition avg_return (approach outlet : list F) : F :=
  match approach, outlet with
  | a :: _, o :: _ => (a + o)%py
  | _, _ => of_int 0
  end.

(** Modelled from the spec: [calculate_HVAC_power] of [datacenter.py],
    which computes the HVAC subsystem powers from setpoint, return
    temperature, ambient temperature and the full-load capacity it is
    given (the engine forwards the air constants [RHO_AIR], [C_AIR] and
    the CRAC flow rates for it).  Here fans and pumps draw fixed power;
    with [load_dependent] the cooling load is the full load times the
    degrees between return temperature and setpoint, as for an air flow
    sized to the load, and without it a fixed 200 kW; the chiller draws
    one thousandth of the cooling load. *)
Definition hvac (load_dependent : bool) (setpoint return_temp ambient full_load : F)
  : F * F * F * F * F * F :=
  let cooling_load :=
    if load_dependent then (full_load * (return_temp - setpoint))%py
    else lit 200000.0 in
  (lit 100.0, lit 50.0, cooling_load, (cooling_load / of_int 1000)%py,
   lit 20.0, lit 10.0).

(** Modelled from the spec: [calculate_cooling_tower_water_usage] of
    [datacenter.py], which works from the hot and cold water
    temperatures and the wet-bulb temperature set on the object. *)
Definition tower_water (config : Config F) (dc : ITModel.t F) : F :=
  (lit 0.5 * (ITModel.hot_water_temp dc - ITModel.cold_water_temp dc)
   + lit 0.1 * ITModel.wet_bulb_temp dc)%py.

(** The world: every data file exists and holds the two sample rows;
    the calendar covers June 2023 only. *)
Definition world (load_dependent : bool) : World F := {|
  strptime := parse_date;
  month_of := fun _ => 6;
  day_of := fun t => date_of t - date_of june_1_2023 + 1;
  np_sin := fun x => x;                (* a stand-in, not a sine *)
  np_pi := lit 3.141592653589793;
  path_exists := fun _ => true;
  read_epw := fun _ => weather;
  read_ci_csv := fun _ => carbon;
  series_sum := py_sum;
  series_mean := mean;
  series_max := maximum;
  series_min := minimum;
  series_median := mean;
  str_lower := lower;
  default_config := two_racks;
  DataCenter_ITModel := fun config =>
    {| ITModel.total_DC_full_load :=
         (MAX_W_PER_RACK config * of_int (NUM_RACKS config))%py;
       ITModel.hot_water_temp := of_int 0;
       ITModel.cold_water_temp := of_int 0;
       ITModel.wet_bulb_temp := of_int 0 |};
  compute_datacenter_IT_load_outlet_temp := it_load;
  calculate_avg_CRAC_return_temp := avg_return;
  calculate_HVAC_power := hvac load_dependent;
  calculate_cooling_tower_water_usage := tower_water
|}.

(** The same world on a calendar of twelve months of thirty days,
    counted from hour 0, in which a date recurs every 360 days. *)
Definition thirty_day_months (load_dependent : bool) : World F := {|
  strptime := parse_date;
  month_of := fun t => (date_of t `div` 30) `mod` 12 + 1;
  day_of := fun t => date_of t `mod` 30 + 1;
  np_sin := fun x => x;
  np_pi := lit 3.141592653589793;
  path_exists := fun _ => true;
  read_epw := fun _ => weather;
  read_ci_csv := fun _ => carbon;
  series_sum := py_sum;
  series_mean := mean;
  series_max := maximum;
  series_min := minimum;
  series_median := mean;
  str_lower := lower;
  default_config := two_racks;
  DataCenter_ITModel := fun config =>
    {| ITModel.total_DC_full_load :=
         (MAX_W_PER_RACK config * of_int (NUM_RACKS config))%py;
       ITModel.hot_water_temp := of_int 0;
       ITModel.cold_water_temp := of_int 0;
       ITModel.wet_bulb_temp := of_int 0 |};
  compute_datacenter_IT_load_outlet_temp := it_load;
  calculate_avg_CRAC_return_temp := avg_return;
  calculate_HVAC_power := hvac load_dependent;
  calculate_cooling_tower_water_usage := tower_water
|}.

(** A test double for the thermal model, not a model of it: the IT
    power of the single rack it reports and the CRAC fan power are the
    setpoint it is given, every other power is zero, and the IT model's
    full load is 1 MW, so that a 1 MW model has scaling factor 1.  The
    IT power and the cooling power a run records in this world are the
    setpoints the two thermal functions received. *)
Definition echo_setpoint : World F := {|
  strptime := parse_date;
  month_of := fun _ => 6;
  day_of := fun t => date_of t - date_of june_1_2023 + 1;
  np_sin := fun x => x;
  np_pi := lit 3.141592653589793;
  path_exists := fun _ => true;
  read_epw := fun _ => weather;
  read_ci_csv := fun _ => carbon;
  series_sum := py_sum;
  series_mean := mean;
  series_max := maximum;
  series_min := minimum;
  series_median := mean;
  str_lower := lower;
  default_config := two_racks;
  DataCenter_ITModel := fun config =>
    {| ITModel.total_DC_full_load := lit 1e6;
       ITModel.hot_water_temp := of_int 0;
       ITModel.cold_water_temp := of_int 0;
       ITModel.wet_bulb_temp := of_int 0 |};
  compute_datacenter_IT_load_outlet_temp :=
    fun _ _ setpoint => ([setpoint], [], [setpoint]);
  calculate_avg_CRAC_return_temp := fun _ outlet => default (of_int 0) (head outlet);
  calculate_HVAC_power :=
    fun setpoint _ _ _ =>
      (setpoint, of_int 0, of_int 0, of_int 0, of_int 0, of_int 0);
  calculate_cooling_tower_water_usage := tower_water
|}.

End Defs.

(** The world with a load-dependent chiller, on binary64 floats, and the
    world with a fixed chiller, on exact rationals. *)
#[global] Instance float_world : World float := world true.
#[global] Instance exact_world : World Qc := world false.

End Sample.

(* ===================================================================== *)
(** ** Properties of the simulation loop                                  *)
(* ===================================================================== *)

Section LoopFacts.
Context {F : Type} {PF : PyFloat F} {W : World F}.
Import Solstice.

(** Unfolds the assignments to [self] once [self] is a record literal. *)
Ltac assignments :=
  cbv beta iota zeta delta
    [after_step after_index_error locals on_results set_simulation_results
     set_dc_model add_row dc_model_in_water_branch
     append_ambient_temperature append_carbon_intensity append_datacenter_energy
     append_cooling_energy append_water_usage append_total_energy
     append_carbon_emissions
     config location cooling_type datacenter_capacity_mw cooling_efficiency_factor
     pue_overhead start_date end_date location_manager cooling_manager
     carbon_tracker dc_model scaling_factor simulation_results
     timestamps datacenter_energy cooling_energy total_energy carbon_intensity
     carbon_emissions water_usage ambient_temperature workload
     ambient_temp carbon_intensity_now rack_loads crac_setpoint it_power
     avg_crac_return_temp data_center_full_load hvac wet_bulb_now cooling_power
     water_usage_now total_energy_now carbon_emissions_now
     ITModel.total_DC_full_load fst snd].

Lemma timestep_ok (w : list F) (i : nat) (ts : datetime) (self : t F) (cw : F) :
  w !! i = Some cw ->
  timestep w i ts self = (after_step self ts cw, None).
Proof.
  intros Hw. destruct self as [cfg loc ct cap eff pue sd ed lm cm tr dc sf [tss de ce te ci cem wu amb wl]].
  unfold timestep. rewrite Hw. assignments.
  destruct (compute_datacenter_IT_load_outlet_temp _ _ _) as [[cpu fan] outlet].
  destruct (calculate_HVAC_power _ _ _ _) as [[[[[a b] c] d] e] f].
  destruct (String.eqb ct "air"); reflexivity.
Qed.

Lemma timestep_index_error (w : list F) (i : nat) (ts : datetime) (self : t F) :
  w !! i = None ->
  timestep w i ts self
  = (after_index_error self ts, Some (IndexError "list index out of range")).
Proof.
  intros Hw. unfold timestep. rewrite Hw. reflexivity.
Qed.

Lemma same_parameters_refl (a : t F) : same_parameters a a.
Proof. repeat split. Qed.

Lemma same_parameters_trans (a b c : t F) :
  same_parameters a b -> same_parameters b c -> same_parameters a c.
Proof.
  unfold same_parameters. intros (?&?&?&?&?&?&?&?) (?&?&?&?&?&?&?&?).
  repeat split; congruence.
Qed.

Lemma same_parameters_sym (a b : t F) :
  same_parameters a b -> same_parameters b a.
Proof.
  unfold same_parameters. intros (?&?&?&?&?&?&?&?). repeat split; congruence.
Qed.

(** The values bound in an iteration depend on [self] through its
    parameters only. *)
Lemma locals_same (a b : t F) (ts : datetime) (cw : F) :
  same_parameters a b -> locals a ts cw = locals b ts cw.
Proof.
  destruct a as [cfg loc ct cap eff pue sd ed lm cm tr dc sf res].
  destruct b as [cfg' loc' ct' cap' eff' pue' sd' ed' lm' cm' tr' dc' sf' res'].
  unfold same_parameters; cbn.
  intros (-> & Hair & -> & -> & -> & -> & -> & Hfull).
  unfold locals, dc_model_in_water_branch; cbn. rewrite Hfull, Hair. reflexivity.
Qed.

Lemma after_step_same (self : t F) (ts : datetime) (cw : F) :
  same_parameters self (after_step self ts cw).
Proof.
  destruct self as [cfg loc ct cap eff pue sd ed lm cm tr dc sf res].
  unfold same_parameters, after_step; cbn.
  repeat split. destruct (String.eqb ct "air"); reflexivity.
Qed.

Lemma after_index_error_same (self : t F) (ts : datetime) :
  same_parameters self (after_index_error self ts).
Proof. repeat split. Qed.

Lemma set_simulation_results_same (r : SimulationResults F) (self : t F) :
  same_parameters self (set_simulation_results r self).
Proof. repeat split. Qed.

Lemma run_steps_same (steps : list (datetime * F)) (self : t F) :
  same_parameters self (run_steps self steps).
Proof.
  revert self. induction steps as [|[ts cw] steps IH]; intros self.
  - apply same_parameters_refl.
  - cbn. eapply same_parameters_trans; [apply (after_step_same self ts cw)|apply IH].
Qed.

Lemma rows_same (a b : t F) (steps : list (datetime * F)) :
  same_parameters a b -> rows a steps = rows b steps.
Proof.
  intros Hab. unfold rows. apply map_ext. intros [ts cw]. apply locals_same, Hab.
Qed.

Lemma add_rows_nil (r : SimulationResults F) : add_rows [] r = r.
Proof. destruct r. unfold add_rows; cbn. rewrite !app_nil_r. reflexivity. Qed.

Lemma add_rows_cons (v : Locals) (vs : list Locals) (r : SimulationResults F) :
  add_rows vs (add_row v r) = add_rows (v :: vs) r.
Proof.
  destruct r. unfold add_rows, add_row; cbn.
  rewrite <- !app_assoc. reflexivity.
Qed.

(** The completed iterations add one row each. *)
Lemma run_steps_results (steps : list (datetime * F)) (self : t F) :
  simulation_results (run_steps self steps)
  = add_rows (rows self steps) (simulation_results self).
Proof.
  revert self. induction steps as [|[ts cw] steps IH]; intros self.
  - cbn. symmetry. apply add_rows_nil.
  - change (run_steps self ((ts, cw) :: steps))
      with (run_steps (after_step self ts cw) steps).
    rewrite IH. rewrite <- (rows_same self) by apply after_step_same.
    change (simulation_results (after_step self ts cw))
      with (add_row (locals self ts cw) (simulation_results self)).
    apply add_rows_cons.
Qed.

(** The loop with enough workload entries completes every iteration. *)
Lemma simulate_complete (w : list F) (tss : list datetime) (i : nat) (self : t F) :
  (i + length tss <= length w)%nat ->
  simulate w i tss self = (run_steps self (zip tss (drop i w)), None).
Proof.
  revert i self. induction tss as [|ts tss IH]; intros i self Hlen.
  - reflexivity.
  - cbn [length] in Hlen.
    destruct (lookup_lt_is_Some_2 w i ltac:(lia)) as [cw Hcw].
    cbn [simulate]. rewrite (timestep_ok _ _ _ _ _ Hcw).
    rewrite IH by lia.
    rewrite (drop_S _ _ _ Hcw). reflexivity.
Qed.

(** The loop with too few entries stops at the first hour without one:
    the iterations before it complete, and that one raises. *)
Lemma simulate_short (w : list F) (tss : list datetime) (i : nat) (self : t F) :
  (i <= length w < i + length tss)%nat ->
  exists ts,
    tss !! (length w - i)%nat = Some ts
    /\ simulate w i tss self
       = (after_index_error (run_steps self (zip tss (drop i w))) ts,
          Some (IndexError "list index out of range")).
Proof.
  revert i self. induction tss as [|ts tss IH]; intros i self Hlen.
  - cbn in Hlen. lia.
  - cbn [length] in Hlen. cbn [simulate].
    destruct (decide (i = length w)) as [->|Hne].
    + rewrite (timestep_index_error w _ ts self) by (apply lookup_ge_None_2; lia).
      exists ts. rewrite Nat.sub_diag, drop_all. split; reflexivity.
    + destruct (lookup_lt_is_Some_2 w i ltac:(lia)) as [cw Hcw].
      rewrite (timestep_ok _ _ _ _ _ Hcw).
      destruct (IH (S i) (after_step self ts cw) ltac:(lia)) as (ts' & Hts' & Hsim).
      exists ts'. rewrite Hsim, (drop_S _ _ _ Hcw). split; [|reflexivity].
      replace (length w - i)%nat with (S (length w - S i)) by lia. exact Hts'.
Qed.

(** The [while] loop lists the hours from the start date up to, but not
    including, the end date; the fuel given by [run_simulation] lets it
    run until its condition fails. *)
Lemma generate_timestamps_spec (fuel : nat) (current_date end_date : datetime)
    (acc : list datetime) :
  (Z.to_nat (end_date - current_date) <= fuel)%nat ->
  generate_timestamps fuel current_date end_date acc
  = (acc ++ seqZ current_date (end_date - current_date))%list.
Proof.
  revert current_date acc. induction fuel as [|fuel IH]; intros cur acc Hfuel.
  - cbn. rewrite seqZ_nil by lia. symmetry. apply app_nil_r.
  - cbn [generate_timestamps]. destruct (Z.ltb_spec cur end_date) as [Hlt|Hge].
    + rewrite IH by lia. rewrite <- app_assoc. f_equal.
      rewrite (seqZ_cons cur (end_date - cur)) by lia. cbn. do 2 f_equal; lia.
    + rewrite seqZ_nil by lia. symmetry. apply app_nil_r.
Qed.

Lemma hours_of_run_length (self : t F) :
  length (hours_of_run self) = simulation_hours self.
Proof. unfold hours_of_run, simulation_hours. apply length_seqZ. Qed.

(** [run_simulation] resets the results and runs the loop over the
    hours of the run. *)
Lemma run_simulation_unfold (wp : option (list F)) (self : t F) :
  run_simulation wp self
  = simulate (workload_of_run wp self) 0 (hours_of_run self)
      (set_simulation_results
         (empty_results (hours_of_run self) (workload_of_run wp self)) self).
Proof.
  unfold run_simulation. rewrite generate_timestamps_spec by reflexivity.
  cbn [app]. fold (hours_of_run self). unfold workload_of_run.
  rewrite hours_of_run_length. destruct wp; reflexivity.
Qed.

Lemma default_workload_length (n : nat) : length (default_workload n) = n.
Proof. unfold default_workload. rewrite length_map. apply length_seq. Qed.

(** *** The run in closed form *)

Lemma run_complete (wp : option (list F)) (self : t F) :
  (simulation_hours self <= length (workload_of_run wp self))%nat ->
  run_simulation wp self
  = (run_steps
       (set_simulation_results
          (empty_results (hours_of_run self) (workload_of_run wp self)) self)
       (completed wp self),
     None).
Proof.
  intros Hlen. rewrite run_simulation_unfold.
  rewrite simulate_complete by (rewrite hours_of_run_length; lia).
  reflexivity.
Qed.

Lemma run_short (wp : option (list F)) (self : t F) :
  (length (workload_of_run wp self) < simulation_hours self)%nat ->
  exists ts,
    hours_of_run self !! length (workload_of_run wp self) = Some ts
    /\ run_simulation wp self
       = (after_index_error
            (run_steps
               (set_simulation_results
                  (empty_results (hours_of_run self) (workload_of_run wp self)) self)
               (completed wp self))
            ts,
          Some (IndexError "list index out of range")).
Proof.
  intros Hlen. rewrite run_simulation_unfold.
  destruct (simulate_short (workload_of_run wp self) (hours_of_run self) 0
              (set_simulation_results
                 (empty_results (hours_of_run self) (workload_of_run wp self)) self))
    as (ts & Hts & Hsim).
  { rewrite hours_of_run_length. lia. }
  exists ts. rewrite Nat.sub_0_r in Hts. split; [exact Hts|exact Hsim].
Qed.

(** The five series filled at the end of an iteration hold one entry per
    completed iteration, whether or not the run went on to raise. *)
Lemma run_series (wp : option (list F)) (self : t F) :
  let r := simulation_results (run_simulation wp self).1 in
  let vs := rows self (completed wp self) in
  datacenter_energy r = map it_power vs
  /\ cooling_energy r = map cooling_power vs
  /\ total_energy r = map total_energy_now vs
  /\ carbon_emissions r = map carbon_emissions_now vs
  /\ water_usage r = map water_usage_now vs
  /\ timestamps r = hours_of_run self
  /\ workload r = workload_of_run wp self.
Proof.
  cbv zeta.
  rewrite (rows_same self
             (set_simulation_results
                (empty_results (hours_of_run self) (workload_of_run wp self)) self))
    by apply set_simulation_results_same.
  destruct (le_lt_dec (simulation_hours self) (length (workload_of_run wp self)))
    as [Hle|Hlt].
  - rewrite (run_complete _ _ Hle). cbn [fst]. rewrite run_steps_results.
    repeat split.
  - destruct (run_short _ _ Hlt) as (ts & _ & ->). cbn [fst].
    unfold after_index_error, on_results. cbn. rewrite run_steps_results.
    repeat split.
Qed.

End LoopFacts.

(* ===================================================================== *)
(** ** Arithmetic facts of the two number instances                       *)
(* ===================================================================== *)

Lemma SFmul_comm (prec emax : Z) (x y : SpecFloat.spec_float) :
  SpecFloat.SFmul prec emax x y = SpecFloat.SFmul prec emax y x.
Proof.
  destruct x as [sx|sx| |sx mx ex], y as [sy|sy| |sy my ey]; cbn;
    rewrite ?(xorb_comm sx sy), ?(Pos.mul_comm mx my), ?(Z.add_comm ex ey);
    reflexivity.
Qed.

(** IEEE multiplication commutes, bit for bit. *)
Lemma binary64_mul_comm : Comm (=) (@fmul float binary64).
Proof.
  intros x y. apply FloatAxioms.Prim2SF_inj. cbn [fmul binary64].
  rewrite !FloatAxioms.mul_spec. apply SFmul_comm.
Qed.


(* ===================================================================== *)
(** ** Properties of a run                                                *)
(* ===================================================================== *)

Section RunFacts.
Context {F : Type} {PF : PyFloat F} {W : World F}.
Import Solstice.

Lemma zip_with_map_map {A B C D : Type} (f : B -> C -> D) (g : A -> B) (h : A -> C)
    (l : list A) :
  zip_with f (map g l) (map h l) = map (fun x => f (g x) (h x)) l.
Proof. induction l as [|x l IH]; cbn; [reflexivity|]. rewrite IH. reflexivity. Qed.

Lemma completed_length (wp : option (list F)) (self : t F) :
  (simulation_hours self <= length (workload_of_run wp self))%nat ->
  length (completed wp self) = simulation_hours self.
Proof.
  intros Hlen. unfold completed. rewrite length_zip, hours_of_run_length. lia.
Qed.

(** A run with enough workload returns, with one row per hour. *)
Lemma run_results_complete (wp : option (list F)) (self : t F) :
  (simulation_hours self <= length (workload_of_run wp self))%nat ->
  (run_simulation wp self).2 = None
  /\ simulation_results (run_simulation wp self).1
     = add_rows (rows self (completed wp self))
         (empty_results (hours_of_run self) (workload_of_run wp self)).
Proof.
  intros Hlen. rewrite (run_complete _ _ Hlen). cbn [fst snd]. split; [reflexivity|].
  rewrite run_steps_results.
  rewrite <- (rows_same self) by apply set_simulation_results_same.
  reflexivity.
Qed.

(** A run with too little workload raises at the first hour without an
    entry, after recording that hour's temperature and carbon intensity. *)
Lemma run_results_short (wp : option (list F)) (self : t F) :
  (length (workload_of_run wp self) < simulation_hours self)%nat ->
  exists ts,
    hours_of_run self !! length (workload_of_run wp self) = Some ts
    /\ (run_simulation wp self).2 = Some (IndexError "list index out of range")
    /\ simulation_results (run_simulation wp self).1
       = append_carbon_intensity
           (CarbonIntensityTracker.get_carbon_intensity (carbon_tracker self) ts)
           (append_ambient_temperature
              (LocationManager.get_temperature (location_manager self) ts)
              (add_rows (rows self (completed wp self))
                 (empty_results (hours_of_run self) (workload_of_run wp self)))).
Proof.
  intros Hlen. destruct (run_short _ _ Hlen) as (ts & Hts & ->).
  exists ts. cbn [fst snd]. split; [exact Hts|]. split; [reflexivity|].
  unfold after_index_error, on_results.
  pose proof (run_steps_same (completed wp self)
    (set_simulation_results
       (empty_results (hours_of_run self) (workload_of_run wp self)) self))
    as (_ & _ & _ & _ & Hlm & Htr & _).
  cbn. rewrite <- Hlm, <- Htr. cbn. rewrite run_steps_results.
  rewrite <- (rows_same self) by apply set_simulation_results_same.
  reflexivity.
Qed.

(** What [__init__] leaves in the object it returns. *)
Lemma init_inv (config : option (Config F)) (location cooling_type : string)
    (capacity : F) (start : string) (days : Z) (eff pue : F) (m : t F) :
  __init__ config location cooling_type capacity start days eff pue = Return m ->
  strptime start = Some (start_date m)
  /\ add_days (start_date m) days = Return (end_date m)
  /\ LocationManager.__init__ location = Return (location_manager m)
  /\ CarbonIntensityTracker.__init__ location = Return (carbon_tracker m)
  /\ (ITModel.total_DC_full_load (DataCenter_ITModel (_initialize_config config))
      =? of_int 0)%py = false
  /\ m = {| Solstice.config := _initialize_config config;
            Solstice.location := location;
            Solstice.cooling_type := cooling_type;
            datacenter_capacity_mw := capacity;
            cooling_efficiency_factor := eff;
            pue_overhead := pue;
            start_date := start_date m;
            end_date := end_date m;
            location_manager := location_manager m;
            cooling_manager :=
              CoolingManager.__init__ cooling_type (_initialize_config config);
            carbon_tracker := carbon_tracker m;
            dc_model := DataCenter_ITModel (_initialize_config config);
            scaling_factor :=
              (capacity * lit 1e6
               / ITModel.total_DC_full_load
                   (DataCenter_ITModel (_initialize_config config)))%py;
            simulation_results := empty_results [] [] |}.
Proof.
  unfold __init__, _initialize_datacenter.
  destruct (strptime start) as [d|]; cbn [bind]; [|discriminate].
  destruct (add_days d days) as [e|] eqn:He; cbn [bind]; [|discriminate].
  destruct (LocationManager.__init__ location) as [lm|]; cbn [bind]; [|discriminate].
  destruct (CarbonIntensityTracker.__init__ location) as [tr|]; cbn [bind]; [|discriminate].
  destruct (_ =? _)%py; cbn [bind]; [discriminate|].
  intros [= <-]. cbn. repeat split; try reflexivity. exact He.
Qed.

Lemma add_days_inv (a : datetime) (d r : Z) :
  add_days a d = Return r -> r = a + 24 * d.
Proof.
  unfold add_days. destruct (_ >? _); [discriminate|].
  destruct (_ || _); [discriminate|]. congruence.
Qed.

(** The number of iterations of a run that complete: the simulated
    hours that have a workload entry. *)
Lemma rows_completed_length (wp : option (list F)) (self : t F) :
  length (rows self (completed wp self))
  = (simulation_hours self `min` length (workload_of_run wp self))%nat.
Proof.
  unfold rows, completed. rewrite length_map, length_zip, hours_of_run_length.
  reflexivity.
Qed.

(** C2: a run records one total energy for every simulated hour that
    has a workload entry (for every simulated hour, when the workload
    covers them all), and at each of these timesteps the recorded total
    energy is (it_power + cooling_power) * pue_overhead, computed from
    the IT power and the cooling power recorded for that timestep; the
    equality is exact, so it holds within any tolerance.  The three
    series have one length, so the zip below pairs every timestep. *)
Theorem total_energy_is_it_plus_cooling_times_overhead
    (wp : option (list F)) (self : t F) :
  let r := simulation_results (run_simulation wp self).1 in
  length (total_energy r)
  = (simulation_hours self `min` length (workload_of_run wp self))%nat
  /\ length (datacenter_energy r) = length (total_energy r)
  /\ length (cooling_energy r) = length (total_energy r)
  /\ total_energy r
     = zip_with (fun it_power cooling_power =>
                   ((it_power + cooling_power) * pue_overhead self)%py)
         (datacenter_energy r) (cooling_energy r).
Proof.
  cbv zeta. destruct (run_series wp self) as (-> & -> & -> & _).
  rewrite !length_map. split; [apply rows_completed_length|].
  split; [reflexivity|]. split; [reflexivity|].
  rewrite zip_with_map_map. unfold rows. rewrite !map_map.
  apply map_ext. intros [ts cw]. reflexivity.
Qed.

(** C6: a model built for [simulation_days] days (a non-negative whole
    number) and run on a synthesized workload, or on a supplied one with
    an entry for every hour, returns normally with exactly
    24 * simulation_days timesteps, and the energy, cooling, total-energy,
    carbon-intensity, carbon-emission, water and ambient-temperature
    series all have that length. *)
Theorem run_records_one_row_per_hour
    (config : option (Config F)) (location cooling_type : string)
    (capacity : F) (start : string) (simulation_days : Z) (eff pue : F)
    (m : t F) (wp : option (list F)) :
  __init__ config location cooling_type capacity start simulation_days eff pue
  = Return m ->
  0 <= simulation_days ->
  (forall workload_pattern,
     wp = Some workload_pattern ->
     24 * simulation_days <= Z.of_nat (length workload_pattern)) ->
  let out := run_simulation wp m in
  let r := simulation_results out.1 in
  out.2 = None
  /\ Z.of_nat (length (timestamps r)) = 24 * simulation_days
  /\ length (datacenter_energy r) = length (timestamps r)
  /\ length (cooling_energy r) = length (timestamps r)
  /\ length (total_energy r) = length (timestamps r)
  /\ length (carbon_intensity r) = length (timestamps r)
  /\ length (carbon_emissions r) = length (timestamps r)
  /\ length (water_usage r) = length (timestamps r)
  /\ length (ambient_temperature r) = length (timestamps r).
Proof.
  intros Hinit Hdays Hwp. cbv zeta.
  destruct (init_inv _ _ _ _ _ _ _ _ _ Hinit) as (_ & Hend & _).
  apply add_days_inv in Hend.
  assert (Hhours : simulation_hours m = Z.to_nat (24 * simulation_days)).
  { unfold simulation_hours. f_equal. lia. }
  assert (Hlen : (simulation_hours m <= length (workload_of_run wp m))%nat).
  { destruct wp as [wl|]; cbn.
    - specialize (Hwp wl eq_refl). lia.
    - rewrite default_workload_length. lia. }
  destruct (run_results_complete wp m Hlen) as [-> ->].
  split; [reflexivity|]. cbn.
  rewrite !length_map. unfold rows. rewrite !length_map.
  rewrite (completed_length _ _ Hlen), hours_of_run_length, Hhours.
  repeat split; lia.
Qed.

(** Two runs on objects with the same parameters and dates produce the
    same results and end the same way. *)
Lemma run_same_parameters (wp : option (list F)) (a b : t F) :
  same_parameters a b ->
  start_date a = start_date b ->
  end_date a = end_date b ->
  simulation_results (run_simulation wp a).1
  = simulation_results (run_simulation wp b).1
  /\ (run_simulation wp a).2 = (run_simulation wp b).2.
Proof.
  intros Hab Hstart Hend.
  assert (Hh : hours_of_run a = hours_of_run b).
  { unfold hours_of_run. rewrite Hstart, Hend. reflexivity. }
  assert (Hn : simulation_hours a = simulation_hours b).
  { unfold simulation_hours. rewrite Hstart, Hend. reflexivity. }
  assert (Hw : workload_of_run wp a = workload_of_run wp b).
  { unfold workload_of_run. rewrite Hn. reflexivity. }
  assert (Hc : completed wp a = completed wp b).
  { unfold completed. rewrite Hh, Hw. reflexivity. }
  destruct (le_lt_dec (simulation_hours a) (length (workload_of_run wp a)))
    as [Hle|Hlt].
  - destruct (run_results_complete wp a Hle) as [-> ->].
    rewrite Hn, Hw in Hle.
    destruct (run_results_complete wp b Hle) as [-> ->].
    rewrite (rows_same a b) by exact Hab. rewrite Hc, Hh, Hw. split; reflexivity.
  - destruct (run_results_short wp a Hlt) as (ts & Hts & -> & ->).
    rewrite Hn, Hw in Hlt.
    destruct (run_results_short wp b Hlt) as (ts' & Hts' & -> & ->).
    rewrite Hh, Hw in Hts. assert (ts' = ts) as -> by congruence.
    destruct Hab as (Hcfg & Hct & Heff & Hpue & Hlm & Htr & Hsf & Hfull).
    rewrite (rows_same a b) by (repeat split; assumption).
    rewrite Hc, Hh, Hw, Hlm, Htr. split; reflexivity.
Qed.

(** C7: two runs with the same workload on engines with the same
    configuration and the same provider data produce identical results
    and end the same way, whatever either engine did before (earlier
    results and the water attributes left on the IT model have no
    influence).  In particular a second run on the same engine
    repeats the first. *)
Theorem runs_are_deterministic (wp : option (list F)) (a b : t F) :
  same_parameters a b ->
  start_date a = start_date b ->
  end_date a = end_date b ->
  simulation_results (run_simulation wp a).1
  = simulation_results (run_simulation wp b).1
  /\ (run_simulation wp a).2 = (run_simulation wp b).2.
Proof. apply run_same_parameters. Qed.

(** The values an iteration binds, through the expressions that take
    the setpoint as an argument. *)
Lemma locals_at_setpoint (self : t F) (ts : datetime) (cw : F) :
  let v := locals self ts cw in
  it_power v = it_power_at self cw (crac_setpoint v)
  /\ hvac v = hvac_at self (ambient_temp v) cw (crac_setpoint v)
  /\ cooling_power v = cooling_power_of self (hvac v).
Proof.
  cbv zeta. split; [reflexivity|]. split; [reflexivity|].
  unfold cooling_power_of, hvac_drawn, locals. cbn [cooling_power hvac].
  destruct (String.eqb (cooling_type self) "air"); reflexivity.
Qed.

(** The setpoint an iteration binds is the policy's, given that
    multiplication commutes. *)
Lemma locals_setpoint_policy (Hcomm : Comm (=) (@fmul F _))
    (self : t F) (ts : datetime) (cw : F) :
  crac_setpoint (locals self ts cw)
  = setpoint_policy (LocationManager.get_temperature (location_manager self) ts).
Proof.
  unfold setpoint_policy, clamp, locals. cbn [crac_setpoint].
  rewrite (Hcomm (lit 0.2)). reflexivity.
Qed.

(** C8: in every iteration that reaches the thermal model, the CRAC
    setpoint given to [compute_datacenter_IT_load_outlet_temp] and to
    [calculate_HVAC_power] is 18.0 + 0.2 * (ambient_temp - 20.0) clamped
    to [16.0, 22.0], with ambient_temp the temperature the location
    manager returns for that hour: for every thermal model, the IT power
    and the cooling power a run records for an hour are what the thermal
    model answers when it is given that setpoint.  (The source writes the
    product as (ambient_temp - 20.0) * 0.2; the two agree because float
    multiplication commutes.) *)
Theorem crac_setpoint_follows_policy
    (Hcomm : Comm (=) (@fmul F _)) (wp : option (list F)) (self : t F) :
  let r := simulation_results (run_simulation wp self).1 in
  let ambient_at := LocationManager.get_temperature (location_manager self) in
  datacenter_energy r
  = map (fun step : datetime * F =>
           it_power_at self step.2 (setpoint_policy (ambient_at step.1)))
        (completed wp self)
  /\ cooling_energy r
     = map (fun step : datetime * F =>
              cooling_power_of self
                (hvac_at self (ambient_at step.1) step.2
                   (setpoint_policy (ambient_at step.1))))
           (completed wp self).
Proof.
  cbv zeta. destruct (run_series wp self) as (-> & -> & _).
  unfold rows. rewrite !map_map.
  split; apply map_ext; intros [ts cw]; cbn [fst snd];
    destruct (locals_at_setpoint self ts cw) as (Hit & Hhvac & Hcool).
  - rewrite Hit, (locals_setpoint_policy Hcomm). reflexivity.
  - rewrite Hcool, Hhvac, (locals_setpoint_policy Hcomm). reflexivity.
Qed.

End RunFacts.

(* ===================================================================== *)
(** ** The properties on a concrete run                                   *)
(* ===================================================================== *)

Section Evaluations.
Import Solstice.

(** A one-day Texas model in the sample world, on the default workload. *)
Lemma run_records_one_row_per_hour_witness :
  match __init__ (F := float) None "TX" "air" (lit 1.0) "2023-06-01" 1 (lit 1.0) (lit 1.1)
        return Prop with
  | Return m =>
      (run_simulation None m).2 = None
      /\ Z.of_nat (length (timestamps (simulation_results (run_simulation None m).1)))
         = 24 * 1
  | Raise _ => False
  end.
Proof.
  destruct (__init__ (F := float) None "TX" "air" (lit 1.0) "2023-06-01" 1
              (lit 1.0) (lit 1.1)) as [m|e] eqn:Hinit;
    [|vm_compute in Hinit; discriminate Hinit].
  destruct (run_records_one_row_per_hour _ _ _ _ _ _ _ _ m None Hinit)
    as (Hout & Hlen & _).
  - lia.
  - intros wl Hwl. discriminate Hwl.
  - split; [exact Hout|exact Hlen].
Defined.

(** The same model run twice in a row. *)
Lemma runs_are_deterministic_witness :
  match __init__ (F := float) None "TX" "water" (lit 1.0) "2023-06-01" 1 (lit 1.0) (lit 1.1)
        return Prop with
  | Return m =>
      let first := run_simulation (Some (replicate 24 (lit 0.75))) m in
      let second := run_simulation (Some (replicate 24 (lit 0.75))) first.1 in
      simulation_results first.1 = simulation_results second.1
      /\ first.2 = second.2
  | Raise _ => False
  end.
Proof.
  destruct (__init__ (F := float) None "TX" "water" (lit 1.0) "2023-06-01" 1
              (lit 1.0) (lit 1.1)) as [m|e] eqn:Hinit;
    [|vm_compute in Hinit; discriminate Hinit].
  vm_compute in Hinit. injection Hinit as <-.
  apply runs_are_deterministic.
  - vm_compute. repeat split.
  - reflexivity.
  - reflexivity.
Defined.

(** A day of the sample model at three quarters of its load: 24 total
    energies, the first one 0.8 MW of IT power plus 3.55 MW of cooling,
    times 1.1. *)
Lemma total_energy_is_it_plus_cooling_times_overhead_witness :
  match __init__ (F := float) None "TX" "air" (lit 1.0) "2023-06-01" 1 (lit 1.0) (lit 1.1)
        return Prop with
  | Return m =>
      let r := simulation_results
                 (run_simulation (Some (replicate 24 (lit 0.75))) m).1 in
      length (total_energy r) = 24%nat
      /\ total_energy r !! 0%nat
         = Some ((lit 800000.0 + lit 3550000.0) * lit 1.1)%py
  | Raise _ => False
  end.
Proof.
  destruct (__init__ (F := float) None "TX" "air" (lit 1.0) "2023-06-01" 1
              (lit 1.0) (lit 1.1)) as [m|e] eqn:Hinit;
    [|vm_compute in Hinit; discriminate Hinit].
  destruct (total_energy_is_it_plus_cooling_times_overhead
              (Some (replicate 24 (lit 0.75))) m) as (Hlen & _ & _ & Htotal).
  cbv zeta. rewrite Hlen, Htotal.
  vm_compute in Hinit. injection Hinit as <-.
  split; vm_compute; reflexivity.
Defined.

(** A day in the world whose thermal model answers with the setpoint
    it is given: the IT power and the cooling power recorded are the
    setpoints received, 20 for 30 degrees outside in the first hour,
    16.4 for 12 degrees in the second, 18.2 for the 21 degrees of the
    monthly mean in the other hours. *)
Lemma crac_setpoint_follows_policy_witness :
  match __init__ (F := float) (W := Sample.echo_setpoint) None "TX" "air" (lit 1.0)
          "2023-06-01" 1 (lit 1.0) (lit 1.1) return Prop with
  | Return m =>
      let r := simulation_results
                 (run_simulation (W := Sample.echo_setpoint)
                    (Some (replicate 24 (lit 0.75))) m).1 in
      datacenter_energy r = lit 20.0 :: lit 16.4 :: replicate 22 (lit 18.2)
      /\ cooling_energy r = lit 20.0 :: lit 16.4 :: replicate 22 (lit 18.2)
  | Raise _ => False
  end.
Proof.
  destruct (__init__ (F := float) (W := Sample.echo_setpoint) None "TX" "air" (lit 1.0)
              "2023-06-01" 1 (lit 1.0) (lit 1.1)) as [m|e] eqn:Hinit;
    [|vm_compute in Hinit; discriminate Hinit].
  destruct (crac_setpoint_follows_policy (W := Sample.echo_setpoint)
              binary64_mul_comm (Some (replicate 24 (lit 0.75))) m) as (Hit & Hcool).
  cbv zeta. rewrite Hit, Hcool.
  vm_compute in Hinit. injection Hinit as <-.
  split; vm_compute; reflexivity.
Defined.

End Evaluations.

(* ===================================================================== *)
(** ** The cooling policy and the providers                               *)
(* ===================================================================== *)

Section Policies.
Context {F : Type} {PF : PyFloat F} {W : World F}.

(** The cooling type a manager settles on: the requested one when the
    table knows it, else air. *)
Lemma cooling_manager_type (cooling_type : string) (config : Config F) :
  CoolingManager.cooling_type (CoolingManager.__init__ cooling_type config)
  = if bool_decide (is_Some (CoolingManager.COOLING_TYPES (F := F) !! cooling_type))
    then cooling_type else "air".
Proof.
  unfold CoolingManager.__init__.
  destruct (CoolingManager._initialize_cooling_params _) as [[[cop fpf] wuf] er].
  reflexivity.
Qed.

(** C9 (amended): the water-usage estimate is 0.0 for every cooling type
    other than water and hybrid, that is for air, for immersion and for
    every unrecognised type; for water and hybrid it is
    heat_rejected * 1.8 / 1000, times the temperature factor
    1 + max(0, (ambient - 20) / 100), times the humidity factor
    1 - min(0.3, humidity / 100), times the type's water-usage factor
    (1.0 for water, 0.5 for hybrid). *)
Theorem estimate_water_usage_by_type
    (cooling_type : string) (config : Config F)
    (heat_rejected ambient_temp humidity : F) :
  CoolingManager.estimate_water_usage
    (CoolingManager.__init__ cooling_type config) heat_rejected ambient_temp humidity
  = let adjusted_usage :=
      (heat_rejected * lit 1.8 / of_int 1000
       * (lit 1.0 + py_max (of_int 0) ((ambient_temp - of_int 20) / of_int 100))
       * (lit 1.0 - py_min (lit 0.3) (humidity / of_int 100)))%py in
    if String.eqb cooling_type "water" then (adjusted_usage * lit 1.0)%py
    else if String.eqb cooling_type "hybrid" then (adjusted_usage * lit 0.5)%py
    else lit 0.0.
Proof.
  cbv zeta.
  destruct (String.eqb_spec cooling_type "water") as [->|Hwater];
    [reflexivity|].
  destruct (String.eqb_spec cooling_type "hybrid") as [->|Hhybrid];
    [reflexivity|].
  unfold CoolingManager.estimate_water_usage. rewrite cooling_manager_type.
  destruct (bool_decide _).
  - apply String.eqb_neq in Hwater, Hhybrid. rewrite Hwater, Hhybrid. reflexivity.
  - reflexivity.
Qed.

(** The three location tables have the same keys. *)
Lemma unknown_to_weather_unknown_to_carbon (location_code : string) :
  LocationManager.WEATHER_FILES !! location_code = None ->
  CarbonIntensityTracker.CI_FILES !! location_code = None
  /\ CarbonIntensityTracker.GRID_REGIONS !! location_code = None.
Proof.
  unfold LocationManager.WEATHER_FILES, CarbonIntensityTracker.CI_FILES,
    CarbonIntensityTracker.GRID_REGIONS.
  rewrite !lookup_insert_None, !lookup_singleton_None. tauto.
Qed.

(** C10 (amended): for a location code with no weather file,
    constructing the temperature provider raises [ValueError]; the
    carbon-intensity provider does not raise for such a code but loads
    the Texas file, and fails only if that file is missing. *)
Theorem unknown_location_raises_for_weather_defaults_for_carbon
    (location_code : string) :
  LocationManager.WEATHER_FILES !! location_code = None ->
  LocationManager.__init__ (F := F) location_code
  = Raise (ValueError ("No weather data available for location code: "
                       ++ location_code))
  /\ CarbonIntensityTracker.__init__ (F := F) location_code
     = let ci_path := "data/CarbonIntensity/TX_NG_&_avgCI.csv" in
       if path_exists ci_path then
         let column := map CICsv.carbon_intensity (read_ci_csv ci_path) in
         Return {| CarbonIntensityTracker.location_code := location_code;
                   CarbonIntensityTracker.grid_region := location_code;
                   CarbonIntensityTracker.ci_file := "TX_NG_&_avgCI.csv";
                   CarbonIntensityTracker.carbon_data := read_ci_csv ci_path;
                   CarbonIntensityTracker.min_ci := series_min column;
                   CarbonIntensityTracker.max_ci := series_max column;
                   CarbonIntensityTracker.mean_ci := series_mean column;
                   CarbonIntensityTracker.median_ci := series_median column |}
       else Raise (FileNotFoundError
                     ("Carbon intensity file not found: " ++ ci_path)).
Proof.
  intros Hweather.
  destruct (unknown_to_weather_unknown_to_carbon _ Hweather) as [Hci Hgrid].
  split.
  - unfold LocationManager.__init__, LocationManager._load_weather_data.
    rewrite Hweather. reflexivity.
  - unfold CarbonIntensityTracker.__init__, CarbonIntensityTracker._load_carbon_data,
      CarbonIntensityTracker.select_ci_file.
    rewrite Hgrid. cbn [default]. rewrite Hci.
    rewrite (bool_decide_eq_false_2 (is_Some None)) by (intros [? ?]; discriminate).
    cbn. destruct (path_exists _); reflexivity.
Qed.

End Policies.

Section PolicyEvaluations.

(** C9, the claim as stated fails for immersion cooling, which the
    table lists with water usage 0.3 and whose manager carries the
    water-usage factor 0.3: for 1000 W rejected at 20 degrees and 0 %
    humidity the claimed estimate is 1.8 * 0.3 litres, the code returns
    0.0. *)
Lemma immersion_estimate_is_zero :
  let self := CoolingManager.__init__ (F := float) "immersion" Sample.two_racks in
  CoolingManager.water_usage (CoolingManager.cooling_info self) = lit 0.3
  /\ CoolingManager.water_usage_factor self = Some (lit 0.3)
  /\ CoolingManager.estimate_water_usage self (lit 1000.0) (lit 20.0) (lit 0.0)
     = lit 0.0
  /\ (lit (F := float) 1000.0 * lit 1.8 / of_int 1000
      * (lit 1.0 + py_max (of_int 0) ((lit 20.0 - of_int 20) / of_int 100))
      * (lit 1.0 - py_min (lit 0.3) (lit 0.0 / of_int 100))
      * lit 0.3 >? lit 0.5)%py = true.
Proof. vm_compute. repeat split. Qed.

(** C10, the claim as stated fails for the carbon-intensity provider:
    the unknown code "ZZ" yields a provider holding the Texas data. *)
Lemma unknown_location_gets_texas_carbon_data :
  CarbonIntensityTracker.CI_FILES !! "ZZ" = None
  /\ LocationManager.WEATHER_FILES !! "ZZ" = None
  /\ exists tracker : CarbonIntensityTracker.t float,
       CarbonIntensityTracker.__init__ "ZZ" = Return tracker
       /\ CarbonIntensityTracker.ci_file tracker = "TX_NG_&_avgCI.csv"
       /\ CarbonIntensityTracker.carbon_data tracker = Sample.carbon.
Proof.
  split; [vm_compute; reflexivity|]. split; [vm_compute; reflexivity|].
  eexists. split; [vm_compute; reflexivity|]. split; vm_compute; reflexivity.
Qed.

Lemma unknown_location_raises_for_weather_defaults_for_carbon_witness :
  LocationManager.__init__ (F := float) "ZZ"
  = Raise (ValueError "No weather data available for location code: ZZ")
  /\ exists tracker : CarbonIntensityTracker.t float,
       CarbonIntensityTracker.__init__ "ZZ" = Return tracker.
Proof.
  destruct (unknown_location_raises_for_weather_defaults_for_carbon
              (F := float) "ZZ") as [Hweather Hcarbon].
  - vm_compute. reflexivity.
  - split; [exact Hweather|]. rewrite Hcarbon. eexists. vm_compute. reflexivity.
Defined.

End PolicyEvaluations.

(* ===================================================================== *)
(** ** The summary query                                                  *)
(* ===================================================================== *)

Section Summary.
Context {F : Type} {PF : PyFloat F} {W : World F}.
Import Solstice.

Lemma get_results_dataframe_inv (self : t F) (df : SimulationResults F) :
  get_results_dataframe self = Return df -> df = simulation_results self.
Proof.
  unfold get_results_dataframe. destruct (forallb _ _); [|discriminate].
  congruence.
Qed.

(** C5 (amended): when simulation data is available and its columns
    have one length, the summary returned by [query] carries the key
    total_water_usage_liters exactly when the cooling type is the string
    "water", and then its value is the sum of the recorded water-usage
    series; for air, and also for immersion, hybrid and any other type,
    the summary has no such key. *)
Theorem summary_reports_water_only_for_water
    (query_text : string) (self : t F) (df : SimulationResults F) :
  py_any (datacenter_energy (simulation_results self)) = true ->
  get_results_dataframe self = Return df ->
  asks_for_summary query_text = true ->
  entry "total_water_usage_liters" (query query_text self)
  = Return (if String.eqb (cooling_type self) "water"
            then Some (VFloat (series_sum (water_usage (simulation_results self))))
            else None).
Proof.
  intros Hany Hdf Hsummary.
  pose proof (get_results_dataframe_inv _ _ Hdf) as ->.
  unfold asks_for_summary in Hsummary.
  apply andb_true_iff in Hsummary as [Hsummary Hcompare].
  apply andb_true_iff in Hsummary as [Hsummary Htotal].
  apply andb_true_iff in Hsummary as [Haverage Hpeak].
  apply negb_true_iff in Haverage, Hpeak, Htotal, Hcompare.
  unfold entry, query. rewrite Hany. cbn [negb]. rewrite Hdf. cbn [bind].
  rewrite Haverage, Hpeak, Htotal, Hcompare. f_equal.
  unfold when. destruct (String.eqb (cooling_type self) "water").
  - apply lookup_insert_eq.
  - rewrite !lookup_insert_ne by discriminate.
    apply lookup_singleton_ne. discriminate.
Qed.

End Summary.

Section SummaryEvaluations.
Import Solstice.

(** C5, the claim as stated fails for hybrid cooling: the run records
    water usage (a positive total over the sample day), and the summary,
    which names the cooling type, has no water key. *)
Lemma hybrid_summary_has_no_water_key :
  match __init__ (F := float) None "TX" "hybrid" (lit 1.0) "2023-06-01" 1
          (lit 1.0) (lit 1.1) return Prop with
  | Return m =>
      let ran := (run_simulation (Some (replicate 24 (lit 0.75))) m).1 in
      (lit 0.0 <? series_sum (water_usage (simulation_results ran)))%py = true
      /\ entry "cooling_type" (query "overview" ran) = Return (Some (VStr "hybrid"))
      /\ entry "total_water_usage_liters" (query "overview" ran) = Return None
  | Raise _ => False
  end.
Proof. vm_compute. repeat split. Qed.

Lemma summary_reports_water_only_for_water_witness :
  match __init__ (F := float) None "TX" "water" (lit 1.0) "2023-06-01" 1
          (lit 1.0) (lit 1.1) return Prop with
  | Return m =>
      let ran := (run_simulation (Some (replicate 24 (lit 0.75))) m).1 in
      entry "total_water_usage_liters" (query "Overview" ran)
      = Return (Some (VFloat (series_sum (water_usage (simulation_results ran)))))
  | Raise _ => False
  end.
Proof.
  destruct (__init__ (F := float) None "TX" "water" (lit 1.0) "2023-06-01" 1
              (lit 1.0) (lit 1.1)) as [m|e] eqn:Hinit;
    [|vm_compute in Hinit; discriminate Hinit].
  cbv zeta.
  rewrite (summary_reports_water_only_for_water "Overview"
             (run_simulation (Some (replicate 24 (lit 0.75))) m).1
             (simulation_results (run_simulation (Some (replicate 24 (lit 0.75))) m).1)).
  - vm_compute in Hinit. injection Hinit as <-. vm_compute. reflexivity.
  - vm_compute in Hinit. injection Hinit as <-. vm_compute. reflexivity.
  - vm_compute in Hinit. injection Hinit as <-. vm_compute. reflexivity.
  - vm_compute in Hinit. injection Hinit as <-. vm_compute. reflexivity.
Defined.

End SummaryEvaluations.

(* ===================================================================== *)
(** ** Input validation                                                   *)
(* ===================================================================== *)

Section Validation.
Context {F : Type} {PF : PyFloat F} {W : World F}.
Import Solstice.

(** Construction succeeds or fails regardless of the capacity, and
    regardless of the configuration as long as the IT model built from
    it reports a non-zero full load. *)
Lemma init_ignores_capacity_and_config
    (config config' : option (Config F)) (location cooling_type : string)
    (capacity capacity' : F) (start : string) (days : Z) (eff pue : F) (m : t F) :
  __init__ config location cooling_type capacity start days eff pue = Return m ->
  (ITModel.total_DC_full_load (DataCenter_ITModel (_initialize_config config'))
   =? of_int 0)%py = false ->
  exists m',
    __init__ config' location cooling_type capacity' start days eff pue = Return m'.
Proof.
  intros Hinit Hfull.
  destruct (init_inv _ _ _ _ _ _ _ _ _ Hinit) as (Hs & He & Hlm & Htr & _ & _).
  unfold __init__, _initialize_datacenter.
  rewrite Hs. cbn [bind]. rewrite He. cbn [bind]. rewrite Hlm. cbn [bind].
  rewrite Htr. cbn [bind]. rewrite Hfull. cbn [bind]. eexists. reflexivity.
Qed.

(** C4 (amended): neither construction nor the run validates its
    inputs, and no ConfigurationError exists.  Construction succeeds for
    any capacity, positive or not, and any configuration whose IT model
    reports a non-zero full load, whenever it succeeds at all for the
    location and dates.  A supplied workload with at least one entry per
    simulated hour is run to completion and stored as given; a shorter
    one makes the run raise IndexError at the first hour without an
    entry, after the hours before it have been recorded. *)
Theorem inputs_are_not_validated
    (config config' : option (Config F)) (location cooling_type : string)
    (capacity capacity' : F) (start : string) (days : Z) (eff pue : F)
    (m : t F) (workload_pattern : list F) :
  __init__ config location cooling_type capacity start days eff pue = Return m ->
  (ITModel.total_DC_full_load (DataCenter_ITModel (_initialize_config config'))
   =? of_int 0)%py = false ->
  (exists m',
     __init__ config' location cooling_type capacity' start days eff pue = Return m')
  /\ let out := run_simulation (Some workload_pattern) m in
     let r := simulation_results out.1 in
     if decide (simulation_hours m <= length workload_pattern)%nat then
       out.2 = None
       /\ length (total_energy r) = simulation_hours m
       /\ workload r = workload_pattern
     else
       out.2 = Some (IndexError "list index out of range")
       /\ length (total_energy r) = length workload_pattern.
Proof.
  intros Hinit Hfull. split.
  { eapply init_ignores_capacity_and_config; eassumption. }
  cbv zeta.
  destruct (run_series (Some workload_pattern) m) as (_ & _ & Htotal & _ & _ & _ & Hw).
  rewrite Htotal, Hw. unfold rows, completed. rewrite !length_map, length_zip.
  rewrite hours_of_run_length. cbn [workload_of_run].
  destruct (decide _) as [Hle|Hgt].
  - destruct (run_results_complete (Some workload_pattern) m Hle) as [-> _].
    repeat split. lia.
  - destruct (run_results_short (Some workload_pattern) m ltac:(cbn; lia))
      as (ts & _ & -> & _).
    split; [reflexivity|]. lia.
Qed.

End Validation.

Section ValidationEvaluations.
Import Solstice.

(** C4, the claim as stated fails: a model of capacity -1 MW is
    constructed (its scaling factor is -500), and a run of one day on a
    workload of 25 entries returns normally with 24 rows. *)
Lemma negative_capacity_and_long_workload_are_accepted :
  match __init__ (F := float) None "TX" "air" (lit (-1.0)) "2023-06-01" 1
          (lit 1.0) (lit 1.1) return Prop with
  | Return m =>
      scaling_factor m = lit (-500.0)
      /\ (run_simulation (Some (replicate 25 (lit 0.75))) m).2 = None
      /\ length (total_energy
                   (simulation_results
                      (run_simulation (Some (replicate 25 (lit 0.75))) m).1))
         = 24%nat
  | Raise _ => False
  end.
Proof. vm_compute. repeat split. Qed.

Lemma inputs_are_not_validated_witness :
  match __init__ (F := float) None "TX" "air" (lit 1.0) "2023-06-01" 1
          (lit 1.0) (lit 1.1) return Prop with
  | Return m =>
      (exists m',
         __init__ (F := float) (Some Sample.two_racks) "TX" "air" (lit 0.0)
           "2023-06-01" 1 (lit 1.0) (lit 1.1) = Return m')
      /\ (run_simulation (Some [lit 0.75; lit 0.5]) m).2
         = Some (IndexError "list index out of range")
      /\ length (total_energy
                   (simulation_results
                      (run_simulation (Some [lit 0.75; lit 0.5]) m).1))
         = 2%nat
  | Raise _ => False
  end.
Proof.
  destruct (__init__ (F := float) None "TX" "air" (lit 1.0) "2023-06-01" 1
              (lit 1.0) (lit 1.1)) as [m|e] eqn:Hinit;
    [|vm_compute in Hinit; discriminate Hinit].
  destruct (inputs_are_not_validated None (Some Sample.two_racks) "TX" "air"
              (lit 1.0) (lit 0.0) "2023-06-01" 1 (lit 1.0) (lit 1.1) m
              [lit 0.75; lit 0.5] Hinit) as [Hbuilt Hrun].
  - vm_compute. reflexivity.
  - split; [exact Hbuilt|]. cbv zeta in Hrun.
    destruct (decide _) as [Hle|_] in Hrun; [|exact Hrun].
    exfalso. vm_compute in Hinit. injection Hinit as <-.
    vm_compute in Hle. lia.
Defined.

End ValidationEvaluations.

(* ===================================================================== *)
(** ** Capacity scaling                                                   *)
(* ===================================================================== *)

Section Scaling.
Context {W : World Qc}.
Import Solstice.


(** Twice a value, in the arithmetic of the model. *)
Lemma twice_scaled (x s : Qc) : (x * (of_int 2 * s) = of_int 2 * (x * s))%py.
Proof. cbn. ring. Qed.




End Scaling.

Section ScalingEvaluations.
Import Solstice.



End ScalingEvaluations.

(* ===================================================================== *)
(** ** Unknown cooling types                                              *)
(* ===================================================================== *)

Section CoolingTypes.
Context {F : Type} {PF : PyFloat F} {W : World F}.
Import Solstice.

(** C1: the engine does not treat an unknown cooling type such as "foo"
    as air.  The cooling manager of the model falls back to air, but
    [run_simulation] compares the raw string with "air" and so takes the
    other branch: for every configuration and workload, the results for
    an unknown type are those for "water". *)
Theorem unknown_cooling_type_runs_as_water
    (config : option (Config F)) (location unknown : string)
    (capacity : F) (start : string) (days : Z) (eff pue : F)
    (m_unknown m_water : t F) (wp : option (list F)) :
  CoolingManager.COOLING_TYPES (F := F) !! unknown = None ->
  __init__ config location unknown capacity start days eff pue = Return m_unknown ->
  __init__ config location "water" capacity start days eff pue = Return m_water ->
  CoolingManager.cooling_type (cooling_manager m_unknown) = "air"
  /\ simulation_results (run_simulation wp m_unknown).1
     = simulation_results (run_simulation wp m_water).1
  /\ (run_simulation wp m_unknown).2 = (run_simulation wp m_water).2.
Proof.
  intros Hunknown Hm1 Hm2.
  destruct (init_inv _ _ _ _ _ _ _ _ _ Hm1) as (Hs1 & He1 & Hlm1 & Htr1 & _ & Hrec1).
  destruct (init_inv _ _ _ _ _ _ _ _ _ Hm2) as (Hs2 & He2 & Hlm2 & Htr2 & _ & Hrec2).
  assert (Hstart : start_date m_unknown = start_date m_water) by congruence.
  assert (Hend : end_date m_unknown = end_date m_water).
  { apply add_days_inv in He1, He2. congruence. }
  assert (Hair : String.eqb unknown "air" = false).
  { apply String.eqb_neq. intros ->. vm_compute in Hunknown. discriminate Hunknown. }
  split.
  - rewrite Hrec1. cbn [cooling_manager]. rewrite cooling_manager_type.
    rewrite Hunknown.
    rewrite (bool_decide_eq_false_2 (is_Some None)) by (intros [? ?]; discriminate).
    reflexivity.
  - apply run_same_parameters; [|exact Hstart|exact Hend].
    unfold same_parameters. rewrite Hrec1, Hrec2. cbn.
    rewrite Hair. repeat split; congruence.
Qed.

End CoolingTypes.

Section CoolingTypeEvaluations.
Import Solstice.

(** On the sample day the results for "foo" are those for "water"
    (cooling power 3.59 MW and 2750 litres of water in the first hour),
    not those for "air" (3.55 MW and no water). *)
Lemma unknown_cooling_type_runs_as_water_witness :
  match __init__ (F := float) None "TX" "foo" (lit 1.0) "2023-06-01" 1
          (lit 1.0) (lit 1.1),
        __init__ (F := float) None "TX" "water" (lit 1.0) "2023-06-01" 1
          (lit 1.0) (lit 1.1),
        __init__ (F := float) None "TX" "air" (lit 1.0) "2023-06-01" 1
          (lit 1.0) (lit 1.1) return Prop with
  | Return foo, Return water, Return air =>
      let run m :=
        simulation_results (run_simulation (Some (replicate 24 (lit 0.75))) m).1 in
      run foo = run water
      /\ cooling_energy (run foo) !! 0%nat = Some (lit 3590000.0)
      /\ cooling_energy (run air) !! 0%nat = Some (lit 3550000.0)
      /\ water_usage (run foo) !! 0%nat = Some (lit 2750.0)
      /\ water_usage (run air) !! 0%nat = Some (lit 0.0)
  | _, _, _ => False
  end.
Proof.
  destruct (__init__ (F := float) None "TX" "foo" (lit 1.0) "2023-06-01" 1
              (lit 1.0) (lit 1.1)) as [foo|e] eqn:Hfoo;
    [|vm_compute in Hfoo; discriminate Hfoo].
  destruct (__init__ (F := float) None "TX" "water" (lit 1.0) "2023-06-01" 1
              (lit 1.0) (lit 1.1)) as [water|e] eqn:Hwater;
    [|vm_compute in Hwater; discriminate Hwater].
  destruct (__init__ (F := float) None "TX" "air" (lit 1.0) "2023-06-01" 1
              (lit 1.0) (lit 1.1)) as [air|e] eqn:Hair;
    [|vm_compute in Hair; discriminate Hair].
  destruct (unknown_cooling_type_runs_as_water None "TX" "foo" (lit 1.0)
              "2023-06-01" 1 (lit 1.0) (lit 1.1) foo water
              (Some (replicate 24 (lit 0.75)))) as (_ & Hsame & _).
  - vm_compute. reflexivity.
  - exact Hfoo.
  - exact Hwater.
  - cbv beta zeta. rewrite Hsame.
    vm_compute in Hwater, Hair. injection Hwater as <-. injection Hair as <-.
    vm_compute. repeat split.
Defined.

End CoolingTypeEvaluations.

(* ===================================================================== *)
(** ** Further properties of a run                                        *)
(* ===================================================================== *)

Section RunInvariants.
Context {F : Type} {PF : PyFloat F} {W : World F}.
Import Solstice.

Lemma zip_with_map_map_app {A B C D : Type} (f : B -> C -> D) (g : A -> B)
    (h : A -> C) (l : list A) (extra : list C) :
  zip_with f (map g l) (map h l ++ extra) = map (fun x => f (g x) (h x)) l.
Proof. induction l as [|x l IH]; cbn; [reflexivity|]. rewrite IH. reflexivity. Qed.

Lemma map_fst_zip {A B : Type} (l : list A) (k : list B) :
  map fst (zip l k) = take (length k) l.
Proof.
  revert k. induction l as [|x l IH]; intros [|y k]; cbn; try reflexivity.
  rewrite IH. reflexivity.
Qed.

(** The two series filled at the start of an iteration hold one entry
    per completed iteration, and one more when the run raised. *)
Lemma run_provider_series (wp : option (list F)) (self : t F) :
  let r := simulation_results (run_simulation wp self).1 in
  let vs := rows self (completed wp self) in
  exists failed : list datetime,
    take 1 (drop (length (workload_of_run wp self)) (hours_of_run self)) = failed
    /\ ambient_temperature r
       = (map ambient_temp vs
          ++ map (LocationManager.get_temperature (location_manager self)) failed)%list
    /\ carbon_intensity r
       = (map carbon_intensity_now vs
          ++ map (CarbonIntensityTracker.get_carbon_intensity (carbon_tracker self))
               failed)%list.
Proof.
  cbv zeta.
  destruct (le_lt_dec (simulation_hours self) (length (workload_of_run wp self)))
    as [Hle|Hlt].
  - exists []. destruct (run_results_complete wp self Hle) as [_ ->].
    cbn. rewrite !app_nil_r. repeat split.
    rewrite drop_ge by (rewrite hours_of_run_length; lia). reflexivity.
  - destruct (run_results_short wp self Hlt) as (ts & Hts & _ & ->).
    exists [ts]. cbn. split; [|split; reflexivity].
    rewrite (drop_S _ _ _ Hts). reflexivity.
Qed.

(** Both series, hour by hour: the provider's value for every hour up
    to and including the first one without a workload entry. *)
Lemma run_provider_series_by_hour (wp : option (list F)) (self : t F) :
  let r := simulation_results (run_simulation wp self).1 in
  let reached := take (S (length (workload_of_run wp self))) (hours_of_run self) in
  ambient_temperature r
  = map (LocationManager.get_temperature (location_manager self)) reached
  /\ carbon_intensity r
     = map (CarbonIntensityTracker.get_carbon_intensity (carbon_tracker self)) reached.
Proof.
  cbv zeta. destruct (run_provider_series wp self) as (failed & <- & -> & ->).
  replace (S (length (workload_of_run wp self)))
    with (length (workload_of_run wp self) + 1)%nat by lia.
  rewrite <- take_take_drop, !map_app.
  unfold rows, completed. rewrite !map_map.
  rewrite <- (map_fst_zip (hours_of_run self) (workload_of_run wp self)), !map_map.
  split; reflexivity.
Qed.

(** X1: a run records one carbon emission for every simulated hour
    that has a workload entry (for every simulated hour, when the
    workload covers them all), whether it completes or is cut short, and
    each is the total energy recorded for that timestep times the carbon
    intensity recorded for it, divided by 1000000.  The carbon-intensity
    series has at least as many entries as the other two, which have the
    same number, so the zip pairs every emission. *)
Theorem carbon_emissions_follow_total_energy (wp : option (list F)) (self : t F) :
  let r := simulation_results (run_simulation wp self).1 in
  length (carbon_emissions r)
  = (simulation_hours self `min` length (workload_of_run wp self))%nat
  /\ length (carbon_emissions r) = length (total_energy r)
  /\ (length (total_energy r) <= length (carbon_intensity r))%nat
  /\ carbon_emissions r
     = zip_with (fun total_energy carbon_intensity =>
                   (total_energy * carbon_intensity / of_int 1000000)%py)
         (total_energy r) (carbon_intensity r).
Proof.
  cbv zeta. destruct (run_series wp self) as (_ & _ & -> & -> & _).
  destruct (run_provider_series wp self) as (failed & _ & _ & ->).
  rewrite length_app, !length_map. split; [apply rows_completed_length|].
  split; [reflexivity|]. split; [lia|].
  rewrite zip_with_map_map_app. unfold rows. rewrite !map_map.
  apply map_ext. intros [ts cw]. reflexivity.
Qed.

Lemma run_steps_air_dc_model (steps : list (datetime * F)) (self : t F) :
  String.eqb (cooling_type self) "air" = true ->
  dc_model (run_steps self steps) = dc_model self.
Proof.
  revert self. induction steps as [|[ts cw] steps IH]; intros self Hair;
    [reflexivity|].
  change (run_steps self ((ts, cw) :: steps))
    with (run_steps (after_step self ts cw) steps).
  rewrite IH by exact Hair.
  unfold after_step. cbn [dc_model]. rewrite Hair. reflexivity.
Qed.

(** X2: with cooling type "air" a run records a water usage of 0.0 at
    every completed timestep and leaves the IT model object as it was:
    the cooling-tower calculation is never reached and the water
    temperatures are never assigned. *)
Theorem air_cooling_uses_no_water (wp : option (list F)) (self : t F) :
  cooling_type self = "air" ->
  let out := run_simulation wp self in
  water_usage (simulation_results out.1)
  = replicate (length (total_energy (simulation_results out.1))) (lit 0.0)
  /\ dc_model out.1 = dc_model self.
Proof.
  intros Hair. cbv zeta. split.
  - destruct (run_series wp self) as (_ & _ & -> & _ & -> & _).
    rewrite length_map. unfold rows. rewrite length_map, map_map.
    induction (completed wp self) as [|[ts cw] steps IH]; [reflexivity|].
    cbn [map length replicate]. rewrite IH. f_equal.
    unfold locals. cbn [water_usage_now]. rewrite Hair. reflexivity.
  - assert (Hair' : String.eqb (cooling_type self) "air" = true)
      by (rewrite Hair; reflexivity).
    destruct (le_lt_dec (simulation_hours self) (length (workload_of_run wp self)))
      as [Hle|Hlt].
    + rewrite (run_complete _ _ Hle). cbn [fst].
      rewrite run_steps_air_dc_model by exact Hair'. reflexivity.
    + destruct (run_short _ _ Hlt) as (ts & _ & ->). cbn [fst].
      change (dc_model (after_index_error ?s ts)) with (dc_model s).
      rewrite run_steps_air_dc_model by exact Hair'. reflexivity.
Qed.

(** X3: the timestamps of a run are the consecutive hours from the
    start date up to, not including, the end date; the ambient
    temperature and the carbon intensity recorded for an hour are what
    the location manager and the carbon tracker return for that hour,
    for every hour the loop reached: all of them when the workload has
    an entry for each, and otherwise those with an entry and the first
    one without. *)
Theorem run_records_provider_values_per_hour (wp : option (list F)) (self : t F) :
  let r := simulation_results (run_simulation wp self).1 in
  let reached := take (S (length (workload_of_run wp self))) (timestamps r) in
  timestamps r = seqZ (start_date self) (end_date self - start_date self)
  /\ ambient_temperature r
     = map (LocationManager.get_temperature (location_manager self)) reached
  /\ carbon_intensity r
     = map (CarbonIntensityTracker.get_carbon_intensity (carbon_tracker self)) reached.
Proof.
  cbv zeta. destruct (run_series wp self) as (_ & _ & _ & _ & _ & -> & _).
  split; [reflexivity|]. apply run_provider_series_by_hour.
Qed.

Lemma day_pattern_length : length (day_pattern (F := F)) = 24%nat.
Proof. reflexivity. Qed.

Lemma default_workload_lookup (n i : nat) :
  default_workload (F := F) n !! i
  = if decide (i < n)%nat then day_pattern !! (i `mod` 24)%nat else None.
Proof.
  unfold default_workload.
  set (default_workload_entry :=
         fun i : nat => default (of_int 0) (day_pattern (F := F) !! (i `mod` 24)%nat)).
  change (map default_workload_entry (seq 0 n) !! i = 
          if decide (i < n)%nat then day_pattern !! (i `mod` 24)%nat else None).
  rewrite list_lookup_fmap.
  destruct (decide (i < n)%nat) as [Hlt|Hge].
  - rewrite lookup_seq_lt by exact Hlt.
    change (default_workload_entry <$> Some (0 + i)%nat)
      with (Some (default_workload_entry i)).
    unfold default_workload_entry.
    destruct (lookup_lt_is_Some_2 (day_pattern (F := F)) (i `mod` 24)%nat) as [x Hx].
    { rewrite day_pattern_length. apply Nat.mod_upper_bound. lia. }
    rewrite Hx. reflexivity.
  - rewrite lookup_seq_ge by lia. reflexivity.
Qed.

(** X4: a run without a workload pattern returns normally on every
    model, of whatever length; the workload it records has one entry per
    simulated hour, and the entry of hour i is entry (i mod 24) of the
    24-entry daily pattern, so the synthesized workload repeats every 24
    hours: the entry 24 hours after an hour, when the run is that long,
    is the entry of that hour. *)
Theorem default_workload_repeats_daily (self : t F) :
  let out := run_simulation None self in
  let workload := workload (simulation_results out.1) in
  out.2 = None
  /\ length workload = simulation_hours self
  /\ length (day_pattern (F := F)) = 24%nat
  /\ (forall i : nat,
        (i < simulation_hours self)%nat ->
        workload !! i = day_pattern !! (i `mod` 24)%nat)
  /\ (forall i : nat,
        (i + 24 < simulation_hours self)%nat ->
        workload !! (i + 24)%nat = workload !! i).
Proof.
  cbv zeta.
  assert (Hlen : (simulation_hours self <= length (workload_of_run None self))%nat).
  { cbn. rewrite default_workload_length. lia. }
  destruct (run_results_complete None self Hlen) as [-> ->].
  cbn [workload add_rows empty_results workload_of_run].
  rewrite default_workload_length.
  split; [reflexivity|]. split; [reflexivity|]. split; [reflexivity|]. split.
  - intros i Hi. rewrite default_workload_lookup, decide_True by exact Hi.
    reflexivity.
  - intros i Hi. rewrite !default_workload_lookup, !decide_True by lia.
    replace (i + 24)%nat with (i + 1 * 24)%nat by lia.
    rewrite Nat.Div0.mod_add. reflexivity.
Qed.

Lemma forallb_lengths (n : nat) (columns : list (list F)) :
  forallb (fun column : list F => (length column =? n)%nat) columns = true
  <-> Forall (fun column => length column = n) columns.
Proof.
  rewrite forallb_forall, Forall_forall. split; intros H c Hc.
  - apply Nat.eqb_eq, H. apply list_elem_of_In, Hc.
  - apply Nat.eqb_eq, H. apply list_elem_of_In, Hc.
Qed.

(** The results frame after a run. *)
Lemma frame_after_run
    (wp : option (list F)) (self : t F) :
  get_results_dataframe (run_simulation wp self).1
  = if decide (length (workload_of_run wp self) = simulation_hours self)
    then Return (simulation_results (run_simulation wp self).1)
    else Raise (ValueError "All arrays must be of the same length").
Proof.
  unfold get_results_dataframe.
  destruct (run_series wp self) as (Hde & Hce & Hte & Hem & Hwu & Hts & Hwl).
  destruct (run_provider_series_by_hour wp self) as (Hat & Hci).
  cbv zeta in *.
  set (r := simulation_results (run_simulation wp self).1) in *.
  assert (Hrows : length (rows self (completed wp self))
                  = (simulation_hours self `min` length (workload_of_run wp self))%nat).
  { unfold rows, completed. rewrite length_map, length_zip, hours_of_run_length.
    reflexivity. }
  destruct (decide (length (workload_of_run wp self) = simulation_hours self))
    as [Heq|Hne].
  - replace (forallb _ _) with true; [reflexivity|].
    symmetry. apply forallb_lengths.
    rewrite Hde, Hce, Hte, Hem, Hwu, Hts, Hwl, Hat, Hci.
    repeat constructor;
      rewrite ?length_map, ?length_take, ?Hrows, ?hours_of_run_length; lia.
  - replace (forallb _ _) with false; [reflexivity|].
    symmetry. apply not_true_is_false. intros Hall.
    apply forallb_lengths in Hall.
    rewrite Hde, Hwl, Hts in Hall.
    inversion Hall as [|? ? Hfirst Hrest]; subst.
    rewrite length_map, Hrows, hours_of_run_length in Hfirst.
    apply Forall_app with (l1 := [_; _; _; _; _; _]) in Hrest.
    destruct Hrest as [_ Hlast]. inversion Hlast as [|? ? Hw _]; subst.
    rewrite hours_of_run_length in Hw. lia.
Qed.

(** X5: after a run, the results can be put in a data frame exactly
    when the workload had one entry per simulated hour.  With more
    entries the run completes but the workload column is longer than
    the others; with fewer the run stopped early and the columns differ
    in length; in both cases building the frame raises ValueError. *)
Theorem results_frame_needs_one_workload_entry_per_hour
    (wp : option (list F)) (self : t F) :
  get_results_dataframe (run_simulation wp self).1
  = if decide (length (workload_of_run wp self) = simulation_hours self)
    then Return (simulation_results (run_simulation wp self).1)
    else Raise (ValueError "All arrays must be of the same length").
Proof. apply frame_after_run. Qed.

(** X23: after a run on a workload that does not have exactly one
    entry per simulated hour, every query on recorded IT power that is
    not all zero raises ValueError, whatever it asks for: [query] builds
    the results frame first.  This includes the runs on a longer
    workload, which themselves return normally. *)
Theorem queries_fail_after_a_run_with_mismatched_workload
    (wp : option (list F)) (self : t F) (query_text : string) :
  length (workload_of_run wp self) <> simulation_hours self ->
  py_any (datacenter_energy (simulation_results (run_simulation wp self).1)) = true ->
  query query_text (run_simulation wp self).1
  = Raise (ValueError "All arrays must be of the same length").
Proof.
  intros Hlen Hany. unfold query. rewrite Hany. cbn [negb].
  rewrite frame_after_run, decide_False by exact Hlen. reflexivity.
Qed.

(** X24: a model built for zero days, or for a negative number of
    days, has no hour to simulate: every run on it returns normally and
    records no row, and every query afterwards is answered with the
    error entry for missing simulation data. *)
Theorem run_of_no_days_records_nothing
    (config : option (Config F)) (location cooling_type : string)
    (capacity : F) (start : string) (days : Z) (eff pue : F) (m : t F)
    (wp : option (list F)) (query_text : string) :
  __init__ config location cooling_type capacity start days eff pue = Return m ->
  days <= 0 ->
  run_simulation wp m
  = (set_simulation_results (empty_results [] (workload_of_run wp m)) m, None)
  /\ query query_text (run_simulation wp m).1
     = Return {[ "error" :=
                   VStr "No simulation data available. Please run a simulation first." ]}.
Proof.
  intros Hinit Hdays.
  destruct (init_inv _ _ _ _ _ _ _ _ _ Hinit) as (_ & Hend & _).
  apply add_days_inv in Hend.
  assert (Hhours : hours_of_run m = []).
  { unfold hours_of_run. apply seqZ_nil. lia. }
  assert (Hrun : run_simulation wp m
                 = (set_simulation_results
                      (empty_results [] (workload_of_run wp m)) m, None)).
  { rewrite run_simulation_unfold, Hhours. reflexivity. }
  split; [exact Hrun|]. rewrite Hrun. reflexivity.
Qed.

(** X6: a model that has been built but not run answers every query
    with the error entry "No simulation data available. Please run a
    simulation first." and nothing else. *)
Theorem query_before_any_run_reports_no_data
    (config : option (Config F)) (location cooling_type : string)
    (capacity : F) (start : string) (days : Z) (eff pue : F) (m : t F)
    (query_text : string) :
  __init__ config location cooling_type capacity start days eff pue = Return m ->
  query query_text m
  = Return {[ "error" :=
                VStr "No simulation data available. Please run a simulation first." ]}.
Proof.
  intros Hinit.
  destruct (init_inv _ _ _ _ _ _ _ _ _ Hinit) as (_ & _ & _ & _ & _ & ->).
  reflexivity.
Qed.

End RunInvariants.

Section Binary64RunInvariants.
Context {W : World float}.
Import Solstice.

Lemma py_any_all_falsy {F : Type} {PF : PyFloat F} (xs : list F) :
  Forall (fun x => truthy x = false) xs -> py_any xs = false.
Proof.
  unfold py_any. induction 1 as [|x xs Hx _ IH]; [reflexivity|].
  cbn [existsb]. rewrite Hx, IH. reflexivity.
Qed.

(** The classification of binary64 values, read on the IEEE
    specification. *)
Lemma is_zero_spec (x : float) :
  PrimFloat.is_zero x = true <-> exists s, Prim2SF x = SpecFloat.S754_zero s.
Proof.
  unfold PrimFloat.is_zero. rewrite FloatAxioms.eqb_spec.
  change (Prim2SF PrimFloat.zero) with (SpecFloat.S754_zero false).
  destruct (Prim2SF x) as [s|s| |s m e]; cbn; split;
    try discriminate; try (intros [? [=]]); eauto.
  all: destruct s; discriminate.
Qed.

Lemma is_finite_spec (x : float) :
  PrimFloat.is_finite x = true ->
  match Prim2SF x with
  | SpecFloat.S754_zero _ | SpecFloat.S754_finite _ _ _ => True
  | _ => False
  end.
Proof.
  unfold PrimFloat.is_finite, PrimFloat.is_nan, PrimFloat.is_infinity.
  rewrite !FloatAxioms.eqb_spec, FloatAxioms.abs_spec.
  change (Prim2SF PrimFloat.infinity) with (SpecFloat.S754_infinity false).
  destruct (Prim2SF x) as [s|s| |s m e]; cbn; try (intros _; exact I).
  - destruct s; discriminate.
  - discriminate.
Qed.

(** Zero divided by a number other than zero is a zero, and a finite
    number times a zero is a zero. *)
Lemma zero_div_is_zero (y : float) :
  PrimFloat.is_nan y = false ->
  PrimFloat.eqb y PrimFloat.zero = false ->
  PrimFloat.is_zero (PrimFloat.div PrimFloat.zero y) = true.
Proof.
  unfold PrimFloat.is_nan. rewrite !FloatAxioms.eqb_spec.
  change (Prim2SF PrimFloat.zero) with (SpecFloat.S754_zero false).
  intros Hnan Hzero. apply is_zero_spec. rewrite FloatAxioms.div_spec.
  change (Prim2SF PrimFloat.zero) with (SpecFloat.S754_zero false).
  destruct (Prim2SF y) as [s|s| |s m e]; cbn in *;
    try discriminate; eexists; reflexivity.
Qed.

Lemma finite_mul_zero_is_zero (x z : float) :
  PrimFloat.is_finite x = true ->
  PrimFloat.is_zero z = true ->
  PrimFloat.is_zero (PrimFloat.mul x z) = true.
Proof.
  intros Hx Hz. apply is_finite_spec in Hx. apply is_zero_spec in Hz.
  destruct Hz as [sz Hz]. apply is_zero_spec. rewrite FloatAxioms.mul_spec, Hz.
  destruct (Prim2SF x) as [s|s| |s m e]; cbn in *;
    try contradiction; eexists; reflexivity.
Qed.

(** X7: in binary64, a model built with a capacity of 0.0 MW whose IT
    model reports a full load that is a number has a scaling factor of
    zero; in a run for which the thermal model reports finite rack
    powers, every IT power recorded is then a zero, and [query], which
    tests for an IT power that is not zero, takes the run for no run at
    all: after the run it still answers every query with the error entry
    "No simulation data available. Please run a simulation first.". *)
Theorem zero_capacity_run_is_reported_as_no_data
    (config : option (Config float)) (location cooling_type : string)
    (start : string) (days : Z) (eff pue : float) (m : t float)
    (wp : option (list float)) (query_text : string) :
  __init__ config location cooling_type (lit 0.0) start days eff pue = Return m ->
  PrimFloat.is_nan (ITModel.total_DC_full_load (dc_model m)) = false ->
  forallb (fun step : datetime * float =>
             PrimFloat.is_finite
               (it_load_at m step.2
                  (setpoint_policy
                     (LocationManager.get_temperature (location_manager m) step.1))))
          (completed wp m) = true ->
  PrimFloat.is_zero (scaling_factor m) = true
  /\ length (datacenter_energy (simulation_results (run_simulation wp m).1))
     = (simulation_hours m `min` length (workload_of_run wp m))%nat
  /\ Forall (fun it_power => PrimFloat.is_zero it_power = true)
       (datacenter_energy (simulation_results (run_simulation wp m).1))
  /\ query query_text (run_simulation wp m).1
     = Return {[ "error" :=
                   VStr "No simulation data available. Please run a simulation first." ]}.
Proof.
  intros Hinit Hnan Hfinite.
  assert (Hsf : PrimFloat.is_zero (scaling_factor m) = true).
  { destruct (init_inv _ _ _ _ _ _ _ _ _ Hinit) as (_ & _ & _ & _ & Hfull & Hm).
    rewrite Hm in Hnan |- *. cbn [scaling_factor dc_model] in *.
    replace (lit 0.0 * lit 1e6)%py with PrimFloat.zero by (vm_compute; reflexivity).
    apply zero_div_is_zero; [exact Hnan|exact Hfull]. }
  assert (Hzero : Forall (fun it_power => PrimFloat.is_zero it_power = true)
            (datacenter_energy (simulation_results (run_simulation wp m).1))).
  { destruct (run_series wp m) as (-> & _).
    unfold rows. rewrite map_map. apply Forall_fmap, Forall_forall.
    intros [ts cw] Hin.
    rewrite forallb_forall in Hfinite.
    specialize (Hfinite (ts, cw) (proj1 (list_elem_of_In _ _) Hin)).
    cbn [fst snd] in Hfinite.
    change (PrimFloat.is_zero (it_power (locals m ts cw)) = true).
    destruct (locals_at_setpoint m ts cw) as (-> & _).
    rewrite (locals_setpoint_policy binary64_mul_comm).
    apply finite_mul_zero_is_zero; [exact Hfinite|exact Hsf]. }
  split; [exact Hsf|]. split.
  { destruct (run_series wp m) as (-> & _). rewrite length_map.
    apply rows_completed_length. }
  split; [exact Hzero|].
  unfold query. rewrite py_any_all_falsy; [reflexivity|].
  eapply Forall_impl; [exact Hzero|]. intros x Hx.
  unfold truthy. change (x =? of_int 0)%py with (PrimFloat.is_zero x).
  rewrite Hx. reflexivity.
Qed.

End Binary64RunInvariants.

Section RunInvariantEvaluations.
Import Solstice.

(** The sample air-cooled model on a two-hour workload. *)
Lemma air_cooling_uses_no_water_witness :
  match __init__ (F := float) None "TX" "air" (lit 1.0) "2023-06-01" 1 (lit 1.0) (lit 1.1)
        return Prop with
  | Return m =>
      water_usage (simulation_results (run_simulation (Some [lit 0.75; lit 0.5]) m).1)
      = [lit 0.0; lit 0.0]
      /\ dc_model (run_simulation (Some [lit 0.75; lit 0.5]) m).1 = dc_model m
  | Raise _ => False
  end.
Proof.
  destruct (__init__ (F := float) None "TX" "air" (lit 1.0) "2023-06-01" 1
              (lit 1.0) (lit 1.1)) as [m|e] eqn:Hinit;
    [|vm_compute in Hinit; discriminate Hinit].
  destruct (air_cooling_uses_no_water (Some [lit 0.75; lit 0.5]) m) as (Hwater & Hdc).
  - vm_compute in Hinit. injection Hinit as <-. reflexivity.
  - split; [|exact Hdc]. rewrite Hwater.
    vm_compute in Hinit. injection Hinit as <-. vm_compute. reflexivity.
Defined.

(** A day of the sample model at three quarters of its load: 24
    emissions, the first one the total energy of the first hour times
    the 400 g/kWh of that hour, divided by 1000000. *)
Lemma carbon_emissions_follow_total_energy_witness :
  match __init__ (F := float) None "TX" "air" (lit 1.0) "2023-06-01" 1 (lit 1.0) (lit 1.1)
        return Prop with
  | Return m =>
      let r := simulation_results
                 (run_simulation (Some (replicate 24 (lit 0.75))) m).1 in
      length (carbon_emissions r) = 24%nat
      /\ carbon_emissions r !! 0%nat
         = Some ((lit 800000.0 + lit 3550000.0) * lit 1.1 * lit 400.0
                 / of_int 1000000)%py
  | Raise _ => False
  end.
Proof.
  destruct (__init__ (F := float) None "TX" "air" (lit 1.0) "2023-06-01" 1
              (lit 1.0) (lit 1.1)) as [m|e] eqn:Hinit;
    [|vm_compute in Hinit; discriminate Hinit].
  destruct (carbon_emissions_follow_total_energy
              (Some (replicate 24 (lit 0.75))) m) as (Hlen & _ & _ & Hemissions).
  cbv zeta. rewrite Hlen, Hemissions.
  vm_compute in Hinit. injection Hinit as <-.
  split; vm_compute; reflexivity.
Defined.

(** A one-day run of the sample model returns with 24 workload
    entries; in a two-day run hour 30 repeats hour 6. *)
Lemma default_workload_repeats_daily_witness :
  match __init__ (F := float) None "TX" "air" (lit 1.0) "2023-06-01" 1 (lit 1.0) (lit 1.1),
        __init__ (F := float) None "TX" "air" (lit 1.0) "2023-06-01" 2 (lit 1.0) (lit 1.1)
        return Prop with
  | Return one_day, Return two_days =>
      (run_simulation None one_day).2 = None
      /\ length (workload (simulation_results (run_simulation None one_day).1))
         = 24%nat
      /\ workload (simulation_results (run_simulation None two_days).1) !! 30%nat
         = workload (simulation_results (run_simulation None two_days).1) !! 6%nat
  | _, _ => False
  end.
Proof.
  destruct (__init__ (F := float) None "TX" "air" (lit 1.0) "2023-06-01" 1
              (lit 1.0) (lit 1.1)) as [one_day|e] eqn:Hone;
    [|vm_compute in Hone; discriminate Hone].
  destruct (__init__ (F := float) None "TX" "air" (lit 1.0) "2023-06-01" 2
              (lit 1.0) (lit 1.1)) as [two_days|e] eqn:Htwo;
    [|vm_compute in Htwo; discriminate Htwo].
  destruct (default_workload_repeats_daily one_day) as (Hout & Hlen & _).
  destruct (default_workload_repeats_daily two_days) as (_ & _ & _ & _ & Hday).
  split; [exact Hout|]. split.
  - rewrite Hlen. vm_compute in Hone. injection Hone as <-. reflexivity.
  - apply (Hday 6%nat). vm_compute in Htwo. injection Htwo as <-.
    vm_compute. lia.
Defined.

(** The sample model, asked for its energy before any run. *)
Lemma query_before_any_run_reports_no_data_witness :
  match __init__ (F := float) None "TX" "air" (lit 1.0) "2023-06-01" 1 (lit 1.0) (lit 1.1)
        return Prop with
  | Return m =>
      query "total energy" m
      = Return {[ "error" :=
                    VStr "No simulation data available. Please run a simulation first." ]}
  | Raise _ => False
  end.
Proof.
  destruct (__init__ (F := float) None "TX" "air" (lit 1.0) "2023-06-01" 1
              (lit 1.0) (lit 1.1)) as [m|e] eqn:Hinit;
    [|vm_compute in Hinit; discriminate Hinit].
  exact (query_before_any_run_reports_no_data _ _ _ _ _ _ _ _ m "total energy" Hinit).
Defined.

(** The sample model with capacity 0.0, run for a day at three
    quarters of its load and asked for a summary: 24 IT powers, all
    zero, and the answer that there is no data. *)
Lemma zero_capacity_run_is_reported_as_no_data_witness :
  match __init__ (F := float) None "TX" "air" (lit 0.0) "2023-06-01" 1 (lit 1.0) (lit 1.1)
        return Prop with
  | Return m =>
      length (datacenter_energy
                (simulation_results
                   (run_simulation (Some (replicate 24 (lit 0.75))) m).1))
      = 24%nat
      /\ query "give me everything"
           (run_simulation (Some (replicate 24 (lit 0.75))) m).1
         = Return {[ "error" :=
                       VStr "No simulation data available. Please run a simulation first." ]}
  | Raise _ => False
  end.
Proof.
  destruct (__init__ (F := float) None "TX" "air" (lit 0.0) "2023-06-01" 1
              (lit 1.0) (lit 1.1)) as [m|e] eqn:Hinit;
    [|vm_compute in Hinit; discriminate Hinit].
  destruct (zero_capacity_run_is_reported_as_no_data _ _ _ _ _ _ _ m
              (Some (replicate 24 (lit 0.75))) "give me everything" Hinit)
    as (_ & Hlen & _ & Hquery).
  - vm_compute in Hinit. injection Hinit as <-. vm_compute. reflexivity.
  - vm_compute in Hinit. injection Hinit as <-. vm_compute. reflexivity.
  - split; [|exact Hquery]. rewrite Hlen.
    vm_compute in Hinit. injection Hinit as <-. vm_compute. reflexivity.
Defined.

(** The sample model run for a day on 25 workload entries: the run
    returns, the query raises. *)
Lemma queries_fail_after_a_run_with_mismatched_workload_witness :
  match __init__ (F := float) None "TX" "air" (lit 1.0) "2023-06-01" 1 (lit 1.0) (lit 1.1)
        return Prop with
  | Return m =>
      (run_simulation (Some (replicate 25 (lit 0.75))) m).2 = None
      /\ query "total energy" (run_simulation (Some (replicate 25 (lit 0.75))) m).1
         = Raise (ValueError "All arrays must be of the same length")
  | Raise _ => False
  end.
Proof.
  destruct (__init__ (F := float) None "TX" "air" (lit 1.0) "2023-06-01" 1
              (lit 1.0) (lit 1.1)) as [m|e] eqn:Hinit;
    [|vm_compute in Hinit; discriminate Hinit].
  vm_compute in Hinit. injection Hinit as <-.
  split; [vm_compute; reflexivity|].
  apply queries_fail_after_a_run_with_mismatched_workload.
  - vm_compute. lia.
  - vm_compute. reflexivity.
Defined.

(** The sample model built for zero days. *)
Lemma run_of_no_days_records_nothing_witness :
  match __init__ (F := float) None "TX" "air" (lit 1.0) "2023-06-01" 0 (lit 1.0) (lit 1.1)
        return Prop with
  | Return m =>
      timestamps (simulation_results (run_simulation None m).1) = []
      /\ (run_simulation None m).2 = None
  | Raise _ => False
  end.
Proof.
  destruct (__init__ (F := float) None "TX" "air" (lit 1.0) "2023-06-01" 0
              (lit 1.0) (lit 1.1)) as [m|e] eqn:Hinit;
    [|vm_compute in Hinit; discriminate Hinit].
  destruct (run_of_no_days_records_nothing _ _ _ _ _ _ _ _ m None "summary" Hinit)
    as [Hrun _]; [lia|].
  rewrite Hrun. split; reflexivity.
Defined.

End RunInvariantEvaluations.

(* ===================================================================== *)
(** ** Further properties of the cooling manager                          *)
(* ===================================================================== *)

Section CoolingManagerFacts.
Context {F : Type} {PF : PyFloat F}.
Import CoolingManager.

(** A key of the table of cooling types is one of the four strings. *)
Lemma COOLING_TYPES_keys (cooling_type : string) (info : CoolingInfo F) :
  COOLING_TYPES !! cooling_type = Some info ->
  cooling_type = "air" \/ cooling_type = "water"
  \/ cooling_type = "immersion" \/ cooling_type = "hybrid".
Proof.
  unfold COOLING_TYPES.
  rewrite !lookup_insert_Some, lookup_singleton_Some. intuition auto.
Qed.

(** The manager built for any string is the manager of one of the four
    known types: of that string when the table has it, else of air. *)
Lemma manager_of_known_type (cooling_type : string) (config : Config F) :
  exists known : string,
    (known = "air" \/ known = "water" \/ known = "immersion" \/ known = "hybrid")
    /\ (known = cooling_type
        \/ (COOLING_TYPES (F := F) !! cooling_type = None /\ known = "air"))
    /\ __init__ cooling_type config = __init__ known config.
Proof.
  destruct (COOLING_TYPES (F := F) !! cooling_type) as [info|] eqn:Hinfo.
  - exists cooling_type. split; [exact (COOLING_TYPES_keys _ _ Hinfo)|].
    split; [left; reflexivity|reflexivity].
  - exists "air". split; [left; reflexivity|]. split; [right; split; reflexivity|].
    unfold __init__. rewrite Hinfo.
    rewrite (bool_decide_eq_false_2 (is_Some None)) by (intros [? ?]; discriminate).
    reflexivity.
Qed.

(** X8: whatever string a cooling manager is built for, the type it
    settles on is a key of the table of cooling types, its information
    is that key's row (the lookup cannot miss), and its coefficient of
    performance and fan power factor are set, so that
    [get_cooling_parameters] reports the attributes and never its
    defaults 3.0 and 1.0 in their place. *)
Theorem cooling_parameters_are_those_of_a_known_type
    (requested : string) (config : Config F) :
  let self := __init__ requested config in
  let reported := get_cooling_parameters self in
  (cooling_type self = requested
   \/ (COOLING_TYPES (F := F) !! requested = None /\ cooling_type self = "air"))
  /\ COOLING_TYPES !! cooling_type self = Some (cooling_info self)
  /\ reported !! "type" = Some (PStr (cooling_type self))
  /\ reported !! "name" = Some (PStr (name (cooling_info self)))
  /\ (exists cop, coef_of_performance self = Some cop
                  /\ reported !! "coef_of_performance" = Some (PNum cop))
  /\ (exists fpf, fan_power_factor self = Some fpf
                  /\ reported !! "fan_power_factor" = Some (PNum fpf))
  /\ (water_usage_factor self = None <-> cooling_type self = "air").
Proof.
  cbv zeta.
  destruct (manager_of_known_type requested config)
    as (known & Hknown & Hrequested & ->).
  split.
  - destruct Hrequested as [<- | [Hnone ->]].
    + left. destruct Hknown as [-> | [-> | [-> | ->]]]; reflexivity.
    + right. split; [exact Hnone|reflexivity].
  - destruct Hknown as [-> | [-> | [-> | ->]]];
      (split; [reflexivity|]); (split; [reflexivity|]); (split; [reflexivity|]);
      (split; [eexists; split; reflexivity|]);
      (split; [eexists; split; reflexivity|]);
      split; intros H; first [reflexivity | discriminate H].
Qed.

End CoolingManagerFacts.

(* ===================================================================== *)
(** ** Further properties of the providers                                *)
(* ===================================================================== *)

Section ProviderFacts.
Context {F : Type} {PF : PyFloat F} {W : World F}.

(** The tables of the two providers have the same eight keys. *)
Lemma unknown_to_carbon_unknown_to_grid (location_code : string) :
  CarbonIntensityTracker.CI_FILES !! location_code = None ->
  CarbonIntensityTracker.GRID_REGIONS !! location_code = None.
Proof.
  unfold CarbonIntensityTracker.CI_FILES, CarbonIntensityTracker.GRID_REGIONS.
  rewrite !lookup_insert_None, !lookup_singleton_None. tauto.
Qed.

Lemma CI_FILES_keys (location_code file : string) :
  CarbonIntensityTracker.CI_FILES !! location_code = Some file ->
  location_code = "TX" \/ location_code = "NY" \/ location_code = "CA"
  \/ location_code = "AZ" \/ location_code = "IL" \/ location_code = "GA"
  \/ location_code = "WA" \/ location_code = "VA".
Proof.
  unfold CarbonIntensityTracker.CI_FILES.
  rewrite !lookup_insert_Some, lookup_singleton_Some. intuition auto.
Qed.

Lemma WEATHER_FILES_keys (location_code file : string) :
  LocationManager.WEATHER_FILES !! location_code = Some file ->
  location_code = "TX" \/ location_code = "NY" \/ location_code = "CA"
  \/ location_code = "AZ" \/ location_code = "IL" \/ location_code = "GA"
  \/ location_code = "WA" \/ location_code = "VA".
Proof.
  unfold LocationManager.WEATHER_FILES.
  rewrite !lookup_insert_Some, lookup_singleton_Some. intuition auto.
Qed.

(** The file [_load_carbon_data] settles on, for the grid region that
    [__init__] derives from the location code. *)
Lemma select_ci_file_of_location (location_code : string) :
  let grid_region :=
    default location_code (CarbonIntensityTracker.GRID_REGIONS !! location_code) in
  CarbonIntensityTracker.CI_FILES !! grid_region = None
  /\ CarbonIntensityTracker.select_ci_file grid_region location_code
     = default "TX_NG_&_avgCI.csv" (CarbonIntensityTracker.CI_FILES !! location_code).
Proof.
  cbv zeta.
  destruct (CarbonIntensityTracker.CI_FILES !! location_code) as [file|] eqn:Hfile.
  - destruct (CI_FILES_keys _ _ Hfile)
      as [-> | [-> | [-> | [-> | [-> | [-> | [-> | ->]]]]]]];
      vm_compute in Hfile; injection Hfile as <-; split; vm_compute; reflexivity.
  - rewrite (unknown_to_carbon_unknown_to_grid _ Hfile). cbn [default].
    split; [exact Hfile|].
    unfold CarbonIntensityTracker.select_ci_file. rewrite Hfile.
    rewrite (bool_decide_eq_false_2 (is_Some None)) by (intros [? ?]; discriminate).
    reflexivity.
Qed.

(** X12: a carbon-intensity tracker that has been constructed holds
    the rows of the file of its own location code, or of the Texas file
    when the code is unknown.  The grid region derived from the code is
    never a key of the file table, so the first branch of
    [_load_carbon_data], which looks the grid region up, never selects
    the file. *)
Theorem carbon_file_is_chosen_by_location_code
    (location_code : string) (tracker : CarbonIntensityTracker.t F) :
  CarbonIntensityTracker.__init__ location_code = Return tracker ->
  CarbonIntensityTracker.CI_FILES !! CarbonIntensityTracker.grid_region tracker = None
  /\ CarbonIntensityTracker.ci_file tracker
     = default "TX_NG_&_avgCI.csv" (CarbonIntensityTracker.CI_FILES !! location_code)
  /\ path_exists ("data/CarbonIntensity/" ++ CarbonIntensityTracker.ci_file tracker)
     = true
  /\ CarbonIntensityTracker.carbon_data tracker
     = read_ci_csv ("data/CarbonIntensity/" ++ CarbonIntensityTracker.ci_file tracker).
Proof.
  unfold CarbonIntensityTracker.__init__, CarbonIntensityTracker._load_carbon_data.
  destruct (select_ci_file_of_location location_code) as [Hgrid ->].
  cbv zeta in Hgrid.
  destruct (path_exists _) eqn:Hpath; cbn [negb bind]; [|discriminate].
  intros [= <-]. cbn. split; [exact Hgrid|]. split; [reflexivity|].
  split; [exact Hpath|reflexivity].
Qed.

(** X13: a location manager that has been constructed belongs to one
    of the eight known locations: its name comes from the table of
    names, never the placeholder for an unknown code, and
    [get_location_info] reports the code, that name and the weather
    file that was read, never the placeholder for a missing file. *)
Theorem constructed_location_manager_is_known
    (location_code : string) (manager : LocationManager.t F) :
  LocationManager.__init__ location_code = Return manager ->
  exists name file : string,
    LocationManager.LOCATION_NAMES !! location_code = Some name
    /\ LocationManager.WEATHER_FILES !! location_code = Some file
    /\ LocationManager.get_location_info manager
       = {[ "code" := location_code; "name" := name; "weather_file" := file ]}
    /\ path_exists ("data/Weather/" ++ file) = true
    /\ LocationManager.weather_data manager = read_epw ("data/Weather/" ++ file).
Proof.
  unfold LocationManager.__init__, LocationManager._load_weather_data.
  destruct (LocationManager.WEATHER_FILES !! location_code) as [file|] eqn:Hfile;
    cbn [falsy]; [|discriminate].
  assert (Hname : exists name,
            LocationManager.LOCATION_NAMES !! location_code = Some name).
  { destruct (WEATHER_FILES_keys _ _ Hfile)
      as [-> | [-> | [-> | [-> | [-> | [-> | [-> | ->]]]]]]];
      eexists; vm_compute; reflexivity. }
  destruct Hname as [name Hname].
  destruct (String.eqb file ""); [discriminate|]. cbn [default].
  destruct (path_exists _) eqn:Hpath; cbn [negb bind]; [|discriminate].
  intros [= <-]. exists name, file.
  unfold LocationManager.get_location_info. cbn. rewrite Hname, Hfile. cbn.
  repeat split. exact Hpath.
Qed.

Lemma matching_data_same (self : LocationManager.t F) (a b : datetime) :
  month_of a = month_of b -> day_of a = day_of b -> hour_of a = hour_of b ->
  LocationManager.matching_data self a = LocationManager.matching_data self b.
Proof.
  intros Hm Hd Hh. unfold LocationManager.matching_data. rewrite Hm, Hd, Hh.
  reflexivity.
Qed.

(** X14: the weather lookups follow a typical year: the temperature,
    the wet-bulb temperature and the humidity returned for a timestamp
    depend only on its month, day of month and hour, not on its year. *)
Theorem weather_lookup_depends_on_month_day_hour
    (self : LocationManager.t F) (a b : datetime) :
  month_of a = month_of b -> day_of a = day_of b -> hour_of a = hour_of b ->
  LocationManager.get_temperature self a = LocationManager.get_temperature self b
  /\ LocationManager.get_wet_bulb_temperature self a
     = LocationManager.get_wet_bulb_temperature self b
  /\ LocationManager.get_humidity self a = LocationManager.get_humidity self b.
Proof.
  intros Hm Hd Hh.
  unfold LocationManager.get_temperature, LocationManager.get_wet_bulb_temperature,
    LocationManager.get_humidity, LocationManager.lookup.
  rewrite (matching_data_same self a b Hm Hd Hh).
  unfold LocationManager.month_data. rewrite Hm. repeat split.
Qed.

Lemma filter_none {A : Type} (p : A -> bool) (l : list A) :
  Forall (fun x => p x = false) l -> List.filter p l = [].
Proof.
  induction 1 as [|x l Hx _ IH]; [reflexivity|]. cbn. rewrite Hx. exact IH.
Qed.

(** X15: for a timestamp on a date the carbon-intensity data does not
    cover, the tracker answers with the mean over the rows of the same
    hour of day, or the overall mean when no row has that hour; so two
    such timestamps with the same hour of day get the same carbon
    intensity. *)
Theorem carbon_intensity_off_the_record_depends_on_hour
    (self : CarbonIntensityTracker.t F) (a b : datetime) :
  Forall (fun row => date_of (CICsv.timestamp row) <> date_of a)
         (CarbonIntensityTracker.carbon_data self) ->
  Forall (fun row => date_of (CICsv.timestamp row) <> date_of b)
         (CarbonIntensityTracker.carbon_data self) ->
  hour_of a = hour_of b ->
  CarbonIntensityTracker.get_carbon_intensity self a
  = default (CarbonIntensityTracker.mean_ci self)
            (CarbonIntensityTracker.hourly_avg self (hour_of a))
  /\ CarbonIntensityTracker.get_carbon_intensity self a
     = CarbonIntensityTracker.get_carbon_intensity self b.
Proof.
  intros Ha Hb Hh.
  assert (Hoff : forall t,
            Forall (fun row => date_of (CICsv.timestamp row) <> date_of t)
                   (CarbonIntensityTracker.carbon_data self) ->
            CarbonIntensityTracker.get_carbon_intensity self t
            = default (CarbonIntensityTracker.mean_ci self)
                      (CarbonIntensityTracker.hourly_avg self (hour_of t))).
  { intros t Ht. unfold CarbonIntensityTracker.get_carbon_intensity.
    rewrite filter_none; [reflexivity|].
    eapply Forall_impl; [exact Ht|]. intros row Hrow. cbn beta.
    apply andb_false_intro1, Z.eqb_neq, Hrow. }
  rewrite (Hoff a Ha), (Hoff b Hb), Hh. split; reflexivity.
Qed.

End ProviderFacts.

Section SetpointRange.
Context {F : Type} {PF : PyFloat F} {W : World F}.
Import Solstice.




End SetpointRange.

(* ===================================================================== *)
(** ** Loading a model specification                                      *)
(* ===================================================================== *)

Section LoadingFacts.
Context {F : Type} {PF : PyFloat F} {W : World F}.
Import Solstice.

(** [query] reads the results, the location, the cooling type and the
    capacity of the model, and nothing else. *)
Lemma query_same (query_text : string) (a b : t F) :
  simulation_results a = simulation_results b ->
  location a = location b ->
  cooling_type a = cooling_type b ->
  datacenter_capacity_mw a = datacenter_capacity_mw b ->
  query query_text a = query query_text b.
Proof.
  intros Hr Hl Hc Hcap. unfold query, get_results_dataframe.
  rewrite Hr, Hl, Hc, Hcap. reflexivity.
Qed.

(** X17: loading server specifications into a model keeps the results
    of the earlier run: the recorded series, the results frame and the
    answer to every query are what they were before the load, although
    the configuration they were computed from has been replaced. *)
Theorem loading_server_specs_keeps_the_earlier_answers
    (specs : gmap string F) (self : t F) (query_text : string) :
  let out :=
    load_research_paper_model
      {| server_specs := Some specs; cooling_parameters := None |} self in
  simulation_results out.1 = simulation_results self
  /\ get_results_dataframe out.1 = get_results_dataframe self
  /\ query query_text out.1 = query query_text self.
Proof.
  cbv zeta.
  assert (H : let out :=
                load_research_paper_model
                  {| server_specs := Some specs; cooling_parameters := None |} self in
              simulation_results out.1 = simulation_results self
              /\ location out.1 = location self
              /\ cooling_type out.1 = cooling_type self
              /\ datacenter_capacity_mw out.1 = datacenter_capacity_mw self).
  { cbv zeta. unfold load_research_paper_model.
    destruct (_initialize_datacenter _ _); cbn; repeat split. }
  cbv zeta in H. destruct H as (Hr & Hl & Hc & Hcap).
  split; [exact Hr|]. split.
  - unfold get_results_dataframe. rewrite Hr. reflexivity.
  - apply query_same; assumption.
Qed.

(** X18: on a model as [__init__] built it, loading an empty
    specification returns normally and changes nothing: the IT model
    and the scaling factor it recomputes are the ones the model had. *)
Theorem loading_nothing_changes_nothing
    (config : option (Config F)) (location cooling_type : string)
    (capacity : F) (start : string) (days : Z) (eff pue : F) (m : t F) :
  __init__ config location cooling_type capacity start days eff pue = Return m ->
  load_research_paper_model
    {| server_specs := None; cooling_parameters := None |} m
  = (m, None).
Proof.
  intros Hinit.
  destruct (init_inv _ _ _ _ _ _ _ _ _ Hinit) as (_ & _ & _ & _ & Hfull & Hm).
  rewrite Hm. unfold load_research_paper_model, load_server_specs,
    _initialize_datacenter.
  cbn [server_specs cooling_parameters Solstice.config datacenter_capacity_mw
       default].
  rewrite Hfull. cbn [fst snd]. f_equal. f_equal.
  unfold CoolingManager.__init__.
  destruct (CoolingManager._initialize_cooling_params _) as [[[cop fpf] wuf] er].
  reflexivity.
Qed.

End LoadingFacts.

(* ===================================================================== *)
(** ** Comparing two models through the query interface                   *)
(* ===================================================================== *)

Section ComparisonFacts.
Context {F : Type} {PF : PyFloat F} {W : World F}.
Import LLMQueryInterface.

(** The text "summary" contains "sum": [query] answers it in its
    branch for totals, where it names no quantity and so gets an empty
    dictionary. *)
Lemma query_summary_word (m : Solstice.t F) :
  str_lower "summary" = "summary" ->
  Solstice.query "summary" m
  = if negb (py_any (Solstice.datacenter_energy (Solstice.simulation_results m)))
    then Return {[ "error" :=
                     VStr "No simulation data available. Please run a simulation first." ]}
    else bind (Solstice.get_results_dataframe m) (fun _ => Return ∅).
Proof.
  intros Hlower. unfold Solstice.query. rewrite Hlower.
  destruct (negb _); [reflexivity|].
  destruct (Solstice.get_results_dataframe m); reflexivity.
Qed.

Lemma summary_word_has_no_average_power (m : Solstice.t F)
    (summary : gmap string (PyVal F)) :
  str_lower "summary" = "summary" ->
  Solstice.query "summary" m = Return summary ->
  summary !! "average_power_kw" = None.
Proof.
  intros Hlower. rewrite (query_summary_word m Hlower).
  destruct (negb _).
  - intros [= <-]. vm_compute. reflexivity.
  - destruct (Solstice.get_results_dataframe m); cbn [bind]; [|discriminate].
    intros [= <-]. apply lookup_empty.
Qed.

Lemma summary_word_raises_value_error (m : Solstice.t F) (e : exn) :
  str_lower "summary" = "summary" ->
  Solstice.query "summary" m = Raise e ->
  e = ValueError "All arrays must be of the same length".
Proof.
  intros Hlower. rewrite (query_summary_word m Hlower).
  destruct (negb _); [discriminate|].
  unfold Solstice.get_results_dataframe. destruct (forallb _ _); cbn [bind].
  - discriminate.
  - intros [= <-]. reflexivity.
Qed.

(** X19: [compare_models] never returns a comparison.  It asks both
    models the query "summary", which [query] does not answer with its
    summary, and then reads the summary key average_power_kw from the
    answer.  For two registered models with data it raises KeyError for
    that key, or the ValueError of a results frame that cannot be built;
    otherwise it returns an error dictionary because a model is not
    registered or has no data. *)
Theorem compare_models_never_returns_a_comparison
    (_format_comparison :
       string -> string -> Comparison F -> option string -> outcome string)
    (self : t F) (model_id1 model_id2 : string) (aspect : option string) :
  str_lower "summary" = "summary" ->
  match compare_models _format_comparison self model_id1 model_id2 aspect with
  | Returned (ComparisonDict _) => False
  | Returned (ErrorDict _) =>
      ~ exists entry1 entry2,
          models self !! model_id1 = Some entry1
          /\ models self !! model_id2 = Some entry2
          /\ has_data entry1 = true /\ has_data entry2 = true
  | Raised (KeyError key) => key = "average_power_kw"
  | Raised (Engine e) => e = ValueError "All arrays must be of the same length"
  | Raised (TypeError _) => False
  end.
Proof.
  intros Hlower. unfold compare_models.
  destruct (models self !! model_id1) as [entry1|] eqn:H1;
    [|intros (? & ? & [=] & _)].
  destruct (models self !! model_id2) as [entry2|] eqn:H2;
    [|intros (? & ? & _ & [=] & _)].
  destruct (has_data entry1) eqn:Hd1; cbn [negb orb];
    [|intros (? & ? & [= <-] & _ & Hd & _); congruence].
  destruct (has_data entry2) eqn:Hd2; cbn [negb];
    [|intros (? & ? & _ & [= <-] & _ & Hd); congruence].
  destruct (Solstice.query "summary" (model entry1)) as [summary1|e1] eqn:Hq1;
    cbn [of_engine obind];
    [|exact (summary_word_raises_value_error _ _ Hlower Hq1)].
  destruct (Solstice.query "summary" (model entry2)) as [summary2|e2] eqn:Hq2;
    cbn [of_engine obind];
    [|exact (summary_word_raises_value_error _ _ Hlower Hq2)].
  unfold difference at 1, getitem at 1.
  rewrite (summary_word_has_no_average_power _ _ Hlower Hq2).
  reflexivity.
Qed.

End ComparisonFacts.

(* ===================================================================== *)
(** ** The best time window of the carbon tracker                         *)
(* ===================================================================== *)

Section BestTimeWindow.
Context {F : Type} {PF : PyFloat F} {W : World F} {PI : PyInf F}.
Import CarbonIntensityTracker.

Lemma hour_of_range (t : datetime) : 0 <= hour_of t < 24.
Proof. unfold hour_of. apply Z.mod_pos_bound. lia. Qed.

Lemma replace_hour_spec (t : datetime) (hour : Z) :
  0 <= hour < 24 ->
  date_of (replace_hour t hour) = date_of t
  /\ hour_of (replace_hour t hour) = hour.
Proof.
  intros Hh. unfold replace_hour, date_of, hour_of. split.
  - rewrite Z.mul_comm, Z.div_add_l by lia. rewrite (Z.div_small hour) by lia. lia.
  - rewrite Z.add_comm, Z.mul_comm, Z.mod_add by lia. apply Z.mod_small. lia.
Qed.

(** The first loop collects the hours of day that follow the start
    time's, modulo 24. *)
Lemma collect_hours_spec (n : nat) (current_time : datetime) (hours : list Z) :
  collect_hours n current_time hours
  = (hours ++ map (fun k => (hour_of current_time + k) `mod` 24)
                  (seqZ 0 (Z.of_nat n)))%list.
Proof.
  revert current_time hours. induction n as [|n IH]; intros t hours.
  - cbn. symmetry. apply app_nil_r.
  - cbn [collect_hours]. rewrite IH, <- app_assoc. f_equal.
    rewrite (seqZ_cons 0 (Z.of_nat (S n))) by lia.
    replace (Z.pred (Z.of_nat (S n))) with (Z.of_nat n) by lia.
    cbn [map app]. f_equal.
    + rewrite Z.add_0_r. symmetry. apply Z.mod_small, hour_of_range.
    + change (Z.succ 0) with (1 + 0). rewrite <- (fmap_add_seqZ 1 0).
      change (Z.add 1 <$> seqZ 0 (Z.of_nat n)) with (map (Z.add 1) (seqZ 0 (Z.of_nat n))).
      rewrite map_map. apply map_ext. intros k.
      destruct (replace_hour_spec t ((hour_of t + 1) `mod` 24)) as [_ ->];
        [apply Z.mod_pos_bound; lia|].
      rewrite Zplus_mod_idemp_l. f_equal. lia.
Qed.

Lemma py_slice_length {A : Type} (l : list A) (i d : Z) :
  0 <= i -> 0 <= d -> i + d <= Z.of_nat (length l) ->
  length (py_slice l i (i + d)) = Z.to_nat d.
Proof.
  intros Hi Hd Hlen. unfold py_slice, slice_index.
  rewrite !(proj2 (Z.ltb_ge _ 0)) by lia.
  rewrite !Z.min_l by lia.
  rewrite length_take, length_drop. lia.
Qed.

Lemma py_slice_empty {A : Type} (l : list A) (i : Z) : py_slice l i (i + 0) = [].
Proof. unfold py_slice. rewrite Z.add_0_r, Z.sub_diag. reflexivity. Qed.

(** A window that lies inside the hours collected has an average. *)
Lemma window_average_returns (self : t F) (hours : list Z) (i duration_hours : Z) :
  0 <= i -> 1 <= duration_hours -> i + duration_hours <= Z.of_nat (length hours) ->
  exists avg_ci, window_average self hours i duration_hours = Return avg_ci.
Proof.
  intros Hi Hd Hlen. unfold window_average. rewrite length_map.
  rewrite py_slice_length by lia.
  destruct (Z.to_nat duration_hours =? 0)%nat eqn:Hz.
  - apply Nat.eqb_eq in Hz. lia.
  - eexists. reflexivity.
Qed.

Lemma best_window_returns (self : t F) (hours : list Z) (duration_hours : Z)
    (n : nat) (first : Z) (best_ci : F) (best_start : option Z) :
  0 <= first -> 1 <= duration_hours ->
  first + Z.of_nat n + duration_hours - 1 <= Z.of_nat (length hours) ->
  best_so_far self hours duration_hours first (best_ci, best_start) ->
  exists best,
    best_window self hours duration_hours (seqZ first (Z.of_nat n)) best_ci best_start
    = Return best
    /\ best_so_far self hours duration_hours (first + Z.of_nat n) best.
Proof.
  revert first best_ci best_start.
  induction n as [|n IH]; intros first best_ci best_start Hfirst Hd Hlen Hinv.
  - exists (best_ci, best_start). split; [reflexivity|].
    rewrite Z.add_0_r. exact Hinv.
  - rewrite seqZ_cons by lia. cbn [best_window].
    destruct (window_average_returns self hours first duration_hours)
      as [avg_ci Havg]; [lia..|].
    rewrite Havg. cbn [bind].
    replace (Z.pred (Z.of_nat (S n))) with (Z.of_nat n) by lia.
    replace (first + Z.of_nat (S n)) with (Z.succ first + Z.of_nat n) by lia.
    destruct (avg_ci <? best_ci)%py.
    + apply IH; [lia..|]. split; [lia|exact Havg].
    + apply IH; [lia..|].
      unfold best_so_far in *. cbn [snd fst] in *.
      destruct best_start as [j|]; [|exact I].
      destruct Hinv as [Hj Hw]. split; [lia|exact Hw].
Qed.

(** X20: asked for a window of zero hours, [get_best_time_window]
    raises ZeroDivisionError, whatever the search window (of zero hours
    or more) and the data: the first candidate window is empty and its
    average divides by its length. *)
Theorem best_time_window_of_no_duration_raises
    (self : t F) (start_time : datetime) (window_hours : Z) :
  0 <= window_hours ->
  get_best_time_window self start_time window_hours 0
  = Raise (ZeroDivisionError "division by zero").
Proof.
  intros Hw. unfold get_best_time_window.
  rewrite seqZ_cons by lia. cbn [best_window].
  unfold window_average. rewrite py_slice_empty. reflexivity.
Qed.

(** X21: when the duration asked for exceeds the search window by two
    hours or more, [get_best_time_window] looks at no window at all and
    returns the start time itself with the overall mean carbon
    intensity. *)
Theorem best_time_window_longer_than_search_is_the_start
    (self : t F) (start_time : datetime) (window_hours duration_hours : Z) :
  window_hours - duration_hours + 1 <= 0 ->
  get_best_time_window self start_time window_hours duration_hours
  = Return (start_time, mean_ci self).
Proof.
  intros Hw. unfold get_best_time_window.
  rewrite seqZ_nil by lia. reflexivity.
Qed.

(** X22: for a duration of at least one hour that fits in the search
    window, [get_best_time_window] returns.  The time it returns is on
    the calendar day of the start time: it is the start time itself, or
    the start time with its hour of day replaced by the hour, modulo 24,
    at which one of the candidate windows begins, and the value returned
    with it is that window's average; the windows run over the hours of
    day that follow the start time's, modulo 24.  A window that begins after
    midnight is therefore reported at an hour before the start time. *)
Theorem best_time_window_is_on_the_day_of_the_start
    (self : t F) (start_time : datetime) (window_hours duration_hours : Z) :
  1 <= duration_hours <= window_hours ->
  exists (best_time : datetime) (best_ci : F),
    get_best_time_window self start_time window_hours duration_hours
    = Return (best_time, best_ci)
    /\ date_of best_time = date_of start_time
    /\ ((best_time = start_time /\ best_ci = mean_ci self)
        \/ exists best_start,
             0 <= best_start <= window_hours - duration_hours
             /\ hour_of best_time = (hour_of start_time + best_start) `mod` 24
             /\ window_average self
                  (map (fun k => (hour_of start_time + k) `mod` 24)
                       (seqZ 0 window_hours))
                  best_start duration_hours
                = Return best_ci).
Proof.
  intros Hd. unfold get_best_time_window.
  rewrite collect_hours_spec. cbn [app]. rewrite Z2Nat.id by lia.
  set (hours := map (fun k => (hour_of start_time + k) `mod` 24)
                    (seqZ 0 window_hours)).
  destruct (best_window_returns self hours duration_hours
              (Z.to_nat (window_hours - duration_hours + 1)) 0 inf None)
    as ([best_ci best_start] & Hbest & Hinv).
  - lia.
  - lia.
  - unfold hours. rewrite length_map, length_seqZ. lia.
  - exact I.
  - rewrite Z2Nat.id in Hbest by lia. rewrite Hbest. cbn [bind snd fst].
    unfold best_so_far in Hinv. cbn [snd fst] in Hinv.
    destruct best_start as [j|].
    + destruct Hinv as [Hj Hw].
      destruct (replace_hour_spec start_time ((hour_of start_time + j) `mod` 24))
        as [Hdate Hhour]; [apply Z.mod_pos_bound; lia|].
      eexists _, _. split; [reflexivity|]. split; [exact Hdate|].
      right. exists j. split; [lia|]. split; [exact Hhour|exact Hw].
    + eexists _, _. split; [reflexivity|]. split; [reflexivity|].
      left. split; reflexivity.
Qed.

End BestTimeWindow.

(* ===================================================================== *)
(** ** The further properties on concrete inputs                          *)
(* ===================================================================== *)

Section FurtherEvaluations.

(** The tracker of Texas. *)
Lemma carbon_file_is_chosen_by_location_code_witness :
  match CarbonIntensityTracker.__init__ (F := float) "TX" return Prop with
  | Return tracker =>
      CarbonIntensityTracker.grid_region tracker = "ERCO"
      /\ CarbonIntensityTracker.CI_FILES !! CarbonIntensityTracker.grid_region tracker
         = None
      /\ CarbonIntensityTracker.ci_file tracker = "TX_NG_&_avgCI.csv"
  | Raise _ => False
  end.
Proof.
  destruct (CarbonIntensityTracker.__init__ (F := float) "TX")
    as [tracker|e] eqn:Hinit; [|vm_compute in Hinit; discriminate Hinit].
  destruct (carbon_file_is_chosen_by_location_code "TX" tracker Hinit)
    as (Hgrid & Hfile & _).
  split; [|split; [exact Hgrid|exact Hfile]].
  vm_compute in Hinit. injection Hinit as <-. reflexivity.
Defined.

(** The location manager of New York. *)
Lemma constructed_location_manager_is_known_witness :
  match LocationManager.__init__ (F := float) "NY" return Prop with
  | Return manager =>
      LocationManager.get_location_info manager
      = {[ "code" := "NY"; "name" := "New York";
           "weather_file" := "USA_NY_New.York-LaGuardia.epw" ]}
  | Raise _ => False
  end.
Proof.
  destruct (LocationManager.__init__ (F := float) "NY")
    as [manager|e] eqn:Hinit; [|vm_compute in Hinit; discriminate Hinit].
  destruct (constructed_location_manager_is_known "NY" manager Hinit)
    as (name & file & Hname & Hfile & Hinfo & _).
  vm_compute in Hname. injection Hname as <-.
  vm_compute in Hfile. injection Hfile as <-.
  exact Hinfo.
Defined.

(** The first sample hour and the same hour 360 days later, on the
    calendar of thirty-day months. *)
Lemma weather_lookup_depends_on_month_day_hour_witness :
  let self : LocationManager.t float :=
    {| LocationManager.location_code := "TX";
       LocationManager.location_name := "Texas";
       LocationManager.weather_data := Sample.weather |} in
  LocationManager.get_temperature (W := Sample.thirty_day_months true) self
    Sample.june_1_2023
  = LocationManager.get_temperature (W := Sample.thirty_day_months true) self
      (Sample.june_1_2023 + 360 * 24).
Proof.
  cbv zeta.
  destruct (weather_lookup_depends_on_month_day_hour
              (W := Sample.thirty_day_months true)
              {| LocationManager.location_code := "TX";
                 LocationManager.location_name := "Texas";
                 LocationManager.weather_data := Sample.weather (F := float) |}
              Sample.june_1_2023 (Sample.june_1_2023 + 360 * 24)) as (H & _);
    [vm_compute; reflexivity..|exact H].
Defined.

(** Midnight of the two days after the sample day. *)
Lemma carbon_intensity_off_the_record_depends_on_hour_witness :
  match CarbonIntensityTracker.__init__ (F := float) "TX" return Prop with
  | Return tracker =>
      CarbonIntensityTracker.get_carbon_intensity tracker (Sample.june_1_2023 + 24)
      = CarbonIntensityTracker.get_carbon_intensity tracker (Sample.june_1_2023 + 48)
  | Raise _ => False
  end.
Proof.
  destruct (CarbonIntensityTracker.__init__ (F := float) "TX")
    as [tracker|e] eqn:Hinit; [|vm_compute in Hinit; discriminate Hinit].
  vm_compute in Hinit. injection Hinit as <-.
  refine (proj2 (carbon_intensity_off_the_record_depends_on_hour _
                   (Sample.june_1_2023 + 24) (Sample.june_1_2023 + 48) _ _ _)).
  - apply Forall_cons_2; [vm_compute; discriminate|].
    apply Forall_cons_2; [vm_compute; discriminate|apply Forall_nil_2].
  - apply Forall_cons_2; [vm_compute; discriminate|].
    apply Forall_cons_2; [vm_compute; discriminate|apply Forall_nil_2].
  - vm_compute. reflexivity.
Defined.


(** The sample model, loaded with an empty specification. *)
Lemma loading_nothing_changes_nothing_witness :
  match Solstice.__init__ (F := float) None "TX" "water" (lit 1.0) "2023-06-01" 1
          (lit 1.0) (lit 1.1) return Prop with
  | Return m =>
      Solstice.load_research_paper_model
        {| Solstice.server_specs := None; Solstice.cooling_parameters := None |} m
      = (m, None)
  | Raise _ => False
  end.
Proof.
  destruct (Solstice.__init__ (F := float) None "TX" "water" (lit 1.0) "2023-06-01" 1
              (lit 1.0) (lit 1.1)) as [m|e] eqn:Hinit;
    [|vm_compute in Hinit; discriminate Hinit].
  exact (loading_nothing_changes_nothing _ _ _ _ _ _ _ _ m Hinit).
Defined.

(** An air-cooled and a water-cooled sample model, both run for a day,
    compared through the interface: KeyError. *)
Lemma compare_models_never_returns_a_comparison_witness :
  match Solstice.__init__ (F := float) None "TX" "air" (lit 1.0) "2023-06-01" 1
          (lit 1.0) (lit 1.1),
        Solstice.__init__ (F := float) None "TX" "water" (lit 1.0) "2023-06-01" 1
          (lit 1.0) (lit 1.1) return Prop with
  | Return air, Return water =>
      LLMQueryInterface.compare_models
        (fun _ _ _ _ => LLMQueryInterface.Returned "comparison")
        {| LLMQueryInterface.models :=
             {[ "air" :=
                  {| LLMQueryInterface.model := (Solstice.run_simulation None air).1;
                     LLMQueryInterface.params := ∅;
                     LLMQueryInterface.has_data := true |};
                "water" :=
                  {| LLMQueryInterface.model := (Solstice.run_simulation None water).1;
                     LLMQueryInterface.params := ∅;
                     LLMQueryInterface.has_data := true |} ]};
           LLMQueryInterface.active_model := Some "air" |}
        "air" "water" None
      = LLMQueryInterface.Raised (LLMQueryInterface.KeyError "average_power_kw")
  | _, _ => False
  end.
Proof.
  destruct (Solstice.__init__ (F := float) None "TX" "air" (lit 1.0) "2023-06-01" 1
              (lit 1.0) (lit 1.1)) as [air|e] eqn:Hair;
    [|vm_compute in Hair; discriminate Hair].
  destruct (Solstice.__init__ (F := float) None "TX" "water" (lit 1.0) "2023-06-01" 1
              (lit 1.0) (lit 1.1)) as [water|e] eqn:Hwater;
    [|vm_compute in Hwater; discriminate Hwater].
  pose proof (compare_models_never_returns_a_comparison
                (fun _ _ _ _ => LLMQueryInterface.Returned "comparison")
                {| LLMQueryInterface.models :=
                     {[ "air" :=
                          {| LLMQueryInterface.model :=
                               (Solstice.run_simulation None air).1;
                             LLMQueryInterface.params := ∅;
                             LLMQueryInterface.has_data := true |};
                        "water" :=
                          {| LLMQueryInterface.model :=
                               (Solstice.run_simulation None water).1;
                             LLMQueryInterface.params := ∅;
                             LLMQueryInterface.has_data := true |} ]};
                   LLMQueryInterface.active_model := Some "air" |}
                "air" "water" None eq_refl) as Hcompare.
  vm_compute in Hair. injection Hair as <-.
  vm_compute in Hwater. injection Hwater as <-.
  vm_compute. reflexivity.
Defined.

(** The tracker of Texas, asked for a window of no hours in a day. *)
Lemma best_time_window_of_no_duration_raises_witness :
  match CarbonIntensityTracker.__init__ (F := float) "TX" return Prop with
  | Return tracker =>
      CarbonIntensityTracker.get_best_time_window tracker Sample.june_1_2023 24 0
      = Raise (ZeroDivisionError "division by zero")
  | Raise _ => False
  end.
Proof.
  destruct (CarbonIntensityTracker.__init__ (F := float) "TX")
    as [tracker|e] eqn:Hinit; [|vm_compute in Hinit; discriminate Hinit].
  apply best_time_window_of_no_duration_raises. lia.
Defined.

(** The tracker of Texas, asked for four hours within two. *)
Lemma best_time_window_longer_than_search_is_the_start_witness :
  match CarbonIntensityTracker.__init__ (F := float) "TX" return Prop with
  | Return tracker =>
      CarbonIntensityTracker.get_best_time_window tracker Sample.june_1_2023 2 4
      = Return (Sample.june_1_2023, CarbonIntensityTracker.mean_ci tracker)
  | Raise _ => False
  end.
Proof.
  destruct (CarbonIntensityTracker.__init__ (F := float) "TX")
    as [tracker|e] eqn:Hinit; [|vm_compute in Hinit; discriminate Hinit].
  apply best_time_window_longer_than_search_is_the_start. lia.
Defined.

(** The tracker of Texas, asked at 22:00 for the best hour of the next
    four: the hour from 01:00, reported as 01:00 of the same day, 21
    hours before the start time. *)
Lemma best_time_window_is_on_the_day_of_the_start_witness :
  match CarbonIntensityTracker.__init__ (F := float) "TX" return Prop with
  | Return tracker =>
      CarbonIntensityTracker.get_best_time_window tracker
        (Sample.june_1_2023 + 22) 4 1
      = Return (Sample.june_1_2023 + 1, lit 350.0)
      /\ date_of (Sample.june_1_2023 + 1) = date_of (Sample.june_1_2023 + 22)
  | Raise _ => False
  end.
Proof.
  destruct (CarbonIntensityTracker.__init__ (F := float) "TX")
    as [tracker|e] eqn:Hinit; [|vm_compute in Hinit; discriminate Hinit].
  destruct (best_time_window_is_on_the_day_of_the_start tracker
              (Sample.june_1_2023 + 22) 4 1) as (best_time & best_ci & Hbest & Hdate & _);
    [lia|].
  vm_compute in Hinit. injection Hinit as <-.
  assert (Hvalue :
    CarbonIntensityTracker.get_best_time_window
      {| CarbonIntensityTracker.location_code := "TX";
         CarbonIntensityTracker.grid_region := "ERCO";
         CarbonIntensityTracker.ci_file := "TX_NG_&_avgCI.csv";
         CarbonIntensityTracker.carbon_data := Sample.carbon;
         CarbonIntensityTracker.min_ci := lit 350.0;
         CarbonIntensityTracker.max_ci := lit 400.0;
         CarbonIntensityTracker.mean_ci := lit 375.0;
         CarbonIntensityTracker.median_ci := lit 375.0 |}
      (Sample.june_1_2023 + 22) 4 1
    = Return (Sample.june_1_2023 + 1, lit 350.0))
    by (vm_compute; reflexivity).
  split; [exact Hvalue|].
  assert (Hsame : Return (best_time, best_ci)
                  = Return (Sample.june_1_2023 + 1, lit (F := float) 350.0)).
  { rewrite <- Hbest. exact Hvalue. }
  injection Hsame as -> _. exact Hdate.
Defined.

End FurtherEvaluations.
